(** * Timetable generator: constraint model and backtracking scheduler

    A shallow embedding of the two schedulers of the repository:

    - [CpModel] follows [Back-end/lastThingIHope.py]: instance generation,
      the feasibility pre-check, the variable domains and the constraints
      posted to the CP-SAT engine, and the extraction of the schedule;
    - [Backtracking] follows [Back-end/scheduler.py]: the catalogue
      indexes, the candidate rooms and instructors, the validity test,
      placement and removal of an assignment, the section-by-section and
      the course-by-course search, and the extraction of the solution.

    The definitions come first, then the worked inputs, then the
    properties, each module of properties next to the module it is about.

    Python integers are [Z]; [//] and [%] are [Z.div] and [Z.modulo], which
    agree with Python's floor division for every sign of the operands.
    An absent dictionary key read with [.get] is an [option]. *)

From stdpp Require Import gmap strings list fin_maps pretty.

#[local] Set Warnings "-clear-no-such-hyp".

Local Open Scope string_scope.
Local Open Scope list_scope.
Local Open Scope Z_scope.

(** ** Python helpers shared by both modules *)

(** [range(a, b)]. *)
Definition range (a b : Z) : list Z := seqZ a (b - a).

(** Truthiness of a value read with [.get]: [None], [0] and the empty
    string are false. *)
Definition truthy_str (o : option string) : bool :=
  match o with
  | Some s => negb (String.eqb s "")
  | None => false
  end.

Definition truthy_Z (n : Z) : bool := negb (n =? 0).

(** [x in l] on a Python list. *)
Definition py_in `{EqDecision A} (x : A) (l : list A) : bool :=
  bool_decide (x ∈ l).

(** [l[i]] on a Python list: a negative index counts from the end, an index
    out of range raises [IndexError] ([None]). *)
Definition py_index {A} (l : list A) (i : Z) : option A :=
  if decide (0 ≤ i) then l !! Z.to_nat i
  else if decide (0 ≤ Z.of_nat (length l) + i)
       then l !! Z.to_nat (Z.of_nat (length l) + i)
       else None.

(** [enumerate(l)]. *)
Definition enumerate {A} (l : list A) : list (nat * A) := imap pair l.

Module CpModel.

(** *** Configuration *)

Definition DAYS : list string :=
  ["Sunday"; "Monday"; "Tuesday"; "Wednesday"; "Thursday"].
Definition PERIODS_PER_DAY : Z := 4.
Definition BASE_SLOT_MINUTES : Z := 45.
Definition SLOTS_PER_DAY : Z := PERIODS_PER_DAY * (90 / BASE_SLOT_MINUTES).

Record Params := {
  days : list string;
  periods_per_day : Z;
  base_slot_minutes : Z
}.

(** [subslots_needed]: [None] stands for the raised [ValueError] (and for
    the [ZeroDivisionError] of a zero base). *)
Definition subslots_needed (length_minutes base : Z) : option Z :=
  if decide (base = 0) then None
  else if decide (length_minutes mod base ≠ 0) then None
  else Some (length_minutes / base).

Definition valid_room_types_for_session (session_type : string) : list string :=
  if decide (session_type = "Lecture") then ["classroom"; "theater"; "hall"]
  else if decide (session_type = "Tut") then ["classroom"; "computer lab"; "hall"]
  else if decide (session_type = "Lab") then
    ["computer lab"; "electronics lab"; "physics lab"; "chemistry lab"; "bio lab"]
  else if decide (session_type = "Project") then ["hall"; "theater"; "classroom"]
  else ["classroom"].

(** *** The input document *)

Record Room := {
  room_id : string;
  r_type : string;
  r_capacity : option Z;          (* read with [.get('capacity', 0)] *)
  r_building : string
}.

Record Instructor := {
  instr_id : string;
  role : string;
  qualified_courses : list string (* [.get('qualified_courses', [])] *)
}.

Record Group := {
  g_group_id : string;
  g_year : option Z;              (* [.get('year')] *)
  g_specialization : option string;
  g_students_count : Z            (* [.get('students_count', 0)] *)
}.

Record Section := {
  s_section_id : string;
  s_group_id : string;
  s_students_count : Z
}.

Record Kind := {
  k_type : option string;         (* [.get('type')] *)
  k_length : option Z;            (* [.get('length')] *)
  k_lab_type : option string;
  k_sessions_per_week : option Z;
  k_ignore_capacity : bool        (* in the document; never read here *)
}.

Record Course := {
  c_course_id : string;
  c_year : option Z;
  c_major : option string;
  c_is_project : bool;            (* [.get('is_project', False)] *)
  c_kinds : list Kind
}.

(** A generated instance: a dictionary whose keys depend on the branch
    that built it. *)
Record Instance := {
  instance_id : string;
  course_id : string;
  i_type : string;
  group_id : option string;
  section_id : option string;
  sessions_per_week : option Z;
  length_minutes : option Z;
  expected_students : Z;          (* [.get('expected_students', 0)] *)
  lab_type : option string;
  has_instructor : option bool;
  is_project : bool
}.

(** *** generate_instances *)

Definition eligible_group (course : Course) (g : Group) : bool :=
  bool_decide (g_year g = c_year course)
  && match c_major course with
     | None => true
     | Some m => bool_decide (g_specialization g = Some m)
     end.

Definition target_groups (course : Course) (groups : list Group) : list Group :=
  List.filter (eligible_group course) groups.

Definition target_sections (course : Course) (groups : list Group)
    (sections : list Section) : list Section :=
  List.filter
    (fun s => py_in (s_group_id s) (g_group_id <$> target_groups course groups))
    sections.

Definition project_len (klen : option Z) : Z :=
  match klen with
  | Some l => if truthy_Z l && (PERIODS_PER_DAY * 90 <=? l)
              then l else PERIODS_PER_DAY * 90
  | None => PERIODS_PER_DAY * 90
  end.

Definition project_instance (course : Course) (kind : Kind) (g : Group) : Instance :=
  {| instance_id := c_course_id course +:+ "_" +:+ g_group_id g +:+ "_PROJECT";
     course_id := c_course_id course;
     i_type := "Project";
     group_id := Some (g_group_id g);
     section_id := None;
     sessions_per_week := Some 1;
     length_minutes := Some (project_len (k_length kind));
     expected_students := g_students_count g;
     lab_type := None;
     has_instructor := Some false;
     is_project := true |}.

Definition lecture_instance (course : Course) (kind : Kind) (g : Group) : Instance :=
  {| instance_id := c_course_id course +:+ "_" +:+ g_group_id g +:+ "_LEC";
     course_id := c_course_id course;
     i_type := "Lecture";
     group_id := Some (g_group_id g);
     section_id := None;
     sessions_per_week := Some (default 2 (k_sessions_per_week kind));
     length_minutes := k_length kind;
     expected_students := g_students_count g;
     lab_type := None;
     has_instructor := None;
     is_project := false |}.

Definition tut_instance (course : Course) (kind : Kind) (s : Section) : Instance :=
  {| instance_id := c_course_id course +:+ "_" +:+ s_section_id s +:+ "_TUT";
     course_id := c_course_id course;
     i_type := "Tut";
     group_id := None;
     section_id := Some (s_section_id s);
     sessions_per_week := Some (default 1 (k_sessions_per_week kind));
     length_minutes := k_length kind;
     expected_students := s_students_count s;
     lab_type := None;
     has_instructor := None;
     is_project := false |}.

Definition lab_instance (course : Course) (kind : Kind) (s : Section) : Instance :=
  {| instance_id := c_course_id course +:+ "_" +:+ s_section_id s +:+ "_LAB";
     course_id := c_course_id course;
     i_type := "Lab";
     group_id := None;
     section_id := Some (s_section_id s);
     sessions_per_week := Some (default 1 (k_sessions_per_week kind));
     length_minutes := k_length kind;
     expected_students := s_students_count s;
     lab_type := k_lab_type kind;
     has_instructor := None;
     is_project := false |}.

(** The body of the loop over [course.get('kinds', [])]. *)
Definition instances_of_kind (course : Course) (groups : list Group)
    (sections : list Section) (kind : Kind) : list Instance :=
  if c_is_project course then
    project_instance course kind <$> target_groups course groups
  else if decide (k_type kind = Some "Lecture") then
    lecture_instance course kind <$> target_groups course groups
  else if decide (k_type kind = Some "Tut") then
    tut_instance course kind <$> target_sections course groups sections
  else if decide (k_type kind = Some "Lab") then
    lab_instance course kind <$> target_sections course groups sections
  else [].

Definition generate_instances (courses : list Course) (groups : list Group)
    (sections : list Section) : list Instance :=
  List.flat_map
    (fun course =>
       List.flat_map (instances_of_kind course groups sections) (c_kinds course))
    courses.

(** *** quick_feasibility_checks *)

Definition is_lab (inst : Instance) : bool := bool_decide (i_type inst = "Lab").

(** The three tests of the room loop of the pre-check; a room that passes
    all of them sets [found_room]. *)
Definition precheck_room_ok (inst : Instance) (r : Room) : bool :=
  py_in (r_type r) (valid_room_types_for_session (i_type inst))
  && negb (is_lab inst && bool_decide (Some (r_type r) ≠ lab_type inst))
  && negb (truthy_Z (expected_students inst)
           && (default 0 (r_capacity r) <? expected_students inst)).

Definition instr_ok (inst : Instance) (instr : Instructor) : bool :=
  py_in (course_id inst) (qualified_courses instr)
  && ((bool_decide (i_type inst = "Lecture") && bool_decide (role instr = "Professor"))
      || (py_in (i_type inst) ["Lab"; "Tut"] && bool_decide (role instr = "TA"))).

Definition pretty_length (L : option Z) : string :=
  match L with Some l => pretty l | None => "None" end.

Definition err_invalid_length (inst : Instance) : string :=
  instance_id inst +:+ ": invalid length_minutes "
    +:+ pretty_length (length_minutes inst).
Definition err_lab_type (inst : Instance) : string :=
  instance_id inst
    +:+ ": lab_type not specified in course definition (required for Lab)".
Definition err_no_room (inst : Instance) : string :=
  instance_id inst +:+ ": no compatible room (type/capacity)".
Definition err_no_instructor (inst : Instance) : string :=
  instance_id inst +:+ ": no qualified instructor (role/qualification) found".

(** [L is None or L % base != 0]; the modulo raises on a zero base. *)
Definition length_errors (base : Z) (inst : Instance) : option (list string) :=
  match length_minutes inst with
  | None => Some [err_invalid_length inst]
  | Some l =>
      if decide (base = 0) then None
      else if decide (l mod base ≠ 0) then Some [err_invalid_length inst]
      else Some []
  end.

Definition room_errors (rooms : list Room) (inst : Instance) : list string :=
  if existsb (precheck_room_ok inst) rooms then [] else [err_no_room inst].

Definition instructor_errors (instructors : list Instructor) (inst : Instance)
    : list string :=
  if bool_decide (i_type inst ≠ "Project") then
    if existsb (instr_ok inst) instructors then [] else [err_no_instructor inst]
  else [].

(** The errors one instance appends, in order.  A Lab without a lab type
    reports that and skips the room and instructor checks ([continue]). *)
Definition check_instance (rooms : list Room) (instructors : list Instructor)
    (base : Z) (inst : Instance) : option (list string) :=
  errs ← length_errors base inst;
  if is_lab inst && negb (truthy_str (lab_type inst)) then
    Some (errs ++ [err_lab_type inst])%list
  else
    Some (errs ++ room_errors rooms inst
               ++ instructor_errors instructors inst)%list.

Record Data := {
  rooms : list Room;
  instructors : list Instructor;
  instances : list Instance
}.

Definition quick_feasibility_checks (data : Data) (params : Params)
    : option (list string) :=
  per_instance ← mapM (check_instance (rooms data) (instructors data)
                         (base_slot_minutes params)) (instances data);
  Some (concat per_instance).

(** *** build_and_solve: occurrences and variable domains *)

Record Occurrence := { o_instance : Instance; o_occ : Z }.

Definition occurrences_of (insts : list Instance) : list Occurrence :=
  List.flat_map
    (fun inst =>
       (fun k => {| o_instance := inst; o_occ := k |})
         <$> range 0 (default 1 (sessions_per_week inst)))
    insts.

(** [inst['length_minutes']] handed to [subslots_needed]; a missing length
    makes the modulo raise. *)
Definition needed_of (inst : Instance) (base : Z) : option Z :=
  L ← length_minutes inst; subslots_needed L base.

(** The comprehension that builds [valid_starts]; dividing by a zero
    [slots_per_day] raises as soon as one candidate is tested. *)
Definition valid_starts (total_subslots slots_per_day needed : Z)
    : option (list Z) :=
  let candidates := range 0 (total_subslots - needed + 1) in
  if decide (slots_per_day = 0 ∧ candidates ≠ []) then None
  else Some (List.filter
               (fun s => s / slots_per_day =? (s + needed - 1) / slots_per_day)
               candidates).

Definition build_room_ok (inst : Instance) (r : Room) : bool :=
  py_in (r_type r) (valid_room_types_for_session (i_type inst))
  && negb (is_lab inst && truthy_str (lab_type inst)
           && bool_decide (Some (r_type r) ≠ lab_type inst))
  && negb (truthy_Z (expected_students inst)
           && (default 0 (r_capacity r) <? expected_students inst)).

Definition room_candidates (rms : list Room) (inst : Instance) : list nat :=
  (List.filter (fun ir => build_room_ok inst ir.2) (enumerate rms)).*1.

(** The candidates, widened to every room when there is none. *)
Definition room_domain (rms : list Room) (inst : Instance) : list nat :=
  match room_candidates rms inst with
  | [] => match rms with [] => [0%nat] | _ => seq 0 (length rms) end
  | c => c
  end.

Definition instr_candidates (ins : list Instructor) (inst : Instance) : list nat :=
  (List.filter (fun ii => instr_ok inst ii.2) (enumerate ins)).*1.

(** [None]: the occurrence has no instructor variable. *)
Definition instr_domain (ins : list Instructor) (inst : Instance)
    : option (list nat) :=
  if bool_decide (i_type inst = "Project")
     || negb (default true (has_instructor inst))
  then None
  else match instr_candidates ins inst with
       | [] => None
       | c => Some c
       end.

(** The variables of one occurrence with their domains, and the
    [(start, day)] table that links the start to the day. *)
Record OccVars := {
  v_occ : Occurrence;
  v_needed : Z;
  v_starts : list Z;
  v_rooms : list nat;
  v_instrs : option (list nat);
  v_pairs : list (Z * Z)
}.

Record Model := {
  m_vars : list OccVars;
  m_num_days : Z
}.

Definition slots_per_day_of (params : Params) : option Z :=
  if decide (base_slot_minutes params = 0) then None
  else Some (periods_per_day params * (90 / base_slot_minutes params)).

Definition build_vars (data : Data) (params : Params) (spd : Z)
    (o : Occurrence) : option OccVars :=
  let inst := o_instance o in
  let total_subslots := Z.of_nat (length (days params)) * spd in
  needed ← needed_of inst (base_slot_minutes params);
  starts ← valid_starts total_subslots spd needed;
  Some {| v_occ := o;
          v_needed := needed;
          v_starts := starts;
          v_rooms := room_domain (rooms data) inst;
          v_instrs := instr_domain (instructors data) inst;
          v_pairs := (fun s => (s, s / spd)) <$> starts |}.

Definition build_model (data : Data) (params : Params) : option Model :=
  spd ← slots_per_day_of params;
  vars ← mapM (build_vars data params spd) (occurrences_of (instances data));
  Some {| m_vars := vars; m_num_days := Z.of_nat (length (days params)) |}.

(** *** The constraints

    The values the engine gives to the variables of occurrence [idx].  The
    auxiliary Booleans of the model are each tied to a comparison in both
    directions ([OnlyEnforceIf(b)] and [OnlyEnforceIf(b.Not())]), so they
    are written here as the comparisons themselves. *)
Record Values := {
  val_start : nat → Z;
  val_room : nat → nat;
  val_instr : nat → nat;
  val_day : nat → Z
}.

Definition share_students (inst_i inst_j : Instance) : bool :=
  (truthy_str (group_id inst_i) && truthy_str (group_id inst_j)
   && bool_decide (group_id inst_i = group_id inst_j))
  || (truthy_str (section_id inst_i) && truthy_str (section_id inst_j)
      && bool_decide (section_id inst_i = section_id inst_j)).

(** [i_before_j or j_before_i]. *)
Definition disjoint (start_i len_i start_j len_j : Z) : bool :=
  (start_i + len_i <=? start_j) || (start_j + len_j <=? start_i).

Definition var_ok (num_days : Z) (v : Values) (idx : nat) (x : OccVars) : bool :=
  py_in (val_start v idx) (v_starts x)
  && py_in (val_room v idx) (v_rooms x)
  && match v_instrs x with
     | Some d => py_in (val_instr v idx) d
     | None => true
     end
  && (0 <=? val_day v idx) && (val_day v idx <=? num_days - 1)
  && py_in (val_start v idx, val_day v idx) (v_pairs x).

Definition pair_ok (v : Values) (i j : nat) (xi xj : OccVars) : bool :=
  let apart :=
    disjoint (val_start v i) (v_needed xi) (val_start v j) (v_needed xj) in
  let same_room := bool_decide (val_room v i = val_room v j) in
  let same_day := bool_decide (val_day v i = val_day v j) in
  let same_instr := bool_decide (val_instr v i = val_instr v j) in
  implb same_room apart
  && implb (share_students (o_instance (v_occ xi)) (o_instance (v_occ xj))) apart
  && match v_instrs xi, v_instrs xj with
     | Some _, Some _ => apart || negb same_instr || negb same_day
     | _, _ => true
     end
  && (apart || negb same_day || negb same_room).

Definition project_key (x : OccVars) : option string :=
  let inst := o_instance (v_occ x) in
  if bool_decide (i_type inst = "Project") && truthy_str (group_id inst)
  then group_id inst else None.

(** [proj_map[gid]]. *)
Definition proj_idxs (vars : list OccVars) (gid : string) : list nat :=
  (List.filter (fun ix => bool_decide (project_key ix.2 = Some gid))
     (enumerate vars)).*1.

Definition project_ok (v : Values) (vars : list OccVars) : bool :=
  forallb
    (fun x =>
       match project_key x with
       | Some gid =>
           match proj_idxs vars gid with
           | ref :: others =>
               forallb (fun other => val_day v ref =? val_day v other) others
           | [] => true
           end
       | None => true
       end)
    vars.

Definition satisfies (m : Model) (v : Values) : bool :=
  forallb (fun ix => var_ok (m_num_days m) v ix.1 ix.2) (enumerate (m_vars m))
  && forallb
       (fun ix =>
          forallb
            (fun jx => if (ix.1 <? jx.1)%nat
                       then pair_ok v ix.1 jx.1 ix.2 jx.2 else true)
            (enumerate (m_vars m)))
       (enumerate (m_vars m))
  && project_ok v (m_vars m).

(** *** Solving and extracting the schedule *)

Inductive Status := OPTIMAL | FEASIBLE | INFEASIBLE | UNKNOWN | MODEL_INVALID.

Record Entry := {
  e_instance_id : string;
  e_course_id : string;
  e_type : string;
  e_day : string;
  e_period : Z;
  e_subslot : Z;
  e_start_subslot_index : Z;
  e_length_subslots : Z;
  e_room_id : string;
  e_room_type : string;
  e_instructor_id : option string;
  e_group_id : option string;
  e_section_id : option string
}.

(** [statistics] keeps [num_sessions]; the measured solver time is left
    out. *)
Inductive Result :=
  | INPUT_ERROR (errors : list string)
  | Scheduled (status : Status) (num_sessions : nat) (schedule : list Entry)
  | Unscheduled (status : Status) (num_sessions : nat) (unscheduled : list string).

Definition entry_instance_id (o : Occurrence) : string :=
  instance_id (o_instance o)
    +:+ (if decide (o_occ o ≠ 0) then "#" +:+ pretty (o_occ o) else "").

(** One iteration of the extraction loop; [None] when an index or a
    division raises. *)
Definition entry_of (data : Data) (spd : Z) (v : Values) (idx : nat)
    (x : OccVars) : option Entry :=
  let inst := o_instance (v_occ x) in
  let s := val_start v idx in
  if decide (spd = 0) then None else
  let day := s / spd in
  let sub_in_day := s mod spd in
  let period := sub_in_day / (90 / BASE_SLOT_MINUTES) + 1 in
  let subslot := sub_in_day mod (90 / BASE_SLOT_MINUTES) in
  instr_id ← match v_instrs x with
              | Some _ => instr ← instructors data !! val_instr v idx;
                          Some (Some (instr_id instr))
              | None => Some None
              end;
  day_name ← py_index DAYS day;
  len ← needed_of inst BASE_SLOT_MINUTES;
  room ← rooms data !! val_room v idx;
  Some {| e_instance_id := entry_instance_id (v_occ x);
          e_course_id := course_id inst;
          e_type := i_type inst;
          e_day := day_name;
          e_period := period;
          e_subslot := subslot;
          e_start_subslot_index := s;
          e_length_subslots := len;
          e_room_id := room_id room;
          e_room_type := r_type room;
          e_instructor_id := instr_id;
          e_group_id := group_id inst;
          e_section_id := section_id inst |}.

(** The record that stands for an occurrence in the schedule. *)
Definition entry_matches (e : Entry) (o : Occurrence) : Prop :=
  e_instance_id e = entry_instance_id o
  ∧ e_course_id e = course_id (o_instance o)
  ∧ e_type e = i_type (o_instance o)
  ∧ e_group_id e = group_id (o_instance o)
  ∧ e_section_id e = section_id (o_instance o).

Section Solve.

(** The CP-SAT engine: the status it reports and the values it holds. *)
Variable cp_solve : Model → Status * Values.

(** [None]: an exception leaves the function. *)
Definition build_and_solve (data : Data) (params : Params) : option Result :=
  errs ← quick_feasibility_checks data params;
  match errs with
  | _ :: _ => Some (INPUT_ERROR errs)
  | [] =>
      spd ← slots_per_day_of params;
      m ← build_model data params;
      let (status, v) := cp_solve m in
      let n := length (m_vars m) in
      match status with
      | OPTIMAL | FEASIBLE =>
          schedule ← mapM (fun ix => entry_of data spd v ix.1 ix.2)
                          (enumerate (m_vars m));
          Some (Scheduled status n schedule)
      | _ =>
          Some (Unscheduled status n
                  ((fun x => instance_id (o_instance (v_occ x))) <$> m_vars m))
      end
  end.

End Solve.

End CpModel.

Module Backtracking.

(** *** Data models *)

Record CourseKind := {
  k_type : string;
  k_length : Z;
  k_lab_type : option string;
  max_sections_together : Z;
  ignore_capacity : bool
}.

Record Course := {
  course_id : string;
  c_name : string;
  c_year : Z;
  major : option string;
  kinds : list CourseKind;
  full_year : bool;
  is_project : bool
}.

Record Room := {
  room_id : string;
  r_type : string;
  capacity : Z;
  building : string
}.

Record Instructor := {
  instr_id : string;
  i_name : string;
  role : string;
  qualified_courses : list string
}.

Record Group := {
  group_id : string;
  g_year : Z;
  specialization : option string;
  sections_count : Z;
  g_students_count : Z
}.

Record Section := {
  section_id : string;
  s_group_id : string;
  students_count : Z
}.

Record Assignment := {
  a_course_id : string;
  session_type : string;
  day : Z;
  period : Z;
  sections : list string;
  duration : Z;
  instructor_id : string;
  a_room_id : string
}.

#[export] Instance Assignment_eq_dec : EqDecision Assignment.
Proof. solve_decision. Defined.

(** The parsed input held by the scheduler; it is never written after
    [__init__]. *)
Record Catalog := {
  rooms : list Room;
  instructors : list Instructor;
  groups : list Group;
  all_sections : list Section;
  courses : list Course
}.

Definition DAYS : Z := 5.
Definition PERIODS_PER_DAY : Z := 8.

(** *** Indexes *)

(** A dictionary comprehension [{key(x): x for x in l}]: a later element
    replaces an earlier one with the same key. *)
Definition index_by {A} (key : A → string) (l : list A) : gmap string A :=
  foldl (fun m x => <[key x := x]> m) ∅ l.

Definition room_by_id (cat : Catalog) := index_by room_id (rooms cat).
Definition instructor_by_id (cat : Catalog) := index_by instr_id (instructors cat).
Definition group_by_id (cat : Catalog) := index_by group_id (groups cat).
Definition section_by_id (cat : Catalog) := index_by section_id (all_sections cat).
Definition course_by_id (cat : Catalog) := index_by course_id (courses cat).

Definition sections_by_group (cat : Catalog) (gid : string) : list Section :=
  List.filter (fun s => bool_decide (s_group_id s = gid)) (all_sections cat).

Definition sections_by_year (cat : Catalog) (y : Z) : list Section :=
  List.flat_map (fun g => sections_by_group cat (group_id g))
    (List.filter (fun g => bool_decide (g_year g = y)) (groups cat)).

(** *** Candidate instructors and rooms *)

Definition instructor_qualifies (cid stype : string) (instr : Instructor) : bool :=
  py_in cid (qualified_courses instr)
  && ((bool_decide (stype = "Lecture") && bool_decide (role instr = "Professor"))
      || (py_in stype ["Tut"; "Lab"] && bool_decide (role instr = "TA"))).

Definition _get_qualified_instructors (cat : Catalog) (cid stype : string)
    : list string :=
  instr_id <$> List.filter (instructor_qualifies cid stype) (instructors cat).

Definition room_suits (stype : string) (students : Z) (lab : option string)
    (ignore_cap : bool) (room : Room) : bool :=
  if negb ignore_cap && (capacity room <? students) then false
  else if bool_decide (stype = "Lab") then
    truthy_str lab && bool_decide (Some (r_type room) = lab)
  else if bool_decide (stype = "Lecture") then
    if ignore_cap then bool_decide (r_type room = "theater")
    else py_in (r_type room) ["classroom"; "theater"]
  else if bool_decide (stype = "Tut") then
    bool_decide (r_type room = "classroom")
  else false.

Definition _get_suitable_rooms (cat : Catalog) (stype : string) (students : Z)
    (lab : option string) (ignore_cap : bool) : list string :=
  room_id <$> List.filter (room_suits stype students lab ignore_cap) (rooms cat).

(** *** Solver state *)

Definition Key : Type := string * Z * Z.

(** [timetable] is a Python dictionary: it keeps its keys in insertion
    order, which the extraction of the solution reads. *)
Definition dict_mem {V} (k : Key) (d : list (Key * V)) : bool :=
  existsb (fun kv => bool_decide (kv.1 = k)) d.

Definition dict_set {V} (k : Key) (v : V) (d : list (Key * V)) : list (Key * V) :=
  if dict_mem k d
  then (fun kv => if bool_decide (kv.1 = k) then (k, v) else kv) <$> d
  else d ++ [(k, v)].

Definition dict_del {V} (k : Key) (d : list (Key * V)) : list (Key * V) :=
  List.filter (fun kv => negb (bool_decide (kv.1 = k))) d.

Record State := {
  timetable : list (Key * Assignment);
  instructor_busy : gset Key;
  room_busy : gset Key;
  scheduled_sessions : gmap string (gset (string * string));
  attempts : Z;
  backtracks : Z
}.

Definition initial_state : State :=
  {| timetable := []; instructor_busy := ∅; room_busy := ∅;
     scheduled_sessions := ∅; attempts := 0; backtracks := 0 |}.

(** [self.scheduled_sessions[sid]] on the [defaultdict(set)].  Reading a
    missing key also stores an empty set under it, which no later read can
    tell from the missing key; the model leaves the map as it is. *)
Definition scheduled_for (st : State) (sid : string) : gset (string * string) :=
  default ∅ (scheduled_sessions st !! sid).

Definition _is_valid_assignment (st : State) (secs : list string)
    (d p dur : Z) (instr room : string) : bool :=
  if (dur =? 2) && negb (p mod 2 =? 0) then false
  else if PERIODS_PER_DAY <? p + dur then false
  else if existsb
            (fun sid => existsb (fun q => dict_mem (sid, d, q) (timetable st))
                          (range p (p + dur)))
            secs then false
  else if existsb (fun q => bool_decide ((instr, d, q) ∈ instructor_busy st))
            (range p (p + dur)) then false
  else if bool_decide (room ≠ "N/A")
          && existsb (fun q => bool_decide ((room, d, q) ∈ room_busy st))
               (range p (p + dur)) then false
  else true.

Definition slots (a : Assignment) : list Z :=
  range (period a) (period a + duration a).

(** The timetable cells of an assignment, in the order they are written. *)
Definition cells (a : Assignment) : list Key :=
  sid ← sections a; (fun q => (sid, day a, q)) <$> slots a.

Definition set_timetable (f : list (Key * Assignment) → list (Key * Assignment))
    (st : State) : State :=
  {| timetable := f (timetable st);
     instructor_busy := instructor_busy st; room_busy := room_busy st;
     scheduled_sessions := scheduled_sessions st;
     attempts := attempts st; backtracks := backtracks st |}.

Definition set_instructor_busy (f : gset Key → gset Key) (st : State) : State :=
  {| timetable := timetable st;
     instructor_busy := f (instructor_busy st); room_busy := room_busy st;
     scheduled_sessions := scheduled_sessions st;
     attempts := attempts st; backtracks := backtracks st |}.

Definition set_room_busy (f : gset Key → gset Key) (st : State) : State :=
  {| timetable := timetable st;
     instructor_busy := instructor_busy st; room_busy := f (room_busy st);
     scheduled_sessions := scheduled_sessions st;
     attempts := attempts st; backtracks := backtracks st |}.

Definition set_scheduled
    (f : gmap string (gset (string * string)) → gmap string (gset (string * string)))
    (st : State) : State :=
  {| timetable := timetable st;
     instructor_busy := instructor_busy st; room_busy := room_busy st;
     scheduled_sessions := f (scheduled_sessions st);
     attempts := attempts st; backtracks := backtracks st |}.

Definition count_attempt (st : State) : State :=
  {| timetable := timetable st;
     instructor_busy := instructor_busy st; room_busy := room_busy st;
     scheduled_sessions := scheduled_sessions st;
     attempts := attempts st + 1; backtracks := backtracks st |}.

Definition count_backtrack (st : State) : State :=
  {| timetable := timetable st;
     instructor_busy := instructor_busy st; room_busy := room_busy st;
     scheduled_sessions := scheduled_sessions st;
     attempts := attempts st; backtracks := backtracks st + 1 |}.

(** [scheduled_sessions[sid].add(x)] and [.discard(x)]. *)
Definition sched_add (sid : string) (x : string * string)
    (m : gmap string (gset (string * string))) :=
  <[sid := {[x]} ∪ default ∅ (m !! sid)]> m.

Definition sched_discard (sid : string) (x : string * string)
    (m : gmap string (gset (string * string))) :=
  <[sid := default ∅ (m !! sid) ∖ {[x]}]> m.

(** The first loop of [_place_assignment]: for every section, its cells
    are written, and then (inside the same iteration) the session type is
    recorded for all the sections of the assignment. *)
Definition place_section (a : Assignment) (st : State) (sid : string) : State :=
  let st1 :=
    foldl (fun s q => set_timetable (dict_set (sid, day a, q) a) s) st (slots a) in
  foldl (fun s sid' =>
           set_scheduled (sched_add sid' (a_course_id a, session_type a)) s)
        st1 (sections a).

Definition place_resources (a : Assignment) (st : State) (q : Z) : State :=
  let st1 := set_instructor_busy (fun b => {[(instructor_id a, day a, q)]} ∪ b) st in
  if bool_decide (a_room_id a ≠ "N/A")
  then set_room_busy (fun b => {[(a_room_id a, day a, q)]} ∪ b) st1
  else st1.

Definition _place_assignment (st : State) (a : Assignment) : State :=
  foldl (place_resources a) (foldl (place_section a) st (sections a)) (slots a).

Definition remove_section (a : Assignment) (st : State) (sid : string) : State :=
  let st1 :=
    foldl (fun s q =>
             if dict_mem (sid, day a, q) (timetable s)
             then set_timetable (dict_del (sid, day a, q)) s else s)
          st (slots a) in
  foldl (fun s sid' =>
           set_scheduled (sched_discard sid' (a_course_id a, session_type a)) s)
        st1 (sections a).

Definition remove_resources (a : Assignment) (st : State) (q : Z) : State :=
  let st1 := set_instructor_busy (fun b => b ∖ {[(instructor_id a, day a, q)]}) st in
  if bool_decide (a_room_id a ≠ "N/A")
  then set_room_busy (fun b => b ∖ {[(a_room_id a, day a, q)]}) st1
  else st1.

Definition _remove_assignment (st : State) (a : Assignment) : State :=
  foldl (remove_resources a) (foldl (remove_section a) st (sections a)) (slots a).

(** *** Cohorts *)

(** The sections whose group has the course's year and major; looking up
    a group that does not exist raises [KeyError] ([None]). *)
Definition eligible_sections (cat : Catalog) (course : Course)
    : option (list Section) :=
  foldr
    (fun s acc =>
       g ← group_by_id cat !! s_group_id s;
       rest ← acc;
       Some (if bool_decide (g_year g = c_year course)
                && match major course with
                   | None => true
                   | Some m => bool_decide (specialization g = Some m)
                   end
             then s :: rest else rest))
    (Some []) (all_sections cat).

(** The grouping loop of the Lab branch: [(groups, current_group)]. *)
Definition lab_step (max_per_lab : Z) (acc : list (list string) * list string)
    (s : Section) : list (list string) * list string :=
  if Z.of_nat (length acc.2) <? max_per_lab
  then (acc.1, acc.2 ++ [section_id s])
  else (acc.1 ++ [acc.2], [section_id s]).

Definition lab_groups (max_per_lab : Z) (secs : list Section) : list (list string) :=
  let acc := foldl (lab_step max_per_lab) ([], []) secs in
  let groups := match acc.2 with [] => acc.1 | _ => acc.1 ++ [acc.2] end in
  match groups with
  | [] => (fun s => [section_id s]) <$> secs
  | _ => groups
  end.

Definition _get_target_sections (cat : Catalog) (course : Course)
    (kind : CourseKind) (reference_section : Section)
    : option (list (list string)) :=
  if is_project course then
    Some [section_id <$> sections_by_group cat (s_group_id reference_section)]
  else if full_year course then
    if bool_decide (k_type kind = "Lecture") || bool_decide (k_type kind = "Lab")
    then Some [section_id <$> sections_by_year cat (c_year course)]
    else Some ((fun s => [section_id s]) <$> sections_by_year cat (c_year course))
  else if bool_decide (k_type kind = "Lecture") then
    Some ((fun g => section_id <$> sections_by_group cat (group_id g))
            <$> List.filter
                  (fun g => bool_decide (g_year g = c_year course)
                            && match major course with
                               | None => true
                               | Some m => bool_decide (specialization g = Some m)
                               end)
                  (groups cat))
  else if bool_decide (k_type kind = "Tut") then
    fmap (M := list) (fun s => [section_id s]) <$> eligible_sections cat course
  else if bool_decide (k_type kind = "Lab") then
    lab_groups (max_sections_together kind) <$> eligible_sections cat course
  else Some [].

(** *** Strategy 2: course by course *)

Definition Session : Type := Course * CourseKind * list string.

(** The sessions one kind contributes; [None]: [self.sections[0]] or a
    group lookup raised. *)
Definition sessions_of_kind (cat : Catalog) (course : Course) (kind : CourseKind)
    : option (list Session) :=
  match all_sections cat !! 0%nat with
  | None => None
  | Some reference_section =>
      match _get_target_sections cat course kind reference_section with
      | None => None
      | Some target_groups =>
          Some ((fun group => (course, kind, group)) <$> target_groups)
      end
  end.

Definition sessions_of_course (cat : Catalog) (course : Course)
    : option (list Session) :=
  match mapM (sessions_of_kind cat course) (kinds course) with
  | None => None
  | Some per_kind => Some (concat per_kind)
  end.

Definition _get_all_sessions_to_schedule (cat : Catalog) : option (list Session) :=
  match mapM (sessions_of_course cat) (courses cat) with
  | None => None
  | Some per_course => Some (concat per_course)
  end.

Definition already_scheduled (st : State) (course : Course) (kind : CourseKind)
    (target : list string) : bool :=
  forallb
    (fun sid => bool_decide ((course_id course, k_type kind) ∈ scheduled_for st sid))
    target.

(** [sum(self.section_by_id[sid].students_count for sid in target)]. *)
Definition students_of (cat : Catalog) (target : list string) : option Z :=
  counts ← mapM (fun sid => students_count <$> section_by_id cat !! sid) target;
  Some (foldr Z.add 0 counts).

Definition Candidate : Type := Z * Z * string * string.

(** The four nested loops, in iteration order. *)
Definition candidates (qualified suitable : list string) : list Candidate :=
  d ← range 0 DAYS;
  p ← range 0 PERIODS_PER_DAY;
  instr ← qualified;
  room ← suitable;
  [(d, p, instr, room)].

Definition make_assignment (course : Course) (kind : CourseKind)
    (target : list string) (dur : Z) (c : Candidate) : Assignment :=
  let '(d, p, instr, room) := c in
  {| a_course_id := course_id course; session_type := k_type kind;
     day := d; period := p; sections := target; duration := dur;
     instructor_id := instr; a_room_id := room |}.

Inductive Outcome :=
  | OutOfFuel
  | Raises
  | Returns (ok : bool) (st : State).

(** The loop "try all combinations", which both strategies contain word
    for word; [recurse] is the recursive call made after a placement.  An
    exception or a success of that call ends the loop. *)
Fixpoint try_candidates (recurse : State → Outcome) (course : Course)
    (kind : CourseKind) (target : list string) (dur : Z)
    (cands : list Candidate) (st : State) : Outcome :=
  match cands with
  | [] => Returns false st
  | c :: cands' =>
      let st1 := count_attempt st in
      let '(d, p, instr, room) := c in
      if negb (_is_valid_assignment st1 target d p dur instr room)
      then try_candidates recurse course kind target dur cands' st1
      else
        let a := make_assignment course kind target dur c in
        match recurse (_place_assignment st1 a) with
        | Returns false st2 =>
            try_candidates recurse course kind target dur cands'
              (_remove_assignment (count_backtrack st2) a)
        | r => r
        end
  end.

(** [suitable_rooms] as the search sets it: a project course gets the
    placeholder and no room. *)
Definition session_rooms (cat : Catalog) (course : Course) (kind : CourseKind)
    (students : Z) : list string :=
  if is_project course then ["N/A"]
  else _get_suitable_rooms cat (k_type kind) students
         (k_lab_type kind) (ignore_capacity kind).

(** From the student count to the end of the loop: also shared by the two
    strategies.  An empty instructor or room list makes the search return
    [False] on the spot. *)
Definition schedule_session (recurse : State → Outcome) (cat : Catalog)
    (course : Course) (kind : CourseKind) (target : list string) (st : State)
    : Outcome :=
  match students_of cat target with
  | None => Raises
  | Some students =>
      let qualified :=
        _get_qualified_instructors cat (course_id course) (k_type kind) in
      match qualified with
      | [] => Returns false st
      | _ =>
          let suitable := session_rooms cat course kind students in
          match suitable with
          | [] => Returns false st
          | _ =>
              try_candidates recurse course kind target (k_length kind / 45)
                (candidates qualified suitable) st
          end
      end
  end.

(** [solve_by_course(session_idx, all_sessions)], on the sessions from
    [session_idx] on.  [Returns] carries the returned Boolean and the state
    the call leaves behind. *)
Fixpoint solve_by_course (cat : Catalog) (remaining : list Session) (st : State)
    {struct remaining} : Outcome :=
  match remaining with
  | [] => Returns true st
  | (course, kind, target) :: rest =>
      if already_scheduled st course kind target then solve_by_course cat rest st
      else schedule_session (solve_by_course cat rest) cat course kind target st
  end.

(** *** Strategy 1: section by section *)

Definition _is_course_complete_for_section (st : State) (course : Course)
    (sid : string) : bool :=
  forallb
    (fun kind => bool_decide ((course_id course, k_type kind) ∈ scheduled_for st sid))
    (kinds course).

(** [eligible_courses]; the group of the section is looked up once per
    course, and a missing group raises. *)
Definition section_courses (cat : Catalog) (section : Section)
    : option (list Course) :=
  match courses cat with
  | [] => Some []
  | _ =>
      match group_by_id cat !! s_group_id section with
      | None => None
      | Some g =>
          Some (List.filter
                  (fun c => bool_decide (c_year c = g_year g)
                            && match major c with
                               | None => true
                               | Some m => bool_decide (Some m = specialization g)
                               end)
                  (courses cat))
      end
  end.

(** What the two nested [for] loops of [solve_by_section] reach: every
    iteration either continues without touching the state or leaves the
    function, so the loops stop at the first session they do not skip. *)
Inductive Pending :=
  | PendingRaises
  | NothingPending
  | PendingSession (course : Course) (kind : CourseKind) (target : list string).

Fixpoint pending_kind (cat : Catalog) (st : State) (section : Section)
    (course : Course) (ks : list CourseKind) : Pending :=
  match ks with
  | [] => NothingPending
  | kind :: ks' =>
      if bool_decide ((course_id course, k_type kind)
                        ∈ scheduled_for st (section_id section))
      then pending_kind cat st section course ks'
      else
        match _get_target_sections cat course kind section with
        | None => PendingRaises
        | Some target_groups =>
            match List.find (fun group => py_in (section_id section) group)
                    target_groups with
            | None | Some [] => pending_kind cat st section course ks'
            | Some target => PendingSession course kind target
            end
        end
  end.

Fixpoint pending_course (cat : Catalog) (st : State) (section : Section)
    (cs : list Course) : Pending :=
  match cs with
  | [] => NothingPending
  | course :: cs' =>
      if _is_course_complete_for_section st course (section_id section)
      then pending_course cat st section cs'
      else if is_project course then pending_course cat st section cs'
      else
        match pending_kind cat st section course (kinds course) with
        | NothingPending => pending_course cat st section cs'
        | r => r
        end
  end.

(** [solve_by_section(section_idx)].  The recursion of the source is on a
    changing state, so the model counts the nested calls with [fuel]. *)
Fixpoint solve_by_section (fuel : nat) (cat : Catalog) (section_idx : nat)
    (st : State) {struct fuel} : Outcome :=
  match fuel with
  | O => OutOfFuel
  | S fuel' =>
      match all_sections cat !! section_idx with
      | None => Returns true st
      | Some section =>
          match section_courses cat section with
          | None => Raises
          | Some eligible_courses =>
              if forallb
                   (fun course =>
                      _is_course_complete_for_section st course (section_id section))
                   eligible_courses
              then solve_by_section fuel' cat (S section_idx) st
              else
                match pending_course cat st section eligible_courses with
                | PendingRaises => Raises
                | NothingPending => solve_by_section fuel' cat (S section_idx) st
                | PendingSession course kind target =>
                    if already_scheduled st course kind target then
                      solve_by_section fuel' cat section_idx
                        (set_scheduled
                           (sched_add (section_id section)
                              (course_id course, k_type kind)) st)
                    else
                      schedule_session (solve_by_section fuel' cat section_idx)
                        cat course kind target st
                end
          end
      end
  end.

(** *** Extracting the solution *)

Record Entry := {
  e_course_id : string;
  e_type : string;
  e_day : string;
  e_period : Z;
  e_start_period : Z;
  e_end_period : Z;
  e_duration_periods : Z;
  e_duration_minutes : Z;
  e_room_id : string;
  e_room_type : string;
  e_building : string;
  e_instructor_id : string;
  e_group_id : string;
  e_section_id : string;
  e_year : Z;
  e_lab_type : option string;
  e_period_alignment : string
}.

Definition DAY_NAMES : list string :=
  ["Sunday"; "Monday"; "Tuesday"; "Wednesday"; "Thursday"].

Definition SeenKey : Type := string * string * list string * Z * Z.

Definition period_alignment (a : Assignment) : string :=
  if duration a =? 2
  then (if period a mod 2 =? 0 then "Even" else "Odd")
  else "Any".

Definition entry_lab_type (a : Assignment) (course : Course) : option string :=
  if bool_decide (session_type a = "Lab") then
    match List.find (fun kind => bool_decide (k_type kind = "Lab")) (kinds course) with
    | Some kind => k_lab_type kind
    | None => None
    end
  else None.

(** One schedule entry; the display-only fields of the source dictionary
    (names, clock times, the derived instance id) are not kept.  [None]: an
    index lookup raised. *)
Definition entry_of (cat : Catalog) (d p : Z) (a : Assignment) (sid : string)
    : option Entry :=
  section ← section_by_id cat !! sid;
  group ← group_by_id cat !! s_group_id section;
  course ← course_by_id cat !! a_course_id a;
  let room := room_by_id cat !! a_room_id a in
  instructor ← instructor_by_id cat !! instructor_id a;
  day_name ← py_index DAY_NAMES d;
  Some {| e_course_id := a_course_id a;
          e_type := session_type a;
          e_day := day_name;
          e_period := p + 1;
          e_start_period := period a + 1;
          e_end_period := period a + duration a;
          e_duration_periods := duration a;
          e_duration_minutes := duration a * 45;
          e_room_id := a_room_id a;
          e_room_type := match room with Some r => r_type r | None => "N/A" end;
          e_building := match room with Some r => building r | None => "N/A" end;
          e_instructor_id := instructor_id a;
          e_group_id := s_group_id section;
          e_section_id := sid;
          e_year := g_year group;
          e_lab_type := entry_lab_type a course;
          e_period_alignment := period_alignment a |}.

(** The loop over [self.timetable.items()], threading [seen]. *)
Fixpoint extract_items (cat : Catalog) (items : list (Key * Assignment))
    (seen : list SeenKey) : option (list Entry) :=
  match items with
  | [] => Some []
  | ((_, d, p), a) :: items' =>
      let key := (a_course_id a, session_type a, sections a, d, period a) in
      if py_in key seen then extract_items cat items' seen
      else
        match mapM (entry_of cat d p a) (sections a) with
        | None => None
        | Some here =>
            match extract_items cat items' (key :: seen) with
            | None => None
            | Some later => Some (here ++ later)
            end
        end
  end.

Inductive SolveResult :=
  | Success (total_sessions : nat) (schedule : list Entry)
      (attempts backtracks : Z)
  | Failed (attempts backtracks : Z)
  | Error.

Definition _extract_solution (cat : Catalog) (st : State) : option SolveResult :=
  match extract_items cat (timetable st) [] with
  | None => None
  | Some schedule =>
      Some (Success (length schedule) schedule (attempts st) (backtracks st))
  end.

(** [solve] wrapped by [schedule_timetable], which turns every exception
    into the error result.  [None]: the fuel ran out. *)
Definition schedule_timetable (fuel : nat) (cat : Catalog) (strategy : string)
    : option SolveResult :=
  let outcome :=
    if bool_decide (strategy = "section")
    then solve_by_section fuel cat 0 initial_state
    else match _get_all_sessions_to_schedule cat with
         | None => Raises
         | Some all_sessions =>
             solve_by_course cat all_sessions initial_state
         end in
  match outcome with
  | OutOfFuel => None
  | Raises => Some Error
  | Returns true st =>
      Some (match _extract_solution cat st with
            | Some r => r
            | None => Error
            end)
  | Returns false st => Some (Failed (attempts st) (backtracks st))
  end.

(** *** Invariants of the search *)

(** Two states with the same timetable and the same busy cells. *)
Definition same_board (st st' : State) : Prop :=
  timetable st = timetable st'
  ∧ instructor_busy st = instructor_busy st'
  ∧ room_busy st = room_busy st'.

(** An assignment made from a candidate of the loops and accepted. *)
Definition well_placed (a : Assignment) : Prop :=
  0 ≤ day a < DAYS
  ∧ 0 ≤ period a
  ∧ period a + duration a ≤ PERIODS_PER_DAY
  ∧ (duration a = 2 → period a mod 2 = 0).

(** The timetable holds each key once, and every assignment in it is well
    placed and owns all of its cells. *)
Definition timetable_ok (t : list (Key * Assignment)) : Prop :=
  NoDup t.*1
  ∧ ∀ k a, (k, a) ∈ t →
      well_placed a ∧ k ∈ cells a ∧ ∀ k', k' ∈ cells a → (k', a) ∈ t.

(** How an assignment of the timetable was made: for a kind of a course
    that [src] admits, with an instructor from the list of the qualified
    ones and a room from the list the search uses. *)
Definition placed_by (cat : Catalog) (src : Course → CourseKind → Prop)
    (a : Assignment) : Prop :=
  ∃ course kind students,
    src course kind
    ∧ a_course_id a = course_id course ∧ session_type a = k_type kind
    ∧ duration a = k_length kind / 45
    ∧ instructor_id a
        ∈ _get_qualified_instructors cat (course_id course) (k_type kind)
    ∧ students_of cat (sections a) = Some students
    ∧ a_room_id a ∈ session_rooms cat course kind students.

(** The busy sets hold the instructor and the room of an assignment at
    each of its periods. *)
Definition booked (st : State) (a : Assignment) : Prop :=
  ∀ q, q ∈ slots a →
    (instructor_id a, day a, q) ∈ instructor_busy st
    ∧ (a_room_id a ≠ "N/A" → (a_room_id a, day a, q) ∈ room_busy st).

(** Two different assignments of one day that share the instructor, or a
    room that is not the placeholder, do not overlap. *)
Definition resources_apart (t : list (Key * Assignment)) : Prop :=
  ∀ k1 a k2 b, (k1, a) ∈ t → (k2, b) ∈ t → a ≠ b → day a = day b →
    instructor_id a = instructor_id b
    ∨ (a_room_id a = a_room_id b ∧ a_room_id a ≠ "N/A") →
    period a + duration a ≤ period b ∨ period b + duration b ≤ period a.

Definition board_ok (cat : Catalog) (src : Course → CourseKind → Prop)
    (st : State) : Prop :=
  timetable_ok (timetable st)
  ∧ (∀ k a, (k, a) ∈ timetable st → placed_by cat src a ∧ booked st a)
  ∧ resources_apart (timetable st).

(** [sid] carries the mark of the session type [x] in
    [scheduled_sessions]. *)
Definition marked (st : State) (sid : string) (x : string * string) : Prop :=
  x ∈ scheduled_for st sid.

(** The marks that the sessions of a list set and clear. *)
Definition touches (sessions : list Session) (sid : string)
    (x : string * string) : Prop :=
  ∃ course kind target,
    (course, kind, target) ∈ sessions
    ∧ x = (course_id course, k_type kind) ∧ sid ∈ target.

(** Every mark is backed by an assignment of the timetable. *)
Definition marks_on_board (st : State) : Prop :=
  ∀ sid x, marked st sid x →
    ∃ k a, (k, a) ∈ timetable st
           ∧ x = (a_course_id a, session_type a) ∧ sid ∈ sections a.

(** Between two states the counters only grow, and the backtracks by no
    more than the attempts. *)
Definition counters_grow (st st' : State) : Prop :=
  attempts st ≤ attempts st'
  ∧ backtracks st ≤ backtracks st'
  ∧ backtracks st' - backtracks st ≤ attempts st' - attempts st.

End Backtracking.

(** * Worked inputs *)

Module Scenarios.

(** ** For the constraint model *)

Module Cp.
Import CpModel.

Definition std_params : Params :=
  {| days := DAYS; periods_per_day := PERIODS_PER_DAY;
     base_slot_minutes := BASE_SLOT_MINUTES |}.

Definition one_day_params : Params :=
  {| days := ["Sunday"]; periods_per_day := PERIODS_PER_DAY;
     base_slot_minutes := BASE_SLOT_MINUTES |}.

Definition classroom (id : string) (cap : Z) : Room :=
  {| room_id := id; r_type := "classroom"; r_capacity := Some cap;
     r_building := "B18" |}.

Definition P1 : Instructor :=
  {| instr_id := "P1"; role := "Professor"; qualified_courses := ["C1"] |}.
Definition T1 : Instructor :=
  {| instr_id := "T1"; role := "TA"; qualified_courses := ["C1"] |}.

Definition G1 : Group :=
  {| g_group_id := "G1"; g_year := Some 1; g_specialization := None;
     g_students_count := 60 |}.
Definition S1 : Section :=
  {| s_section_id := "S1"; s_group_id := "G1"; s_students_count := 20 |}.

Definition kind_of (t : string) (len : Z) (spw : option Z) (ignore : bool) : Kind :=
  {| k_type := Some t; k_length := Some len; k_lab_type := None;
     k_sessions_per_week := spw; k_ignore_capacity := ignore |}.

Definition course_of (kinds : list Kind) (project : bool) : Course :=
  {| c_course_id := "C1"; c_year := Some 1; c_major := None;
     c_is_project := project; c_kinds := kinds |}.

Definition data_of (rms : list Room) (course : Course) : Data :=
  {| rooms := rms; instructors := [P1; T1];
     instances := generate_instances [course] [G1] [S1] |}.

(** One group with one section; a course with a 90-minute Lecture and a
    45-minute Tut; two classrooms. *)
Definition lecture_and_tut : Course :=
  course_of [kind_of "Lecture" 90 None false; kind_of "Tut" 45 None false] false.
Definition clash_data : Data :=
  data_of [classroom "R1" 100; classroom "R2" 100] lecture_and_tut.

(** Lecture at slots 0-1 and 2-3 of Sunday in R1, the Tut of section S1 at
    slot 0 of Sunday in R2. *)
Definition clash_values : Values :=
  {| val_start := fun idx => match idx with 1%nat => 2 | _ => 0 end;
     val_room := fun idx => match idx with 2%nat => 1%nat | _ => 0%nat end;
     val_instr := fun idx => match idx with 2%nat => 1%nat | _ => 0%nat end;
     val_day := fun _ => 0 |}.

(** The same cohorts on a one-day week, with a Lecture that fills the day. *)
Definition full_day_lecture_and_tut : Course :=
  course_of [kind_of "Lecture" 360 (Some 1) false; kind_of "Tut" 45 None false]
    false.
Definition forced_clash_data : Data :=
  data_of [classroom "R1" 100; classroom "R2" 100] full_day_lecture_and_tut.
Definition forced_clash_values : Values :=
  {| val_start := fun _ => 0;
     val_room := fun idx => match idx with 1%nat => 1%nat | _ => 0%nat end;
     val_instr := fun idx => match idx with 1%nat => 1%nat | _ => 0%nat end;
     val_day := fun _ => 0 |}.

(** The course reduced to its Lecture, with no declared
    [sessions_per_week]. *)
Definition one_lecture : Course := course_of [kind_of "Lecture" 90 None false] false.

(** A project whose kind declares 450 minutes. *)
Definition long_project : Course := course_of [kind_of "Lecture" 450 None false] true.

(** A Lecture that sets [ignore_capacity], for a group of 60, with one
    classroom of 30 seats. *)
Definition ignoring_lecture : Course :=
  course_of [kind_of "Lecture" 90 None true] false.
Definition small_room_data : Data :=
  data_of [classroom "R1" 30] ignoring_lecture.

(** A graduation project declared with two kinds, which makes two Project
    instances for the group, on a week whose days have eight periods; both
    occurrences on Sunday, one after the other, in the same classroom. *)
Definition two_kind_project : Course :=
  course_of [kind_of "Lecture" 360 None false; kind_of "Lab" 360 None false] true.
Definition project_data : Data := data_of [classroom "R1" 100] two_kind_project.
Definition long_day_params : Params :=
  {| days := DAYS; periods_per_day := 8;
     base_slot_minutes := BASE_SLOT_MINUTES |}.
Definition project_values : Values :=
  {| val_start := fun idx => match idx with 1%nat => 8 | _ => 0 end;
     val_room := fun _ => 0%nat;
     val_instr := fun _ => 0%nat;
     val_day := fun _ => 0 |}.

(** A week whose base slot is 90 minutes, so that a day of four periods has
    four slots; one 90-minute Lecture held once a week, started at slot 7,
    the last slot of Monday. *)
Definition coarse_params : Params :=
  {| days := DAYS; periods_per_day := PERIODS_PER_DAY;
     base_slot_minutes := 90 |}.
Definition weekly_lecture : Course :=
  course_of [kind_of "Lecture" 90 (Some 1) false] false.
Definition coarse_data : Data := data_of [classroom "R1" 100] weekly_lecture.
Definition late_values : Values :=
  {| val_start := fun _ => 7;
     val_room := fun _ => 0%nat;
     val_instr := fun _ => 0%nat;
     val_day := fun _ => 1 |}.

End Cp.

(** ** For the backtracking scheduler *)

Module Bt.
Import Backtracking.

Definition R1 : Room :=
  {| room_id := "R1"; r_type := "classroom"; capacity := 100; building := "B18" |}.
Definition P1 : Instructor :=
  {| instr_id := "P1"; i_name := "Prof. One"; role := "Professor";
     qualified_courses := ["C1"] |}.
Definition G1 : Group :=
  {| group_id := "G1"; g_year := 1; specialization := None;
     sections_count := 1; g_students_count := 60 |}.
Definition S1 : Section :=
  {| section_id := "S1"; s_group_id := "G1"; students_count := 20 |}.

Definition lecture (len : Z) : CourseKind :=
  {| k_type := "Lecture"; k_length := len; k_lab_type := None;
     max_sections_together := 1; ignore_capacity := false |}.

Definition course_of (id : string) (kinds : list CourseKind) : Course :=
  {| course_id := id; c_name := id; c_year := 1; major := None;
     kinds := kinds; full_year := false; is_project := false |}.

Definition project_of (id : string) (kinds : list CourseKind) : Course :=
  {| course_id := id; c_name := id; c_year := 1; major := None;
     kinds := kinds; full_year := false; is_project := true |}.

Definition catalog_of (cs : list Course) : Catalog :=
  {| rooms := [R1]; instructors := [P1]; groups := [G1];
     all_sections := [S1]; courses := cs |}.

(** The document of [Cp.clash_data] reduced to its Lecture: one course
    with one 90-minute Lecture and no declared [sessions_per_week]. *)
Definition one_lecture : Catalog := catalog_of [course_of "C1" [lecture 90]].

(** A graduation project, declared with a 90-minute Lecture kind. *)
Definition one_project : Catalog := catalog_of [project_of "C1" [lecture 90]].

(** A second course that nobody is qualified to teach. *)
Definition unstaffed : Catalog :=
  catalog_of [course_of "C1" [lecture 90]; course_of "C2" [lecture 90]].

(** The entry both strategies return for [one_lecture]. *)
Definition one_lecture_entry : Entry :=
  {| e_course_id := "C1"; e_type := "Lecture"; e_day := "Sunday";
     e_period := 1; e_start_period := 1; e_end_period := 2;
     e_duration_periods := 2; e_duration_minutes := 90;
     e_room_id := "R1"; e_room_type := "classroom"; e_building := "B18";
     e_instructor_id := "P1"; e_group_id := "G1"; e_section_id := "S1";
     e_year := 1; e_lab_type := None; e_period_alignment := "Even" |}.

Definition lecture_at (d p dur : Z) : Assignment :=
  {| a_course_id := "C1"; session_type := "Lecture"; day := d; period := p;
     sections := ["S1"]; duration := dur; instructor_id := "P1";
     a_room_id := "R1" |}.

(** Two courses with one Lecture each, taught by the same professor to the
    same section in the same room. *)
Definition P12 : Instructor :=
  {| instr_id := "P1"; i_name := "Prof. One"; role := "Professor";
     qualified_courses := ["C1"; "C2"] |}.
Definition two_lectures : Catalog :=
  {| rooms := [R1]; instructors := [P12]; groups := [G1];
     all_sections := [S1];
     courses := [course_of "C1" [lecture 90]; course_of "C2" [lecture 90]] |}.

(** A catalog without sections. *)
Definition no_sections : Catalog :=
  {| rooms := [R1]; instructors := [P1]; groups := [G1];
     all_sections := []; courses := [course_of "C1" [lecture 90]] |}.

(** A section whose group is not declared. *)
Definition orphan_section : Catalog :=
  {| rooms := [R1]; instructors := [P1]; groups := [];
     all_sections := [S1]; courses := [course_of "C1" [lecture 90]] |}.

End Bt.

End Scenarios.


(** * Statements taken from the specification *)

(** The room-type table of the specification, worded as it is there: the
    admissible room types per session type, with the declared lab type for
    a Lab. *)
Definition spec_admissible_room_type (session_type : string)
    (lab : option string) (room_type : string) : Prop :=
  (session_type = "Lecture" → room_type ∈ ["classroom"; "theater"; "hall"])
  ∧ (session_type = "Tut" → room_type ∈ ["classroom"; "computer lab"; "hall"])
  ∧ (session_type = "Lab" → Some room_type = lab)
  ∧ (session_type = "Project" → room_type ∈ ["hall"; "theater"; "classroom"]).

(** The cohort of an instance of the constraint model, as the
    specification defines it: the section of a Tut or Lab, all the sections
    of the group of a Lecture or Project. *)
Definition spec_cohort (sections : list CpModel.Section)
    (inst : CpModel.Instance) : list string :=
  match CpModel.section_id inst, CpModel.group_id inst with
  | Some sid, _ => [sid]
  | None, Some gid =>
      CpModel.s_section_id
        <$> List.filter (fun s => bool_decide (CpModel.s_group_id s = gid)) sections
  | None, None => []
  end.

(** * Properties *)

(** ** Lists, ranges and enumerations *)

Lemma elem_of_range a b x : x ∈ range a b ↔ a ≤ x < b.
Proof. unfold range. rewrite elem_of_seqZ. lia. Qed.

Lemma elem_of_bfilter {A} (f : A → bool) (l : list A) (x : A) :
  x ∈ List.filter f l ↔ f x = true ∧ x ∈ l.
Proof. rewrite !list_elem_of_In, filter_In. tauto. Qed.

Lemma elem_of_enumerate {A} (l : list A) (i : nat) (x : A) :
  (i, x) ∈ enumerate l ↔ l !! i = Some x.
Proof.
  unfold enumerate. rewrite elem_of_lookup_imap. split.
  - intros (j & y & Heq & Hj). by simplify_eq.
  - intros Hi. by exists i, x.
Qed.

Lemma elem_of_filter_enumerate {A} (f : A → bool) (l : list A) (i : nat) :
  i ∈ (List.filter (fun ix => f ix.2) (enumerate l)).*1
  ↔ ∃ x, l !! i = Some x ∧ f x = true.
Proof.
  rewrite list_elem_of_fmap. split.
  - intros ([j x] & -> & Hin). apply elem_of_bfilter in Hin as [Hf Hin].
    apply elem_of_enumerate in Hin. eauto.
  - intros (x & Hi & Hf). exists (i, x). split; [done|].
    apply elem_of_bfilter. split; [done|]. by apply elem_of_enumerate.
Qed.

Lemma existsb_elem_of {A} (f : A → bool) (l : list A) :
  existsb f l = true ↔ ∃ x, x ∈ l ∧ f x = true.
Proof.
  rewrite existsb_exists. setoid_rewrite list_elem_of_In. done.
Qed.

Lemma forallb_elem_of {A} (f : A → bool) (l : list A) :
  forallb f l = true ↔ ∀ x, x ∈ l → f x = true.
Proof.
  rewrite forallb_forall. setoid_rewrite list_elem_of_In. done.
Qed.

Lemma py_in_spec `{EqDecision A} (x : A) (l : list A) :
  py_in x l = true ↔ x ∈ l.
Proof. unfold py_in. apply bool_decide_eq_true. Qed.

(** ** The constraint model *)

Module CpFacts.
Import CpModel.

(** *** The pre-check, instance by instance *)

Lemma quick_instance_errors data params errs inst :
  quick_feasibility_checks data params = Some errs →
  inst ∈ instances data →
  ∃ e, check_instance (rooms data) (instructors data)
         (base_slot_minutes params) inst = Some e
       ∧ e ⊆ errs.
Proof.
  unfold quick_feasibility_checks. intros Hq Hin.
  destruct (mapM _ (instances data)) as [per|] eqn:Hm; simplify_eq/=.
  apply mapM_Some in Hm.
  induction Hm as [|i e l k Hi _ IH]; [by apply elem_of_nil in Hin|].
  apply elem_of_cons in Hin as [->|Hin].
  - exists e. split; [done|]. simpl. intros x Hx. apply elem_of_app. by left.
  - destruct (IH Hin) as (e' & He' & Hsub). exists e'. split; [done|].
    simpl. intros x Hx. apply elem_of_app. right. by apply Hsub.
Qed.

Lemma quick_clean_instance data params inst :
  quick_feasibility_checks data params = Some [] →
  inst ∈ instances data →
  check_instance (rooms data) (instructors data)
    (base_slot_minutes params) inst = Some [].
Proof.
  intros Hq Hin.
  destruct (quick_instance_errors _ _ _ _ Hq Hin) as (e & He & Hsub).
  rewrite He. f_equal. destruct e as [|x e]; [done|].
  exfalso. eapply not_elem_of_nil, Hsub. by left.
Qed.

Lemma check_instance_clean rms ins base inst :
  check_instance rms ins base inst = Some [] →
  (is_lab inst = true → truthy_str (lab_type inst) = true)
  ∧ existsb (precheck_room_ok inst) rms = true
  ∧ (i_type inst ≠ "Project" → existsb (instr_ok inst) ins = true).
Proof.
  unfold check_instance. intros H.
  destruct (length_errors base inst) as [le|]; simplify_eq/=.
  destruct (is_lab inst && negb (truthy_str (lab_type inst))) eqn:Hlab.
  { simplify_eq. by destruct le. }
  simplify_eq. apply app_eq_nil in H as [-> H]. apply app_eq_nil in H as [Hr Hi].
  split_and!.
  - intros Hl. rewrite Hl in Hlab. by destruct (truthy_str _).
  - unfold room_errors in Hr. by destruct (existsb _ rms).
  - intros Hp. unfold instructor_errors in Hi.
    rewrite bool_decide_eq_true_2 in Hi by done. by destruct (existsb _ ins).
Qed.

(** When a Lab carries its lab type, the room test of the pre-check and
    the room test of the model coincide. *)
Lemma precheck_build_room_ok inst r :
  (is_lab inst = true → truthy_str (lab_type inst) = true) →
  build_room_ok inst r = precheck_room_ok inst r.
Proof.
  unfold build_room_ok, precheck_room_ok. intros Hlab.
  destruct (is_lab inst); [rewrite Hlab by done|]; done.
Qed.

Lemma elem_of_occurrences_of insts o :
  o ∈ occurrences_of insts → o_instance o ∈ insts.
Proof.
  unfold occurrences_of. rewrite list_elem_of_In, in_flat_map.
  intros (inst & Hin & Ho). apply list_elem_of_In in Hin, Ho.
  apply list_elem_of_fmap in Ho as (k & -> & _). done.
Qed.

Lemma room_candidates_spec rms inst idx :
  idx ∈ room_candidates rms inst
  ↔ ∃ r, rms !! idx = Some r ∧ build_room_ok inst r = true.
Proof. apply (elem_of_filter_enumerate (build_room_ok inst)). Qed.

Lemma instr_candidates_spec ins inst idx :
  idx ∈ instr_candidates ins inst
  ↔ ∃ i, ins !! idx = Some i ∧ instr_ok inst i = true.
Proof. apply (elem_of_filter_enumerate (instr_ok inst)). Qed.

Lemma precheck_room_candidates data params inst :
  quick_feasibility_checks data params = Some [] →
  inst ∈ instances data →
  room_candidates (rooms data) inst ≠ [].
Proof.
  intros Hq Hin.
  destruct (check_instance_clean _ _ _ _ (quick_clean_instance _ _ _ Hq Hin))
    as (Hlab & Hroom & _).
  apply existsb_elem_of in Hroom as (r & Hr & Hok).
  apply list_elem_of_lookup in Hr as [idx Hidx].
  intros Hnil.
  assert (idx ∈ room_candidates (rooms data) inst) as Hc.
  { apply room_candidates_spec. exists r. split; [done|].
    by rewrite precheck_build_room_ok. }
  rewrite Hnil in Hc. by apply elem_of_nil in Hc.
Qed.

(** C10.  When the pre-check reports no error, every occurrence that
    [build_and_solve] creates has at least one room candidate, so its room
    domain is the candidate list itself and the widening to all rooms is
    never taken. *)
Theorem precheck_makes_fallback_unreachable data params o :
  quick_feasibility_checks data params = Some [] →
  o ∈ occurrences_of (instances data) →
  room_candidates (rooms data) (o_instance o) ≠ []
  ∧ room_domain (rooms data) (o_instance o)
    = room_candidates (rooms data) (o_instance o).
Proof.
  intros Hq Ho. apply elem_of_occurrences_of in Ho.
  pose proof (precheck_room_candidates _ _ _ Hq Ho) as Hne.
  split; [done|]. unfold room_domain.
  by destruct (room_candidates _ _).
Qed.

(** *** Errors for empty domains *)


Lemma build_and_solve_input_error cp_solve data params errs :
  quick_feasibility_checks data params = Some errs → errs ≠ [] →
  build_and_solve cp_solve data params = Some (INPUT_ERROR errs).
Proof.
  intros Hq Hne. unfold build_and_solve. rewrite Hq. simpl.
  by destruct errs.
Qed.



(** *** Occurrences and schedule entries *)

Lemma Forall2_imap_l {A B C} (R : B → C → Prop) (g : nat → A → B)
    (l : list A) (k : list C) :
  Forall2 R (imap g l) k → Forall2 (fun x y => ∃ i, R (g i x) y) l k.
Proof.
  revert g k. induction l as [|x l IH]; intros g k H; simpl in H.
  - inversion H. constructor.
  - inversion H as [|? y ? k' Hxy Hrest]; subst. constructor; [by exists 0%nat|].
    eapply Forall2_impl; [exact (IH (g ∘ S) _ Hrest)|].
    intros a c [i Hi]. by exists (S i).
Qed.

Lemma build_vars_occ data params spd o x :
  build_vars data params spd o = Some x →
  v_occ x = o
  ∧ v_instrs x = instr_domain (instructors data) (o_instance o)
  ∧ v_rooms x = room_domain (rooms data) (o_instance o).
Proof.
  unfold build_vars. intros H.
  destruct (needed_of _ _) as [needed|]; simplify_eq/=.
  destruct (valid_starts _ _ _) as [starts|]; simplify_eq/=. done.
Qed.

Lemma build_model_vars data params m :
  build_model data params = Some m →
  ∃ spd, slots_per_day_of params = Some spd
         ∧ Forall2 (fun o x => build_vars data params spd o = Some x)
             (occurrences_of (instances data)) (m_vars m).
Proof.
  unfold build_model. intros H.
  destruct (slots_per_day_of params) as [spd|]; simplify_eq/=.
  destruct (mapM _ _) as [vars|] eqn:Hm; simplify_eq/=.
  exists spd. split; [done|]. by apply mapM_Some.
Qed.

Lemma build_model_occurrences data params m :
  build_model data params = Some m →
  v_occ <$> m_vars m = occurrences_of (instances data).
Proof.
  intros H. destruct (build_model_vars _ _ _ H) as (spd & _ & HF).
  induction HF as [|o x os xs Hox _ IH]; [done|].
  rewrite fmap_cons, IH. f_equal. by apply build_vars_occ in Hox as [-> _].
Qed.

Lemma entry_of_occurrence data spd v idx x e :
  entry_of data spd v idx x = Some e →
  e_instance_id e = entry_instance_id (v_occ x)
  ∧ e_course_id e = course_id (o_instance (v_occ x))
  ∧ e_type e = i_type (o_instance (v_occ x))
  ∧ e_group_id e = group_id (o_instance (v_occ x))
  ∧ e_section_id e = section_id (o_instance (v_occ x))
  ∧ (v_instrs x = None → e_instructor_id e = None).
Proof.
  unfold entry_of. intros H.
  destruct (decide (spd = 0)); [done|].
  destruct (v_instrs x) as [dom|] eqn:Hdom; simplify_option_eq; done.
Qed.

Lemma scheduled_entries cp_solve data params status n schedule :
  build_and_solve cp_solve data params = Some (Scheduled status n schedule) →
  Forall2 entry_matches schedule (occurrences_of (instances data))
  ∧ n = length (occurrences_of (instances data)).
Proof.
  unfold build_and_solve. intros H.
  destruct (quick_feasibility_checks data params) as [[|??]|]; simplify_eq/=.
  destruct (slots_per_day_of params) as [spd|]; simplify_eq/=.
  destruct (build_model data params) as [m|] eqn:Hm; simplify_eq/=.
  destruct (cp_solve m) as [st v].
  assert (∀ sched, mapM (fun ix => entry_of data spd v ix.1 ix.2)
                     (enumerate (m_vars m)) = Some sched →
                   Forall2 entry_matches sched (occurrences_of (instances data)))
    as Hsched.
  { intros sched Hs. rewrite <- (build_model_occurrences _ _ _ Hm).
    apply mapM_Some, Forall2_imap_l in Hs. apply Forall2_fmap_r, Forall2_flip.
    eapply Forall2_impl; [exact Hs|]. intros x e [i He]. simpl in He.
    apply entry_of_occurrence in He. unfold entry_matches. tauto. }
  destruct st; simplify_eq/=;
    destruct (mapM _ (enumerate (m_vars m))) as [sched|] eqn:Hs;
    simplify_eq/=;
    (split; [by apply Hsched|]);
    by rewrite <- (build_model_occurrences _ _ _ Hm), length_fmap.
Qed.

(** The Lecture kinds in the constraint model.  A Lecture kind of a course
    that is not a project yields one instance per eligible group (same year;
    no major, or the group's specialization), with [sessions_per_week]
    defaulting to 2; the model repeats each instance that many times; and a
    schedule that [build_and_solve] returns has exactly one entry per
    occurrence, in order. *)
Lemma cp_lecture_occurrences cp_solve course groups sections kind :
  c_is_project course = false →
  k_type kind = Some "Lecture" →
  instances_of_kind course groups sections kind
    = lecture_instance course kind <$> List.filter (eligible_group course) groups
  ∧ (∀ g, eligible_group course g = true
          ↔ g_year g = c_year course
            ∧ (c_major course = None ∨ g_specialization g = c_major course))
  ∧ (∀ g, occurrences_of [lecture_instance course kind g]
          = (fun k => {| o_instance := lecture_instance course kind g;
                         o_occ := k |})
              <$> range 0 (default 2 (k_sessions_per_week kind)))
  ∧ (∀ data params status n schedule,
       build_and_solve cp_solve data params = Some (Scheduled status n schedule) →
       Forall2 entry_matches schedule (occurrences_of (instances data))
       ∧ n = length (occurrences_of (instances data))).
Proof.
  intros Hproj Hlec. split_and!.
  - unfold instances_of_kind. rewrite Hproj.
    by rewrite decide_True by done.
  - intros g. unfold eligible_group.
    rewrite andb_true_iff, bool_decide_eq_true.
    destruct (c_major course) as [m|]; [rewrite bool_decide_eq_true|];
      intuition (auto; congruence).
  - intros g. unfold occurrences_of. simpl. by rewrite app_nil_r.
  - intros data params status n schedule. apply scheduled_entries.
Qed.

Lemma project_len_max klen :
  project_len klen = Z.max (PERIODS_PER_DAY * 90) (default 0 klen).
Proof.
  unfold project_len, truthy_Z. change (PERIODS_PER_DAY * 90) with 360.
  destruct klen as [l|]; simpl; [|lia].
  destruct (Z.eqb_spec l 0), (Z.leb_spec 360 l); simpl; lia.
Qed.

(** C3, for the generator of the constraint model.  Every kind of a
    project course yields one Project instance per eligible group, with
    one session per week, no instructor, and the longer of the declared
    length and one full day; the model gives such an occurrence no
    instructor variable, and its schedule entry carries no instructor. *)
Theorem project_instances course groups sections kind :
  c_is_project course = true →
  instances_of_kind course groups sections kind
    = project_instance course kind <$> List.filter (eligible_group course) groups
  ∧ ∀ g,
      i_type (project_instance course kind g) = "Project"
      ∧ sessions_per_week (project_instance course kind g) = Some 1
      ∧ has_instructor (project_instance course kind g) = Some false
      ∧ length_minutes (project_instance course kind g)
        = Some (Z.max (PERIODS_PER_DAY * 90) (default 0 (k_length kind)))
      ∧ (∀ ins, instr_domain ins (project_instance course kind g) = None)
      ∧ (∀ data params spd k x v idx e,
           build_vars data params spd
             {| o_instance := project_instance course kind g; o_occ := k |}
             = Some x →
           entry_of data spd v idx x = Some e →
           e_instructor_id e = None).
Proof.
  intros Hproj. split.
  - unfold instances_of_kind. by rewrite Hproj.
  - intros g. split_and!; try done.
    + simpl. by rewrite project_len_max.
    + intros data params spd k x v idx e Hx He.
      apply build_vars_occ in Hx as (_ & Hi & _).
      apply entry_of_occurrence in He. by apply He.
Qed.

(** *** Room domains of a checked model *)

Lemma model_room_domain data params m x idx :
  quick_feasibility_checks data params = Some [] →
  build_model data params = Some m →
  x ∈ m_vars m → idx ∈ v_rooms x →
  ∃ r, rooms data !! idx = Some r
       ∧ build_room_ok (o_instance (v_occ x)) r = true
       ∧ (is_lab (o_instance (v_occ x)) = true
          → truthy_str (lab_type (o_instance (v_occ x))) = true).
Proof.
  intros Hq Hm Hx Hidx.
  destruct (build_model_vars _ _ _ Hm) as (spd & _ & HF).
  apply list_elem_of_lookup in Hx as [i Hi].
  destruct (Forall2_lookup_r _ _ _ _ _ HF Hi) as (o & Ho & Hb).
  apply build_vars_occ in Hb as (Hocc & _ & Hrooms).
  assert (o ∈ occurrences_of (instances data)) as Hin.
  { apply list_elem_of_lookup. eauto. }
  apply elem_of_occurrences_of in Hin.
  pose proof (precheck_room_candidates _ _ _ Hq Hin) as Hne.
  destruct (check_instance_clean _ _ _ _ (quick_clean_instance _ _ _ Hq Hin))
    as (Hlab & _ & _).
  rewrite Hocc. rewrite Hrooms in Hidx. unfold room_domain in Hidx.
  destruct (room_candidates (rooms data) (o_instance o)) as [|c cs] eqn:Hc;
    [done|].
  rewrite <- Hc in Hidx. apply room_candidates_spec in Hidx as (r & Hr & Hok).
  eauto.
Qed.

Lemma build_room_ok_admissible inst r :
  build_room_ok inst r = true →
  (is_lab inst = true → truthy_str (lab_type inst) = true) →
  spec_admissible_room_type (i_type inst) (lab_type inst) (r_type r).
Proof.
  unfold build_room_ok. intros H Hlab.
  apply andb_true_iff in H as [H _]. apply andb_true_iff in H as [Hty Hl].
  apply py_in_spec in Hty. unfold spec_admissible_room_type.
  split_and!; intros Heq; rewrite Heq in Hty; try exact Hty.
  unfold is_lab in *. rewrite bool_decide_eq_true_2 in Hl, Hlab by done.
  rewrite Hlab in Hl by done. simpl in Hl.
  apply negb_true_iff, bool_decide_eq_false in Hl.
  by destruct (decide (Some (r_type r) = lab_type inst)).
Qed.

Lemma build_room_ok_capacity inst r :
  build_room_ok inst r = true →
  0 ≤ default 0 (r_capacity r) →
  expected_students inst ≤ default 0 (r_capacity r).
Proof.
  unfold build_room_ok, truthy_Z. intros H Hcap.
  apply andb_true_iff in H as [_ H]. apply negb_true_iff in H.
  destruct (Z.eqb_spec (expected_students inst) 0); [lia|].
  simpl in H. apply Z.ltb_ge in H. done.
Qed.

(** *** What a solution of the model satisfies *)

Lemma satisfies_elim m v :
  satisfies m v = true →
  (∀ idx x, m_vars m !! idx = Some x → var_ok (m_num_days m) v idx x = true)
  ∧ (∀ i j xi xj, (i < j)%nat →
       m_vars m !! i = Some xi → m_vars m !! j = Some xj →
       pair_ok v i j xi xj = true).
Proof.
  unfold satisfies. intros H.
  apply andb_true_iff in H as [H _]. apply andb_true_iff in H as [Hvar Hpair].
  rewrite forallb_elem_of in Hvar, Hpair. split.
  - intros idx x Hx. by apply (Hvar (idx, x)), elem_of_enumerate.
  - intros i j xi xj Hij Hi Hj.
    specialize (Hpair (i, xi)). rewrite elem_of_enumerate in Hpair.
    specialize (Hpair Hi). rewrite forallb_elem_of in Hpair.
    specialize (Hpair (j, xj)). rewrite elem_of_enumerate in Hpair.
    specialize (Hpair Hj). simpl in Hpair.
    by rewrite (proj2 (Nat.ltb_lt i j) Hij) in Hpair.
Qed.

Lemma var_ok_start num_days v idx x :
  var_ok num_days v idx x = true → val_start v idx ∈ v_starts x.
Proof.
  unfold var_ok. rewrite !andb_true_iff, py_in_spec. tauto.
Qed.

(** What the model does enforce for students: two occurrences of instances
    with the same group id, or with the same section id, do not overlap. *)
Lemma satisfies_share_students m v i j xi xj :
  satisfies m v = true → (i < j)%nat →
  m_vars m !! i = Some xi → m_vars m !! j = Some xj →
  share_students (o_instance (v_occ xi)) (o_instance (v_occ xj)) = true →
  val_start v i + v_needed xi ≤ val_start v j
  ∨ val_start v j + v_needed xj ≤ val_start v i.
Proof.
  intros Hs Hij Hi Hj Hshare.
  destruct (satisfies_elim _ _ Hs) as [_ Hpair].
  specialize (Hpair _ _ _ _ Hij Hi Hj). unfold pair_ok in Hpair.
  rewrite Hshare in Hpair. rewrite !andb_true_iff in Hpair.
  destruct Hpair as [[[_ Hd] _] _]. simpl in Hd. unfold disjoint in Hd.
  apply orb_true_iff in Hd as [Hd|Hd]; apply Z.leb_le in Hd; tauto.
Qed.

(** *** The Lecture of a group against the Tut of one of its sections *)

(** C1, on the constraint model.  For one group with one section and a
    course with a Lecture and a Tut, the pre-check passes and the values
    that put the Lecture of the group and the Tut of its section at slot 0
    of Sunday, in two rooms, satisfy every constraint of the model: the
    engine may return them, and the schedule then books section S1 twice at
    the same time. *)
Theorem cp_model_admits_student_clash :
  quick_feasibility_checks Scenarios.Cp.clash_data Scenarios.Cp.std_params
    = Some []
  ∧ ∃ m lec tut,
      build_model Scenarios.Cp.clash_data Scenarios.Cp.std_params = Some m
      ∧ satisfies m Scenarios.Cp.clash_values = true
      ∧ m_vars m !! 0%nat = Some lec ∧ m_vars m !! 2%nat = Some tut
      ∧ "S1" ∈ spec_cohort [Scenarios.Cp.S1] (o_instance (v_occ lec))
      ∧ "S1" ∈ spec_cohort [Scenarios.Cp.S1] (o_instance (v_occ tut))
      ∧ disjoint (val_start Scenarios.Cp.clash_values 0) (v_needed lec)
          (val_start Scenarios.Cp.clash_values 2) (v_needed tut) = false
      ∧ (fun e => (e_instance_id e, e_day e, e_start_subslot_index e,
                   e_length_subslots e, e_group_id e, e_section_id e))
          <$> match build_and_solve
                      (fun _ => (FEASIBLE, Scenarios.Cp.clash_values))
                      Scenarios.Cp.clash_data Scenarios.Cp.std_params with
              | Some (Scheduled _ _ schedule) => schedule
              | _ => []
              end
        = [("C1_G1_LEC", "Sunday", 0, 2, Some "G1", None);
           ("C1_G1_LEC#1", "Sunday", 2, 2, Some "G1", None);
           ("C1_S1_TUT", "Sunday", 0, 1, None, Some "S1")].
Proof.
  split; [by vm_compute|].
  destruct (build_model Scenarios.Cp.clash_data Scenarios.Cp.std_params)
    as [m|] eqn:Hm; [|by vm_compute in Hm].
  vm_compute in Hm. injection Hm as <-.
  eexists _, _, _. split; [reflexivity|].
  split; [by vm_compute|].
  split; [reflexivity|]. split; [reflexivity|].
  split; [vm_compute; by left|]. split; [vm_compute; by left|].
  split; by vm_compute.
Qed.

(** On a week of one day, with a Lecture that fills the day, the model has
    a solution and every solution books section S1 twice at the same
    time. *)
Lemma cp_model_forces_student_clash :
  ∃ m, build_model Scenarios.Cp.forced_clash_data Scenarios.Cp.one_day_params
         = Some m
       ∧ satisfies m Scenarios.Cp.forced_clash_values = true
       ∧ ∀ v, satisfies m v = true →
              val_start v 0 = 0 ∧ 0 ≤ val_start v 1 < 8
              ∧ disjoint (val_start v 0) 8 (val_start v 1) 1 = false.
Proof.
  destruct (build_model Scenarios.Cp.forced_clash_data
              Scenarios.Cp.one_day_params) as [m|] eqn:Hm;
    [|by vm_compute in Hm].
  vm_compute in Hm. injection Hm as <-.
  eexists. split; [reflexivity|]. split; [by vm_compute|].
  intros v Hv. destruct (satisfies_elim _ _ Hv) as [Hvar _].
  pose proof (var_ok_start _ _ _ _ (Hvar 0%nat _ eq_refl)) as H0.
  pose proof (var_ok_start _ _ _ _ (Hvar 1%nat _ eq_refl)) as H1.
  simpl in H0, H1.
  apply list_elem_of_singleton in H0.
  assert (0 ≤ val_start v 1 < 8) as Hr.
  { repeat (apply elem_of_cons in H1 as [->|H1]; [lia|]).
    by apply elem_of_nil in H1. }
  split_and!; [done|lia..|].
  unfold disjoint. rewrite H0.
  apply orb_false_iff. split; apply Z.leb_gt; lia.
Qed.

(** *** Inputs on which the specification and the code part ways *)

(** C3: a project kind that declares 450 minutes keeps them; the length is
    not brought back to one day of [PERIODS_PER_DAY] periods. *)
Lemma project_length_not_coerced :
  ¬ (∀ course groups sections inst,
       c_is_project course = true →
       inst ∈ generate_instances [course] groups sections →
       length_minutes inst = Some (PERIODS_PER_DAY * 90)).
Proof.
  intros H.
  specialize (H Scenarios.Cp.long_project [Scenarios.Cp.G1] [Scenarios.Cp.S1]
                (project_instance Scenarios.Cp.long_project
                   (Scenarios.Cp.kind_of "Lecture" 450 None false)
                   Scenarios.Cp.G1) eq_refl).
  assert (length_minutes
            (project_instance Scenarios.Cp.long_project
               (Scenarios.Cp.kind_of "Lecture" 450 None false) Scenarios.Cp.G1)
          = Some 450) as Hlen by reflexivity.
  rewrite H in Hlen; [discriminate|]. vm_compute. by left.
Qed.

(** C7: the Lecture sets [ignore_capacity], yet the classroom of 30 seats,
    of an admitted type, is kept out of the room candidates of the group of
    60, and the call ends with the error of the pre-check. *)
Lemma cp_model_ignores_ignore_capacity :
  Forall (fun k => k_ignore_capacity k = true)
    (c_kinds Scenarios.Cp.ignoring_lecture)
  ∧ ∃ inst r,
      instances Scenarios.Cp.small_room_data = [inst]
      ∧ rooms Scenarios.Cp.small_room_data = [r]
      ∧ r_type r ∈ valid_room_types_for_session (i_type inst)
      ∧ room_candidates [r] inst = []
      ∧ ∀ cp_solve,
          build_and_solve cp_solve Scenarios.Cp.small_room_data
            Scenarios.Cp.std_params
          = Some (INPUT_ERROR ["C1_G1_LEC: no compatible room (type/capacity)"]).
Proof.
  split; [by repeat constructor|].
  eexists _, _. split; [reflexivity|]. split; [reflexivity|].
  split; [vm_compute; by left|]. split; [by vm_compute|].
  intros cp_solve. apply build_and_solve_input_error; by vm_compute.
Qed.

(** *** Every solution of the model *)

Lemma disjoint_spec a la b lb :
  disjoint a la b lb = true ↔ a + la ≤ b ∨ b + lb ≤ a.
Proof.
  unfold disjoint. rewrite orb_true_iff, !Z.leb_le. done.
Qed.

Lemma satisfies_pair m v i j xi xj :
  satisfies m v = true → i ≠ j →
  m_vars m !! i = Some xi → m_vars m !! j = Some xj →
  (i < j)%nat ∧ pair_ok v i j xi xj = true
  ∨ (j < i)%nat ∧ pair_ok v j i xj xi = true.
Proof.
  intros Hs Hne Hi Hj. destruct (satisfies_elim _ _ Hs) as [_ Hpair].
  destruct (Nat.lt_total i j) as [Hlt|[Heq|Hlt]]; [|done|].
  - left. split; [done|]. by apply Hpair.
  - right. split; [done|]. by apply Hpair.
Qed.

(** X1.  In every assignment of values that satisfies the model, two
    different occurrences given the same room occupy disjoint intervals of
    the week. *)
Theorem cp_rooms_never_double_booked m v i j xi xj :
  satisfies m v = true → i ≠ j →
  m_vars m !! i = Some xi → m_vars m !! j = Some xj →
  val_room v i = val_room v j →
  val_start v i + v_needed xi ≤ val_start v j
  ∨ val_start v j + v_needed xj ≤ val_start v i.
Proof.
  intros Hs Hne Hi Hj Hroom.
  destruct (satisfies_pair _ _ _ _ _ _ Hs Hne Hi Hj) as [[_ Hp]|[_ Hp]];
    unfold pair_ok in Hp; rewrite !andb_true_iff in Hp;
    destruct Hp as [[[Hr _] _] _].
  - rewrite bool_decide_eq_true_2 in Hr by done. simpl in Hr.
    by apply disjoint_spec in Hr.
  - rewrite bool_decide_eq_true_2 in Hr by done. simpl in Hr.
    apply disjoint_spec in Hr. tauto.
Qed.

Lemma share_students_sym inst_i inst_j :
  share_students inst_i inst_j = share_students inst_j inst_i.
Proof.
  unfold share_students.
  rewrite (bool_decide_ext (group_id inst_i = group_id inst_j)
             (group_id inst_j = group_id inst_i)) by done.
  rewrite (bool_decide_ext (section_id inst_i = section_id inst_j)
             (section_id inst_j = section_id inst_i)) by done.
  by destruct (truthy_str (group_id inst_i)), (truthy_str (group_id inst_j)),
    (truthy_str (section_id inst_i)), (truthy_str (section_id inst_j)).
Qed.

(** X2.  In every assignment of values that satisfies the model, two
    different occurrences whose instances name the same group, or the same
    section, by a non-empty id occupy disjoint intervals of the week; in
    particular the repetitions of one Lecture never overlap. *)
Theorem cp_same_cohort_never_overlaps m v i j xi xj :
  satisfies m v = true → i ≠ j →
  m_vars m !! i = Some xi → m_vars m !! j = Some xj →
  (∃ gid, gid ≠ "" ∧ group_id (o_instance (v_occ xi)) = Some gid
          ∧ group_id (o_instance (v_occ xj)) = Some gid)
  ∨ (∃ sid, sid ≠ "" ∧ section_id (o_instance (v_occ xi)) = Some sid
            ∧ section_id (o_instance (v_occ xj)) = Some sid) →
  val_start v i + v_needed xi ≤ val_start v j
  ∨ val_start v j + v_needed xj ≤ val_start v i.
Proof.
  intros Hs Hne Hi Hj Hsame.
  assert (share_students (o_instance (v_occ xi)) (o_instance (v_occ xj)) = true)
    as Hshare.
  { unfold share_students, truthy_str.
    destruct Hsame as [(gid & Hg & -> & ->)|(sid & Hg & -> & ->)].
    - apply String.eqb_neq in Hg. rewrite Hg. simpl.
      by rewrite bool_decide_eq_true_2.
    - apply String.eqb_neq in Hg. rewrite Hg. simpl.
      rewrite (bool_decide_eq_true_2 (Some sid = Some sid)) by done.
      apply orb_true_r. }
  destruct (satisfies_pair _ _ _ _ _ _ Hs Hne Hi Hj) as [[Hlt _]|[Hlt _]].
  - by eapply satisfies_share_students.
  - rewrite share_students_sym in Hshare.
    destruct (satisfies_share_students _ _ _ _ _ _ Hs Hlt Hj Hi Hshare); tauto.
Qed.

Lemma valid_starts_range total spd needed starts s :
  valid_starts total spd needed = Some starts → s ∈ starts →
  0 ≤ s ≤ total - needed ∧ s / spd = (s + needed - 1) / spd.
Proof.
  unfold valid_starts. intros H Hs. case_decide; simplify_eq.
  apply elem_of_bfilter in Hs as [Heq Hr]. apply elem_of_range in Hr.
  apply Z.eqb_eq in Heq. lia.
Qed.

Lemma build_vars_domains data params spd o x :
  build_vars data params spd o = Some x →
  ∃ needed,
    needed_of (o_instance o) (base_slot_minutes params) = Some needed
    ∧ v_needed x = needed
    ∧ valid_starts (Z.of_nat (length (days params)) * spd) spd needed
      = Some (v_starts x)
    ∧ v_pairs x = (fun s => (s, s / spd)) <$> v_starts x.
Proof.
  unfold build_vars. intros H.
  destruct (needed_of _ _) as [needed|]; simplify_eq/=.
  destruct (valid_starts _ _ _) as [starts|] eqn:Hv; simplify_eq/=.
  exists needed. done.
Qed.

Lemma model_var_built data params m idx x :
  build_model data params = Some m → m_vars m !! idx = Some x →
  ∃ spd o, slots_per_day_of params = Some spd
           ∧ occurrences_of (instances data) !! idx = Some o
           ∧ build_vars data params spd o = Some x
           ∧ m_num_days m = Z.of_nat (length (days params)).
Proof.
  intros Hm Hx. destruct (build_model_vars _ _ _ Hm) as (spd & Hspd & HF).
  destruct (Forall2_lookup_r _ _ _ _ _ HF Hx) as (o & Ho & Hb).
  exists spd, o. split_and!; [done..|].
  unfold build_model in Hm. rewrite Hspd in Hm. simpl in Hm.
  destruct (mapM _ _); by simplify_eq/=.
Qed.

(** What the domains and the table of allowed pairs give for one
    occurrence of a solution. *)
Lemma solution_start_and_day data params m v idx x spd :
  build_model data params = Some m → satisfies m v = true →
  slots_per_day_of params = Some spd →
  m_vars m !! idx = Some x →
  val_day v idx = val_start v idx / spd
  ∧ 0 ≤ val_day v idx < Z.of_nat (length (days params))
  ∧ 0 ≤ val_start v idx
  ∧ val_start v idx + v_needed x ≤ Z.of_nat (length (days params)) * spd
  ∧ val_start v idx / spd = (val_start v idx + v_needed x - 1) / spd.
Proof.
  intros Hm Hs Hspd Hx.
  destruct (model_var_built _ _ _ _ _ Hm Hx) as (spd' & o & Hspd' & _ & Hb & Hnd).
  rewrite Hspd in Hspd'. simplify_eq.
  destruct (build_vars_domains _ _ _ _ _ Hb) as (needed & _ & Hn & Hv & Hp).
  destruct (satisfies_elim _ _ Hs) as [Hvar _]. specialize (Hvar _ _ Hx).
  unfold var_ok in Hvar. rewrite !andb_true_iff, !py_in_spec in Hvar.
  destruct Hvar as [[[[[Hstart _] _] Hd0] Hd1] Hpair].
  rewrite Hp in Hpair. apply list_elem_of_fmap in Hpair as (s & Heq & _).
  injection Heq as Hst Hday. subst s.
  rewrite Hnd in Hd1. apply Z.leb_le in Hd0, Hd1.
  rewrite <- Hn in Hv.
  destruct (valid_starts_range _ _ _ _ _ Hv Hstart) as [Hr Hq].
  split_and!; [done|lia|lia|lia|lia|done].
Qed.

(** X3.  In every solution of a built model with a positive number of slots
    per day, the day variable of an occurrence is the day of its start, a
    valid index into the days, and the slots of the occurrence lie inside
    that day. *)
Theorem cp_solution_stays_in_its_day data params m v idx x spd :
  build_model data params = Some m → satisfies m v = true →
  slots_per_day_of params = Some spd → 0 < spd →
  m_vars m !! idx = Some x →
  val_day v idx = val_start v idx / spd
  ∧ 0 ≤ val_day v idx < Z.of_nat (length (days params))
  ∧ spd * val_day v idx ≤ val_start v idx
  ∧ val_start v idx + v_needed x ≤ spd * (val_day v idx + 1).
Proof.
  intros Hm Hs Hspd Hpos Hx.
  destruct (solution_start_and_day _ _ _ _ _ _ _ Hm Hs Hspd Hx)
    as (Hday & Hrange & _ & _ & Hq).
  split; [done|]. split; [done|]. split.
  - rewrite Hday. by apply Z.mul_div_le.
  - rewrite Hday, Hq.
    pose proof (Z.mul_succ_div_gt (val_start v idx + v_needed x - 1) spd Hpos).
    lia.
Qed.

Lemma overlapping_same_day spd si li sj lj :
  0 < spd →
  si / spd = (si + li - 1) / spd → sj / spd = (sj + lj - 1) / spd →
  ¬ (si + li ≤ sj ∨ sj + lj ≤ si) →
  si / spd = sj / spd.
Proof.
  intros Hpos Hi Hj Hover.
  assert (sj / spd ≤ (si + li - 1) / spd) by (apply Z.div_le_mono; lia).
  assert (si / spd ≤ (sj + lj - 1) / spd) by (apply Z.div_le_mono; lia).
  lia.
Qed.

(** X4.  In every solution of a built model with a positive number of slots
    per day, two different occurrences that both have an instructor
    variable and are given the same instructor occupy disjoint intervals of
    the week. *)
Theorem cp_instructors_never_double_booked data params m v spd i j xi xj :
  build_model data params = Some m → satisfies m v = true →
  slots_per_day_of params = Some spd → 0 < spd →
  i ≠ j → m_vars m !! i = Some xi → m_vars m !! j = Some xj →
  is_Some (v_instrs xi) → is_Some (v_instrs xj) →
  val_instr v i = val_instr v j →
  val_start v i + v_needed xi ≤ val_start v j
  ∨ val_start v j + v_needed xj ≤ val_start v i.
Proof.
  intros Hm Hs Hspd Hpos Hne Hi Hj [di Hdi] [dj Hdj] Hinstr.
  destruct (solution_start_and_day _ _ _ _ _ _ _ Hm Hs Hspd Hi)
    as (Hdayi & _ & _ & _ & Hqi).
  destruct (solution_start_and_day _ _ _ _ _ _ _ Hm Hs Hspd Hj)
    as (Hdayj & _ & _ & _ & Hqj).
  destruct (decide (val_start v i + v_needed xi ≤ val_start v j
                    ∨ val_start v j + v_needed xj ≤ val_start v i))
    as [|Hover]; [done|].
  exfalso.
  pose proof (overlapping_same_day _ _ _ _ _ Hpos Hqi Hqj Hover) as Hsame.
  assert (val_day v i = val_day v j) as Hday by congruence.
  destruct (satisfies_pair _ _ _ _ _ _ Hs Hne Hi Hj) as [[_ Hp]|[_ Hp]];
    unfold pair_ok in Hp; rewrite !andb_true_iff in Hp;
    destruct Hp as [[_ Hp] _]; rewrite ?Hdi, ?Hdj in Hp;
    rewrite !orb_true_iff, !negb_true_iff, !bool_decide_eq_false,
      disjoint_spec in Hp;
    destruct Hp as [[Hp|Hp]|Hp]; try congruence; apply Hover; tauto.
Qed.

Lemma satisfies_project_ok m v : satisfies m v = true → project_ok v (m_vars m) = true.
Proof. unfold satisfies. rewrite !andb_true_iff. tauto. Qed.

Lemma elem_of_proj_idxs vars gid idx :
  idx ∈ proj_idxs vars gid
  ↔ ∃ x, vars !! idx = Some x ∧ project_key x = Some gid.
Proof.
  unfold proj_idxs. rewrite list_elem_of_fmap. split.
  - intros ([k x] & -> & Hin). apply elem_of_bfilter in Hin as [Hk Hin].
    apply elem_of_enumerate in Hin. apply bool_decide_eq_true in Hk. eauto.
  - intros (x & Hx & Hk). exists (idx, x). split; [done|].
    apply elem_of_bfilter. split; [by apply bool_decide_eq_true|].
    by apply elem_of_enumerate.
Qed.

(** X5.  In every assignment of values that satisfies the model, all the
    Project occurrences that name one group by a non-empty id are on the
    same day. *)
Theorem cp_projects_of_a_group_share_a_day m v i j xi xj gid :
  satisfies m v = true →
  m_vars m !! i = Some xi → m_vars m !! j = Some xj →
  gid ≠ "" →
  i_type (o_instance (v_occ xi)) = "Project" →
  group_id (o_instance (v_occ xi)) = Some gid →
  i_type (o_instance (v_occ xj)) = "Project" →
  group_id (o_instance (v_occ xj)) = Some gid →
  val_day v i = val_day v j.
Proof.
  intros Hs Hi Hj Hgid Hti Hgi Htj Hgj.
  assert (∀ x, i_type (o_instance (v_occ x)) = "Project" →
               group_id (o_instance (v_occ x)) = Some gid →
               project_key x = Some gid) as Hkey.
  { intros x Ht Hg. unfold project_key, truthy_str. rewrite Ht, Hg.
    apply String.eqb_neq in Hgid. by rewrite Hgid. }
  pose proof (satisfies_project_ok _ _ Hs) as Hok. unfold project_ok in Hok.
  rewrite forallb_elem_of in Hok.
  assert (xi ∈ m_vars m) as Hin by (apply list_elem_of_lookup; eauto).
  specialize (Hok _ Hin). rewrite (Hkey _ Hti Hgi) in Hok.
  assert (i ∈ proj_idxs (m_vars m) gid) as Hpi
    by (apply elem_of_proj_idxs; eauto).
  assert (j ∈ proj_idxs (m_vars m) gid) as Hpj
    by (apply elem_of_proj_idxs; eauto).
  destruct (proj_idxs (m_vars m) gid) as [|ref others];
    [by apply elem_of_nil in Hpi|].
  rewrite forallb_elem_of in Hok.
  assert (∀ k, k ∈ ref :: others → val_day v ref = val_day v k) as Hall.
  { intros k Hk. apply elem_of_cons in Hk as [->|Hk]; [done|].
    apply Z.eqb_eq. by apply Hok. }
  by rewrite <- (Hall _ Hpi), <- (Hall _ Hpj).
Qed.

(** *** The pre-check as a whole *)

Lemma length_errors_total base inst :
  base ≠ 0 → is_Some (length_errors base inst).
Proof.
  intros Hb. unfold length_errors. destruct (length_minutes inst); [|done].
  rewrite decide_False by done. by case_decide.
Qed.

Lemma length_errors_nil base inst :
  length_errors base inst = Some []
  ↔ ∃ l, length_minutes inst = Some l ∧ base ≠ 0 ∧ l mod base = 0.
Proof.
  unfold length_errors. split.
  - destruct (length_minutes inst) as [l|]; [|done].
    case_decide; [done|]. case_decide as Hm; [done|]. intros _.
    exists l. split_and!; [done..|].
    by destruct (decide (l mod base = 0)).
  - intros (l & -> & Hb & Hm). rewrite decide_False by done.
    rewrite decide_False; [done|]. by intros [].
Qed.

Lemma check_instance_nil rms ins base inst :
  check_instance rms ins base inst = Some []
  ↔ (∃ l, length_minutes inst = Some l ∧ base ≠ 0 ∧ l mod base = 0)
    ∧ (is_lab inst = true → truthy_str (lab_type inst) = true)
    ∧ (∃ r, r ∈ rms ∧ precheck_room_ok inst r = true)
    ∧ (i_type inst ≠ "Project" → ∃ i, i ∈ ins ∧ instr_ok inst i = true).
Proof.
  split.
  - intros H. destruct (check_instance_clean _ _ _ _ H) as (Hlab & Hr & Hi).
    split_and!; [|done|by apply existsb_elem_of|].
    + apply length_errors_nil. unfold check_instance in H.
      destruct (length_errors base inst) as [le|]; simplify_eq/=.
      destruct (is_lab inst && _); simplify_eq; by destruct le.
    + intros Hp. by apply existsb_elem_of, Hi.
  - intros (Hlen & Hlab & Hr & Hi). unfold check_instance.
    apply length_errors_nil in Hlen. rewrite Hlen. simpl.
    destruct (is_lab inst) eqn:Hl; simpl.
    + rewrite Hlab by done. simpl. f_equal.
      unfold room_errors, instructor_errors.
      rewrite (proj2 (existsb_elem_of _ _) Hr).
      case_bool_decide as Hp; [|done].
      by rewrite (proj2 (existsb_elem_of _ _) (Hi Hp)).
    + f_equal. unfold room_errors, instructor_errors.
      rewrite (proj2 (existsb_elem_of _ _) Hr).
      case_bool_decide as Hp; [|done].
      by rewrite (proj2 (existsb_elem_of _ _) (Hi Hp)).
Qed.

Lemma check_instance_total rms ins base inst :
  base ≠ 0 → is_Some (check_instance rms ins base inst).
Proof.
  intros Hb. unfold check_instance.
  destruct (length_errors_total base inst Hb) as [le ->]. simpl.
  by destruct (is_lab inst && _).
Qed.

Lemma concat_nil_Forall {A} (ls : list (list A)) :
  concat ls = [] ↔ Forall (fun l => l = []) ls.
Proof.
  induction ls as [|l ls IH]; simpl.
  - split; [constructor|done].
  - split.
    + intros H. apply app_eq_nil in H as [-> H]. constructor; [done|].
      by apply IH.
    + intros H. apply Forall_cons in H as [-> H]. by apply IH.
Qed.

(** X6.  With a non-zero base slot the pre-check does not raise, and it
    reports no error exactly when every instance has a length that is a
    multiple of the base slot, carries a lab type if it is a Lab, has a room
    of an accepted type (of its lab type for a Lab) that holds its students,
    and, unless it is a Project, has an instructor qualified for the course
    in the role its session type asks for. *)
Theorem precheck_clean_exactly_when data params :
  base_slot_minutes params ≠ 0 →
  ∃ errs,
    quick_feasibility_checks data params = Some errs
    ∧ (errs = [] ↔
       ∀ inst, inst ∈ instances data →
         (∃ l, length_minutes inst = Some l
               ∧ l mod base_slot_minutes params = 0)
         ∧ (is_lab inst = true → truthy_str (lab_type inst) = true)
         ∧ (∃ r, r ∈ rooms data ∧ precheck_room_ok inst r = true)
         ∧ (i_type inst ≠ "Project" →
            ∃ i, i ∈ instructors data ∧ instr_ok inst i = true)).
Proof.
  intros Hb. unfold quick_feasibility_checks.
  destruct (mapM (check_instance (rooms data) (instructors data)
                    (base_slot_minutes params)) (instances data))
    as [per|] eqn:Hm.
  2:{ exfalso. assert (is_Some (mapM (check_instance (rooms data)
                 (instructors data) (base_slot_minutes params)) (instances data)))
        as [? Hs]; [|congruence].
      apply mapM_is_Some, Forall_forall. intros inst _.
      by apply check_instance_total. }
  exists (concat per). split; [done|]. apply mapM_Some in Hm.
  rewrite concat_nil_Forall. split.
  - intros Hnil inst Hin. apply list_elem_of_lookup in Hin as [i Hi].
    destruct (Forall2_lookup_l _ _ _ _ _ Hm Hi) as (e & He & Hc).
    rewrite Forall_lookup in Hnil. rewrite (Hnil _ _ He) in Hc.
    apply check_instance_nil in Hc as ((l & Hl & _ & Hmod) & Hrest).
    split; [eauto|done].
  - intros Hall. apply Forall_lookup. intros i e He.
    destruct (Forall2_lookup_r _ _ _ _ _ Hm He) as (inst & Hi & Hc).
    assert (inst ∈ instances data) as Hin by (apply list_elem_of_lookup; eauto).
    destruct (Hall _ Hin) as ((l & Hl & Hmod) & Hrest).
    assert (check_instance (rooms data) (instructors data)
              (base_slot_minutes params) inst = Some []) as Hnil.
    { apply check_instance_nil. split; [eauto|done]. }
    congruence.
Qed.

Lemma clean_instance_needed data params inst :
  quick_feasibility_checks data params = Some [] →
  inst ∈ instances data →
  ∃ l, length_minutes inst = Some l
       ∧ base_slot_minutes params ≠ 0
       ∧ l mod base_slot_minutes params = 0
       ∧ needed_of inst (base_slot_minutes params)
         = Some (l / base_slot_minutes params).
Proof.
  intros Hq Hin.
  pose proof (quick_clean_instance _ _ _ Hq Hin) as Hc.
  apply check_instance_nil in Hc as ((l & Hl & Hb & Hmod) & _).
  exists l. split_and!; [done..|].
  unfold needed_of, subslots_needed. rewrite Hl. simpl.
  rewrite decide_False by done. rewrite decide_False; [done|]. by intros [].
Qed.

(** X7.  After a pre-check without errors, and with a number of slots per
    day other than zero, building the model raises nothing: every
    occurrence gets its variables, its number of slots times the base slot
    is the length of its instance, and the model has one group of variables
    per occurrence. *)
Theorem clean_precheck_builds_the_model data params spd :
  quick_feasibility_checks data params = Some [] →
  slots_per_day_of params = Some spd → spd ≠ 0 →
  ∃ m, build_model data params = Some m
       ∧ length (m_vars m) = length (occurrences_of (instances data))
       ∧ ∀ x, x ∈ m_vars m →
           length_minutes (o_instance (v_occ x))
           = Some (v_needed x * base_slot_minutes params).
Proof.
  intros Hq Hspd Hne.
  assert (∀ o, o ∈ occurrences_of (instances data) →
               is_Some (build_vars data params spd o)) as Hall.
  { intros o Ho. apply elem_of_occurrences_of in Ho.
    destruct (clean_instance_needed _ _ _ Hq Ho) as (l & _ & _ & _ & Hn).
    unfold build_vars. rewrite Hn. simpl.
    unfold valid_starts. rewrite decide_False by (intros [? _]; done).
    done. }
  destruct (mapM (build_vars data params spd) (occurrences_of (instances data)))
    as [vars|] eqn:Hm.
  2:{ exfalso. assert (is_Some (mapM (build_vars data params spd)
                                  (occurrences_of (instances data))))
        as [? Hs]; [|congruence].
      apply mapM_is_Some, Forall_forall. intros o Ho. by apply Hall. }
  exists {| m_vars := vars; m_num_days := Z.of_nat (length (days params)) |}.
  split; [|split].
  - unfold build_model. rewrite Hspd. simpl. by rewrite Hm.
  - simpl. apply mapM_Some in Hm. symmetry. by eapply Forall2_length.
  - simpl. intros x Hx. apply mapM_Some in Hm.
    apply list_elem_of_lookup in Hx as [i Hi].
    destruct (Forall2_lookup_r _ _ _ _ _ Hm Hi) as (o & Ho & Hb).
    assert (o ∈ occurrences_of (instances data)) as Hin
      by (apply list_elem_of_lookup; eauto).
    apply elem_of_occurrences_of in Hin.
    destruct (clean_instance_needed _ _ _ Hq Hin) as (l & Hl & Hb0 & Hmod & Hn).
    destruct (build_vars_domains _ _ _ _ _ Hb) as (needed & Hn' & Hv & _).
    apply build_vars_occ in Hb as (Hocc & _).
    rewrite Hocc, Hl, Hv. rewrite Hn in Hn'. injection Hn' as <-.
    f_equal. rewrite Z.mul_comm. by apply Z.div_exact.
Qed.

(** X8.  After a pre-check without errors, an instance that is not a
    Project and does not switch its instructor off has an instructor
    variable; its domain is the list of the candidates, which is not empty,
    and each candidate is an instructor qualified for the course of the
    instance, a Professor for a Lecture and a TA for a Lab or a Tut. *)
Theorem clean_precheck_instructor_domain data params inst :
  quick_feasibility_checks data params = Some [] →
  inst ∈ instances data →
  i_type inst ≠ "Project" →
  default true (has_instructor inst) = true →
  instr_candidates (instructors data) inst ≠ []
  ∧ instr_domain (instructors data) inst
    = Some (instr_candidates (instructors data) inst)
  ∧ ∀ idx, idx ∈ instr_candidates (instructors data) inst →
      ∃ instr, instructors data !! idx = Some instr
               ∧ course_id inst ∈ qualified_courses instr
               ∧ (i_type inst = "Lecture" ∧ role instr = "Professor"
                  ∨ (i_type inst = "Lab" ∨ i_type inst = "Tut")
                    ∧ role instr = "TA").
Proof.
  intros Hq Hin Hp Hhas.
  destruct (check_instance_clean _ _ _ _ (quick_clean_instance _ _ _ Hq Hin))
    as (_ & _ & Hinstr).
  specialize (Hinstr Hp). apply existsb_elem_of in Hinstr as (i & Hi & Hok).
  apply list_elem_of_lookup in Hi as [idx Hidx].
  assert (idx ∈ instr_candidates (instructors data) inst) as Hc
    by (apply instr_candidates_spec; eauto).
  assert (instr_candidates (instructors data) inst ≠ []) as Hne.
  { intros Hnil. rewrite Hnil in Hc. by apply elem_of_nil in Hc. }
  split_and!; [done| |].
  - unfold instr_domain. rewrite bool_decide_eq_false_2 by done.
    rewrite Hhas. simpl. by destruct (instr_candidates _ _).
  - intros k Hk. apply instr_candidates_spec in Hk as (instr & Hk & Hokk).
    exists instr. split; [done|]. unfold instr_ok in Hokk.
    apply andb_true_iff in Hokk as [Hqual Hrole]. apply py_in_spec in Hqual.
    split; [done|]. apply orb_true_iff in Hrole as [Hrole|Hrole];
      apply andb_true_iff in Hrole as [Ht Hr]; apply bool_decide_eq_true in Hr.
    + left. by apply bool_decide_eq_true in Ht.
    + right. split; [|done]. apply py_in_spec in Ht.
      apply elem_of_cons in Ht as [->|Ht]; [by left|].
      apply list_elem_of_singleton in Ht. by right.
Qed.

(** *** Reading the schedule *)

Lemma entry_of_Some data spd v idx x e :
  entry_of data spd v idx x = Some e →
  spd ≠ 0
  ∧ ∃ name len r,
      py_index DAYS (val_start v idx / spd) = Some name
      ∧ needed_of (o_instance (v_occ x)) BASE_SLOT_MINUTES = Some len
      ∧ rooms data !! val_room v idx = Some r
      ∧ e_day e = name
      ∧ e_period e = val_start v idx mod spd / 2 + 1
      ∧ e_subslot e = (val_start v idx mod spd) mod 2
      ∧ e_start_subslot_index e = val_start v idx
      ∧ e_length_subslots e = len
      ∧ e_room_id e = room_id r ∧ e_room_type e = r_type r
      ∧ match v_instrs x with
        | Some _ => ∃ instr, instructors data !! val_instr v idx = Some instr
                             ∧ e_instructor_id e = Some (instr_id instr)
        | None => e_instructor_id e = None
        end.
Proof.
  unfold entry_of. intros H.
  destruct (decide (spd = 0)) as [|Hspd]; [done|]. split; [done|].
  destruct (v_instrs x) as [dom|];
    [destruct (instructors data !! val_instr v idx) as [instr|]|];
    simpl in H; try done;
    (destruct (py_index DAYS (val_start v idx / spd)) as [name|];
       simpl in H; [|done]);
    (destruct (needed_of (o_instance (v_occ x)) BASE_SLOT_MINUTES) as [len|];
       simpl in H; [|done]);
    (destruct (rooms data !! val_room v idx) as [r|]; simpl in H; [|done]);
    injection H as <-; exists name, len, r; simpl;
    change (90 / BASE_SLOT_MINUTES) with 2; split_and!; eauto.
Qed.

(** X9.  A schedule entry decodes the start of its occurrence: the start
    index is the slots of the whole days before the entry's day, plus two
    slots per period before the entry's period, plus the sub-slot, which is
    0 or 1; the entry names the room at the chosen index, and its length in
    slots times 45 minutes is the length of the instance. *)
Theorem cp_entry_decodes_its_start data spd v idx x e :
  entry_of data spd v idx x = Some e →
  e_start_subslot_index e = val_start v idx
  ∧ (∃ day, py_index DAYS day = Some (e_day e)
            ∧ e_start_subslot_index e
              = spd * day + (e_period e - 1) * 2 + e_subslot e)
  ∧ 0 ≤ e_subslot e < 2
  ∧ (∃ r, rooms data !! val_room v idx = Some r
          ∧ e_room_id e = room_id r ∧ e_room_type e = r_type r)
  ∧ length_minutes (o_instance (v_occ x))
    = Some (e_length_subslots e * BASE_SLOT_MINUTES).
Proof.
  intros H. apply entry_of_Some in H
    as (Hspd & name & len & r & Hday & Hlen & Hr & Hd & Hp & Hsub & Hs & Hl
        & Hrid & Hrt & _).
  split; [done|]. split; [|split; [|split]].
  - exists (val_start v idx / spd). rewrite Hd, Hs, Hp, Hsub. split; [done|].
    pose proof (Z.div_mod (val_start v idx) spd Hspd).
    pose proof (Z.div_mod (val_start v idx mod spd) 2 ltac:(lia)).
    lia.
  - rewrite Hsub. apply Z.mod_pos_bound. lia.
  - by exists r.
  - rewrite Hl. unfold needed_of, subslots_needed in Hlen.
    destruct (length_minutes (o_instance (v_occ x))) as [l|]; [|done].
    simpl in Hlen. repeat case_decide; try done.
    injection Hlen as <-. f_equal. rewrite Z.mul_comm.
    apply Z.div_exact; unfold BASE_SLOT_MINUTES in *; lia.
Qed.

(** X10.  When the engine reports anything but an optimal or feasible
    solution, the result lists the instance id of every occurrence as
    unscheduled, once per weekly session of its instance, and counts
    them. *)
Theorem cp_unscheduled_lists_every_occurrence cp_solve data params status n ids :
  build_and_solve cp_solve data params = Some (Unscheduled status n ids) →
  quick_feasibility_checks data params = Some []
  ∧ status ≠ OPTIMAL ∧ status ≠ FEASIBLE
  ∧ ids = (fun o => instance_id (o_instance o))
            <$> occurrences_of (instances data)
  ∧ n = length ids.
Proof.
  unfold build_and_solve. intros H.
  destruct (quick_feasibility_checks data params) as [[|??]|]; simplify_eq/=.
  destruct (slots_per_day_of params) as [spd|]; simplify_eq/=.
  destruct (build_model data params) as [m|] eqn:Hm; simplify_eq/=.
  destruct (cp_solve m) as [st v].
  assert ((fun x => instance_id (o_instance (v_occ x))) <$> m_vars m
          = (fun o => instance_id (o_instance o))
              <$> occurrences_of (instances data)) as Hids.
  { rewrite <- (build_model_occurrences _ _ _ Hm).
    by rewrite <- list_fmap_compose. }
  destruct st; simpl in H;
    try (destruct (mapM _ (enumerate (m_vars m))); simpl in H; discriminate);
    injection H as <- <- <-;
    (split_and!; [done..|by rewrite Hids|by rewrite length_fmap]).
Qed.

Lemma instr_domain_Some ins inst d :
  instr_domain ins inst = Some d → d = instr_candidates ins inst.
Proof.
  unfold instr_domain. destruct (_ || _); [done|].
  destruct (instr_candidates ins inst); by intros [= <-].
Qed.

(** X11.  In a model built after a pre-check without errors, the entry made
    from a solution names a room of a type accepted for its session type (of
    the lab type for a Lab) that holds the expected students when there are
    any, and an entry with an instructor names one who is qualified for the
    course, a Professor for a Lecture and a TA for a Lab or a Tut. *)
Theorem cp_entry_respects_the_domains data params m v spd idx x e :
  quick_feasibility_checks data params = Some [] →
  build_model data params = Some m → satisfies m v = true →
  m_vars m !! idx = Some x →
  entry_of data spd v idx x = Some e →
  e_room_type e ∈ valid_room_types_for_session (e_type e)
  ∧ (e_type e = "Lab" → Some (e_room_type e) = lab_type (o_instance (v_occ x)))
  ∧ (∃ r, rooms data !! val_room v idx = Some r ∧ e_room_id e = room_id r
          ∧ (expected_students (o_instance (v_occ x)) ≠ 0 →
             expected_students (o_instance (v_occ x)) ≤ default 0 (r_capacity r)))
  ∧ (∀ iid, e_instructor_id e = Some iid →
       ∃ instr, instructors data !! val_instr v idx = Some instr
                ∧ instr_id instr = iid
                ∧ e_course_id e ∈ qualified_courses instr
                ∧ (e_type e = "Lecture" ∧ role instr = "Professor"
                   ∨ (e_type e = "Lab" ∨ e_type e = "Tut")
                     ∧ role instr = "TA")).
Proof.
  intros Hq Hm Hs Hx He.
  destruct (satisfies_elim _ _ Hs) as [Hvar _]. specialize (Hvar _ _ Hx).
  unfold var_ok in Hvar. rewrite !andb_true_iff in Hvar.
  destruct Hvar as [[[[[_ Hroom] Hinstr] _] _] _]. apply py_in_spec in Hroom.
  assert (x ∈ m_vars m) as Hin by (apply list_elem_of_lookup; eauto).
  destruct (model_room_domain _ _ _ _ _ Hq Hm Hin Hroom) as (r & Hr & Hok & Hlab).
  destruct (entry_of_occurrence _ _ _ _ _ _ He) as (_ & Hcid & Hty & _ & _ & _).
  destruct (model_var_built _ _ _ _ _ Hm Hx) as (spd' & o & _ & _ & Hb & _).
  apply build_vars_occ in Hb as (<- & Hdom & _).
  apply entry_of_Some in He
    as (_ & name & len & r' & _ & _ & Hr' & _ & _ & _ & _ & _ & Hrid & Hrt & Hi).
  rewrite Hr in Hr'. injection Hr' as <-.
  unfold build_room_ok in Hok. rewrite !andb_true_iff in Hok.
  destruct Hok as [[Htype Hl] Hcap]. apply py_in_spec in Htype.
  rewrite Hrt, Hty, Hcid. split_and!; [done| | |].
  - intros Hlabty. unfold is_lab in *.
    rewrite bool_decide_eq_true_2 in Hl, Hlab by done.
    rewrite Hlab in Hl by done. simpl in Hl.
    apply negb_true_iff, bool_decide_eq_false in Hl.
    by destruct (decide (Some (r_type r) = lab_type (o_instance (v_occ x)))).
  - exists r. split_and!; [done..|]. intros Hexp.
    apply negb_true_iff in Hcap. unfold truthy_Z in Hcap.
    rewrite (proj2 (Z.eqb_neq _ _) Hexp) in Hcap. simpl in Hcap.
    by apply Z.ltb_ge in Hcap.
  - intros iid Hiid. destruct (v_instrs x) as [d|] eqn:Hd; [|congruence].
    destruct Hi as (instr & Hi & Hid). rewrite Hid in Hiid.
    injection Hiid as <-. exists instr. split_and!; [done..| |].
    all: symmetry in Hdom; apply instr_domain_Some in Hdom; subst d.
    all: apply py_in_spec, instr_candidates_spec in Hinstr as (i' & Hi' & Hoki).
    all: rewrite Hi in Hi'; injection Hi' as <-.
    all: unfold instr_ok in Hoki; apply andb_true_iff in Hoki as [Hqual Hrole].
    + by apply py_in_spec in Hqual.
    + apply orb_true_iff in Hrole as [Hrole|Hrole];
        apply andb_true_iff in Hrole as [Ht Hro];
        apply bool_decide_eq_true in Hro.
      * left. by apply bool_decide_eq_true in Ht.
      * right. split; [|done]. apply py_in_spec in Ht.
        apply elem_of_cons in Ht as [->|Ht]; [by left|].
        apply list_elem_of_singleton in Ht. by right.
Qed.

(** *** The generator *)

Lemma elem_of_flat_map {A B} (f : A → list B) (l : list A) (y : B) :
  y ∈ List.flat_map f l ↔ ∃ x, x ∈ l ∧ y ∈ f x.
Proof.
  rewrite list_elem_of_In, in_flat_map. setoid_rewrite list_elem_of_In. done.
Qed.

Lemma elem_of_generate_instances courses groups sections inst :
  inst ∈ generate_instances courses groups sections
  ↔ ∃ course kind, course ∈ courses ∧ kind ∈ c_kinds course
                   ∧ inst ∈ instances_of_kind course groups sections kind.
Proof.
  unfold generate_instances. rewrite elem_of_flat_map. split.
  - intros (course & Hc & Hin). apply elem_of_flat_map in Hin as (kind & ? & ?).
    by exists course, kind.
  - intros (course & kind & ? & ? & ?). exists course. split; [done|].
    apply elem_of_flat_map. by exists kind.
Qed.

Lemma elem_of_target_sections course groups sections s :
  s ∈ target_sections course groups sections
  ↔ s ∈ sections
    ∧ ∃ g, g ∈ groups ∧ eligible_group course g = true
           ∧ g_group_id g = s_group_id s.
Proof.
  unfold target_sections, target_groups.
  rewrite elem_of_bfilter, py_in_spec, list_elem_of_fmap.
  setoid_rewrite elem_of_bfilter. split.
  - intros [(g & Hid & Hel & Hg) Hs]. split; [done|]. by exists g.
  - intros [Hs (g & Hg & Hel & Hid)]. split; [|done]. by exists g.
Qed.

(** X12.  Every generated instance comes from a kind of a course and from
    one cohort of that course: a Project or a Lecture carries the id and the
    head count of a group of the course's year (and major, when the course
    names one) and no section; a Tut or a Lab carries the id and the head
    count of a section of such a group and no group. *)
Theorem generated_instance_origin courses groups sections inst :
  inst ∈ generate_instances courses groups sections →
  ∃ course kind,
    course ∈ courses ∧ kind ∈ c_kinds course
    ∧ course_id inst = c_course_id course
    ∧ is_project inst = c_is_project course
    ∧ ((∃ g, g ∈ groups ∧ eligible_group course g = true
             ∧ group_id inst = Some (g_group_id g) ∧ section_id inst = None
             ∧ expected_students inst = g_students_count g
             ∧ (i_type inst = "Project" ∨ i_type inst = "Lecture"))
       ∨ (∃ s g, s ∈ sections ∧ g ∈ groups ∧ eligible_group course g = true
                 ∧ g_group_id g = s_group_id s
                 ∧ section_id inst = Some (s_section_id s) ∧ group_id inst = None
                 ∧ expected_students inst = s_students_count s
                 ∧ (i_type inst = "Tut" ∨ i_type inst = "Lab"))).
Proof.
  intros Hin.
  apply elem_of_generate_instances in Hin as (course & kind & Hc & Hk & Hin).
  exists course, kind. split; [done|]. split; [done|].
  unfold instances_of_kind in Hin.
  destruct (c_is_project course) eqn:Hp.
  { apply list_elem_of_fmap in Hin as (g & -> & Hg).
    apply elem_of_bfilter in Hg as [Hel Hg]. simpl.
    split_and!; [done..|]. left. exists g. split_and!; auto. }
  repeat case_decide.
  - apply list_elem_of_fmap in Hin as (g & -> & Hg).
    apply elem_of_bfilter in Hg as [Hel Hg]. simpl.
    split_and!; [done..|]. left. exists g. split_and!; auto.
  - apply list_elem_of_fmap in Hin as (s & -> & Hs).
    apply elem_of_target_sections in Hs as (Hs & g & Hg & Hel & Hid). simpl.
    split_and!; [done..|]. right. exists s, g. split_and!; auto.
  - apply list_elem_of_fmap in Hin as (s & -> & Hs).
    apply elem_of_target_sections in Hs as (Hs & g & Hg & Hel & Hid). simpl.
    split_and!; [done..|]. right. exists s, g. split_and!; auto.
  - by apply elem_of_nil in Hin.
Qed.

(** X13.  For a course that is not a project, every section of a group of
    the course's year and major gets the Tut instance of each Tut kind and
    the Lab instance of each Lab kind, and every such group gets the Lecture
    instance of each Lecture kind; a kind of any other type adds nothing. *)
Theorem every_cohort_gets_its_instance courses groups sections course kind g :
  course ∈ courses → kind ∈ c_kinds course → c_is_project course = false →
  g ∈ groups → eligible_group course g = true →
  (k_type kind = Some "Lecture" →
   lecture_instance course kind g ∈ generate_instances courses groups sections)
  ∧ (∀ s, s ∈ sections → s_group_id s = g_group_id g →
       (k_type kind = Some "Tut" →
        tut_instance course kind s ∈ generate_instances courses groups sections)
       ∧ (k_type kind = Some "Lab" →
          lab_instance course kind s
            ∈ generate_instances courses groups sections))
  ∧ (k_type kind ≠ Some "Lecture" → k_type kind ≠ Some "Tut" →
     k_type kind ≠ Some "Lab" →
     instances_of_kind course groups sections kind = []).
Proof.
  intros Hc Hk Hp Hg Hel.
  assert (∀ s, s ∈ sections → s_group_id s = g_group_id g →
               s ∈ target_sections course groups sections) as Hts.
  { intros s Hs Hid. apply elem_of_target_sections. split; [done|].
    by exists g. }
  split; [|split].
  - intros Ht. apply elem_of_generate_instances. exists course, kind.
    split_and!; [done..|]. unfold instances_of_kind. rewrite Hp.
    rewrite decide_True by done. apply list_elem_of_fmap. exists g.
    split; [done|]. by apply elem_of_bfilter.
  - intros s Hs Hid. split; intros Ht; apply elem_of_generate_instances;
      exists course, kind; (split_and!; [done..|]);
      unfold instances_of_kind; rewrite Hp, Ht; simpl;
      apply list_elem_of_fmap; exists s; auto.
  - intros H1 H2 H3. unfold instances_of_kind. rewrite Hp.
    by rewrite !decide_False by done.
Qed.

(** *** The schedule of a sound engine *)

Lemma scheduled_entry_lookup cp_solve data params status n schedule m i e :
  build_and_solve cp_solve data params = Some (Scheduled status n schedule) →
  build_model data params = Some m →
  schedule !! i = Some e →
  ∃ spd x, slots_per_day_of params = Some spd ∧ m_vars m !! i = Some x
           ∧ entry_of data spd (cp_solve m).2 i x = Some e.
Proof.
  unfold build_and_solve. intros H Hm Hi.
  destruct (quick_feasibility_checks data params) as [[|??]|]; simplify_eq/=.
  destruct (slots_per_day_of params) as [spd|]; simplify_eq/=.
  rewrite Hm in H. simpl in H.
  destruct (cp_solve m) as [st v]. simpl.
  assert (∀ sched, mapM (fun ix => entry_of data spd v ix.1 ix.2)
                     (enumerate (m_vars m)) = Some sched →
                   sched !! i = Some e →
                   ∃ x, m_vars m !! i = Some x
                        ∧ entry_of data spd v i x = Some e) as Hsched.
  { intros sched Hs He. apply mapM_Some in Hs.
    destruct (Forall2_lookup_r _ _ _ _ _ Hs He) as ([i' x] & Hix & Hent).
    assert ((i', x) ∈ enumerate (m_vars m)) as Hin
      by (apply list_elem_of_lookup; eauto).
    unfold enumerate in Hix. rewrite list_lookup_imap in Hix.
    destruct (m_vars m !! i) as [x'|] eqn:Hx; [|done].
    injection Hix as <- <-. by exists x'. }
  exists spd.
  destruct st; simpl in H; try discriminate;
    (destruct (mapM _ (enumerate (m_vars m))) as [sched|] eqn:Hs;
       simpl in H; [|done]);
    injection H as _ _ <-;
    (destruct (Hsched _ eq_refl Hi) as (x & ? & ?)); by exists x.
Qed.

(** X25.  When the values that the engine returns satisfy the model, two
    different entries of the schedule that name the same room (the room ids
    being distinct), or the same group, or the same section, never overlap:
    the slots of one end before the slots of the other begin. *)
Theorem cp_schedule_never_double_books
    cp_solve data params status n schedule m i j e1 e2 :
  build_and_solve cp_solve data params = Some (Scheduled status n schedule) →
  build_model data params = Some m →
  satisfies m (cp_solve m).2 = true →
  base_slot_minutes params = BASE_SLOT_MINUTES →
  NoDup (room_id <$> rooms data) →
  schedule !! i = Some e1 → schedule !! j = Some e2 → i ≠ j →
  e_room_id e1 = e_room_id e2
  ∨ (∃ gid, gid ≠ "" ∧ e_group_id e1 = Some gid ∧ e_group_id e2 = Some gid)
  ∨ (∃ sid, sid ≠ "" ∧ e_section_id e1 = Some sid
            ∧ e_section_id e2 = Some sid) →
  e_start_subslot_index e1 + e_length_subslots e1 ≤ e_start_subslot_index e2
  ∨ e_start_subslot_index e2 + e_length_subslots e2
    ≤ e_start_subslot_index e1.
Proof.
  intros H Hm Hs Hbase Hnd H1 H2 Hne Hsame.
  destruct (scheduled_entry_lookup _ _ _ _ _ _ _ _ _ H Hm H1)
    as (spd & x1 & Hspd & Hx1 & He1).
  destruct (scheduled_entry_lookup _ _ _ _ _ _ _ _ _ H Hm H2)
    as (spd' & x2 & Hspd' & Hx2 & He2).
  rewrite Hspd in Hspd'. injection Hspd' as <-.
  set (v := (cp_solve m).2) in *.
  assert (∀ idx x e, m_vars m !! idx = Some x →
            entry_of data spd v idx x = Some e →
            e_length_subslots e = v_needed x) as Hlen.
  { intros idx x e Hx He.
    destruct (model_var_built _ _ _ _ _ Hm Hx) as (? & o & _ & _ & Hb & _).
    pose proof (build_vars_occ _ _ _ _ _ Hb) as (Ho & _).
    destruct (build_vars_domains _ _ _ _ _ Hb) as (needed & Hn & Hv & _).
    apply entry_of_Some in He
      as (_ & name & len & r & _ & Hl & _ & _ & _ & _ & _ & Hel & _).
    rewrite Ho, <- Hbase, Hn in Hl. congruence. }
  pose proof (entry_of_occurrence _ _ _ _ _ _ He1) as (_ & _ & _ & Hg1 & Hs1 & _).
  pose proof (entry_of_occurrence _ _ _ _ _ _ He2) as (_ & _ & _ & Hg2 & Hs2 & _).
  rewrite (Hlen _ _ _ Hx1 He1), (Hlen _ _ _ Hx2 He2).
  apply entry_of_Some in He1
    as (_ & ? & ? & r1 & _ & _ & Hr1 & _ & _ & _ & -> & _ & Hid1 & _).
  apply entry_of_Some in He2
    as (_ & ? & ? & r2 & _ & _ & Hr2 & _ & _ & _ & -> & _ & Hid2 & _).
  assert (share_students (o_instance (v_occ x1)) (o_instance (v_occ x2)) = true
          → val_start v i + v_needed x1 ≤ val_start v j
            ∨ val_start v j + v_needed x2 ≤ val_start v i) as Hcohort.
  { intros Hshare.
    destruct (satisfies_pair _ _ _ _ _ _ Hs Hne Hx1 Hx2) as [[Hlt _]|[Hlt _]].
    - by eapply satisfies_share_students.
    - rewrite share_students_sym in Hshare.
      destruct (satisfies_share_students _ _ _ _ _ _ Hs Hlt Hx2 Hx1 Hshare);
        tauto. }
  destruct Hsame as [Hroom|[(gid & Hg & Ha & Hb)|(sid & Hg & Ha & Hb)]].
  - assert (val_room v i = val_room v j) as Hsame_room.
    { eapply (NoDup_lookup _ _ _ _ Hnd).
      - by rewrite list_lookup_fmap, Hr1.
      - rewrite list_lookup_fmap, Hr2. simpl. congruence. }
    destruct (satisfies_pair _ _ _ _ _ _ Hs Hne Hx1 Hx2) as [[_ Hp]|[_ Hp]];
      unfold pair_ok in Hp; rewrite !andb_true_iff in Hp;
      destruct Hp as [[[Hr _] _] _].
    + rewrite bool_decide_eq_true_2 in Hr by done. simpl in Hr.
      by apply disjoint_spec in Hr.
    + rewrite bool_decide_eq_true_2 in Hr by done. simpl in Hr.
      apply disjoint_spec in Hr. tauto.
  - apply Hcohort. unfold share_students, truthy_str.
    rewrite <- Hg1, <- Hg2, Ha, Hb.
    apply String.eqb_neq in Hg. rewrite Hg. simpl.
    by rewrite bool_decide_eq_true_2.
  - apply Hcohort. unfold share_students, truthy_str.
    rewrite <- Hs1, <- Hs2, Ha, Hb.
    apply String.eqb_neq in Hg. rewrite Hg. simpl.
    rewrite (bool_decide_eq_true_2 (Some sid = Some sid)) by done.
    apply orb_true_r.
Qed.

(** *** The records and the day boundary *)

(** With the base slot of the module, the record of an occurrence of a
    satisfying assignment begins and ends on the same day. *)
Lemma cp_records_stay_within_one_day
    cp_solve data params status n schedule m spd e :
  build_and_solve cp_solve data params = Some (Scheduled status n schedule) →
  build_model data params = Some m →
  satisfies m (cp_solve m).2 = true →
  base_slot_minutes params = BASE_SLOT_MINUTES →
  slots_per_day_of params = Some spd → 0 < spd →
  e ∈ schedule →
  e_start_subslot_index e / spd
  = (e_start_subslot_index e + e_length_subslots e - 1) / spd.
Proof.
  intros H Hm Hs Hbase Hspd Hpos He.
  apply list_elem_of_lookup in He as [i Hi].
  destruct (scheduled_entry_lookup _ _ _ _ _ _ _ _ _ H Hm Hi)
    as (spd' & x & Hspd' & Hx & Hent).
  rewrite Hspd in Hspd'. injection Hspd' as <-.
  destruct (solution_start_and_day _ _ _ _ _ _ _ Hm Hs Hspd Hx)
    as (_ & _ & _ & _ & Hday).
  destruct (model_var_built _ _ _ _ _ Hm Hx) as (? & o & _ & _ & Hb & _).
  pose proof (build_vars_occ _ _ _ _ _ Hb) as (Ho & _).
  destruct (build_vars_domains _ _ _ _ _ Hb) as (needed & Hn & Hv & _).
  apply entry_of_Some in Hent
    as (_ & name & len & r & _ & Hl & _ & _ & _ & _ & -> & -> & _).
  rewrite Ho, <- Hbase, Hn in Hl. injection Hl as <-. by rewrite <- Hv.
Qed.

(** C8.  With a base slot of 90 minutes the model counts the 90-minute
    Lecture as one slot and lets it start at slot 7, the last of Monday;
    the record of that occurrence gives its length with the base slot of
    the module, two slots, so that the interval of the record, slots 7 and
    8, begins on Monday and ends on Tuesday. *)
Theorem cp_record_crosses_a_day_boundary :
  quick_feasibility_checks Scenarios.Cp.coarse_data Scenarios.Cp.coarse_params
    = Some []
  ∧ slots_per_day_of Scenarios.Cp.coarse_params = Some 4
  ∧ ∃ m x e,
      build_model Scenarios.Cp.coarse_data Scenarios.Cp.coarse_params = Some m
      ∧ m_vars m = [x] ∧ v_needed x = 1
      ∧ satisfies m Scenarios.Cp.late_values = true
      ∧ build_and_solve (fun _ => (FEASIBLE, Scenarios.Cp.late_values))
          Scenarios.Cp.coarse_data Scenarios.Cp.coarse_params
        = Some (Scheduled FEASIBLE 1 [e])
      ∧ e_instance_id e = "C1_G1_LEC" ∧ e_day e = "Monday"
      ∧ e_period e = 2 ∧ e_subslot e = 1
      ∧ e_start_subslot_index e = 7 ∧ e_length_subslots e = 2
      ∧ e_start_subslot_index e / 4 = 1
      ∧ (e_start_subslot_index e + e_length_subslots e - 1) / 4 = 2.
Proof.
  split; [by vm_compute|]. split; [by vm_compute|].
  destruct (build_model Scenarios.Cp.coarse_data Scenarios.Cp.coarse_params)
    as [m|] eqn:Hm; [|by vm_compute in Hm].
  vm_compute in Hm. injection Hm as <-.
  eexists _, _, _. split; [reflexivity|]. split; [reflexivity|].
  split; [reflexivity|]. split; [by vm_compute|].
  split; [vm_compute; reflexivity|].
  by vm_compute.
Qed.

End CpFacts.

(** ** The backtracking scheduler *)

Module BtFacts.
Import Backtracking.

(** *** Folds over the state *)

Lemma foldl_proj {S A B} (proj : S → B) (f : S → A → S) (g : B → A → B) :
  (∀ s x, proj (f s x) = g (proj s) x) →
  ∀ l s, proj (foldl f s l) = foldl g (proj s) l.
Proof.
  intros Hstep l. induction l as [|x l IH]; intros s; [done|].
  simpl. by rewrite IH, Hstep.
Qed.

Lemma foldl_keep {A B} (l : list A) (b : B) : foldl (fun b _ => b) b l = b.
Proof. by induction l. Qed.

Lemma foldl_bind {A B C} (f : C → B → C) (g : A → list B) (l : list A) (c : C) :
  foldl f c (l ≫= g) = foldl (fun c x => foldl f c (g x)) c l.
Proof.
  revert c. induction l as [|x l IH]; intros c; [done|].
  simpl. by rewrite foldl_app, IH.
Qed.

(** *** The dictionary *)

Lemma dict_mem_false {V} (k : Key) (d : list (Key * V)) :
  dict_mem k d = false ↔ ∀ kv, kv ∈ d → kv.1 ≠ k.
Proof.
  unfold dict_mem. split.
  - intros H kv Hin Heq.
    assert (existsb (fun kv => bool_decide (kv.1 = k)) d = true) as Ht.
    { apply existsb_elem_of. exists kv. by rewrite bool_decide_eq_true. }
    congruence.
  - intros H. apply not_true_is_false. intros Ht.
    apply existsb_elem_of in Ht as (kv & Hin & Heq).
    apply bool_decide_eq_true in Heq. by eapply H.
Qed.

Lemma dict_mem_app {V} (k : Key) (d1 d2 : list (Key * V)) :
  dict_mem k (d1 ++ d2) = dict_mem k d1 || dict_mem k d2.
Proof. unfold dict_mem. apply existsb_app. Qed.

Lemma dict_set_absent_l {V} (k : Key) (v : V) (d new : list (Key * V)) :
  dict_mem k d = false →
  dict_set k v (d ++ new) = d ++ dict_set k v new.
Proof.
  intros Hd. unfold dict_set. rewrite dict_mem_app, Hd. simpl.
  destruct (dict_mem k new); [|by rewrite app_assoc].
  rewrite fmap_app. f_equal.
  rewrite dict_mem_false in Hd.
  induction d as [|kv d IH]; [done|]. rewrite fmap_cons. f_equal.
  - rewrite bool_decide_eq_false_2; [done|]. apply Hd. by left.
  - apply IH. intros kv' Hin. apply Hd. by right.
Qed.

Lemma dict_set_keys {V} (k : Key) (v : V) (d : list (Key * V)) (ks : list Key) :
  k ∈ ks →
  (∀ kv, kv ∈ d → kv.1 ∈ ks) →
  ∀ kv, kv ∈ dict_set k v d → kv.1 ∈ ks.
Proof.
  intros Hk Hd kv. unfold dict_set. destruct (dict_mem k d).
  - rewrite list_elem_of_fmap. intros (kv' & -> & Hin).
    case_bool_decide; [done|]. by apply Hd.
  - rewrite elem_of_app, list_elem_of_singleton. intros [Hin| ->]; [|done].
    by apply Hd.
Qed.

Lemma dict_del_absent {V} (k : Key) (d : list (Key * V)) :
  dict_mem k d = false → dict_del k d = d.
Proof.
  rewrite dict_mem_false. intros H. unfold dict_del.
  induction d as [|kv d IH]; [done|]. simpl.
  rewrite bool_decide_eq_false_2 by (apply H; by left). simpl.
  f_equal. apply IH. intros kv' Hin. apply H. by right.
Qed.

(** Writing fresh keys appends entries for these keys only. *)
Lemma dict_set_fresh {V} (v : V) (ks all : list Key) (d new : list (Key * V)) :
  (∀ k, k ∈ ks → dict_mem k d = false) →
  (∀ k, k ∈ ks → k ∈ all) →
  (∀ kv, kv ∈ new → kv.1 ∈ all) →
  ∃ new', foldl (fun t k => dict_set k v t) (d ++ new) ks = d ++ new'
          ∧ ∀ kv, kv ∈ new' → kv.1 ∈ all.
Proof.
  revert new. induction ks as [|k ks IH]; intros new Hfresh Hall Hnew.
  - by exists new.
  - simpl. rewrite dict_set_absent_l by (apply Hfresh; by left).
    apply IH.
    + intros k' Hk'. apply Hfresh. by right.
    + intros k' Hk'. apply Hall. by right.
    + apply dict_set_keys; [|done]. apply Hall. by left.
Qed.

(** Deleting a list of keys, each only if present, filters them out. *)
Lemma dict_del_all {V} (ks : list Key) (d : list (Key * V)) :
  foldl (fun t k => if dict_mem k t then dict_del k t else t) d ks
  = List.filter (fun kv => negb (py_in kv.1 ks)) d.
Proof.
  revert d. induction ks as [|k ks IH]; intros d; simpl.
  - induction d as [|kv d IHd]; [done|]. simpl. by rewrite <- IHd.
  - assert ((if dict_mem k d then dict_del k d else d) = dict_del k d) as ->.
    { destruct (dict_mem k d) eqn:Hm; [done|]. by rewrite dict_del_absent. }
    rewrite IH. unfold dict_del. clear IH.
    induction d as [|kv d IHd]; [done|]. simpl.
    unfold py_in in *. destruct (decide (kv.1 = k)) as [Heq|Hne].
    + rewrite (bool_decide_eq_true_2 (kv.1 = k)) by done. simpl.
      rewrite (bool_decide_eq_true_2 (kv.1 ∈ k :: ks)) by (rewrite Heq; by left).
      done.
    + rewrite (bool_decide_eq_false_2 (kv.1 = k)) by done. simpl.
      rewrite IHd. f_equal.
      assert (bool_decide (kv.1 ∈ ks) = bool_decide (kv.1 ∈ k :: ks)) as ->; [|done].
      apply bool_decide_ext. rewrite elem_of_cons. tauto.
Qed.

Lemma dict_set_del_fresh {V} (v : V) (ks : list Key) (d : list (Key * V)) :
  (∀ k, k ∈ ks → dict_mem k d = false) →
  foldl (fun t k => if dict_mem k t then dict_del k t else t)
    (foldl (fun t k => dict_set k v t) d ks) ks = d.
Proof.
  intros Hfresh.
  destruct (dict_set_fresh v ks ks d [] Hfresh) as (new & Hset & Hnew).
  { done. } { intros kv Hin. by apply elem_of_nil in Hin. }
  rewrite app_nil_r in Hset. rewrite Hset, dict_del_all.
  rewrite List.filter_app.
  assert (List.filter (fun kv => negb (py_in kv.1 ks)) new = []) as ->.
  { clear Hset. induction new as [|kv new IH]; [done|]. simpl.
    unfold py_in in *. rewrite bool_decide_eq_true_2 by (apply Hnew; by left).
    simpl. apply IH. intros kv' Hin. apply Hnew. by right. }
  rewrite app_nil_r. clear Hset Hnew new.
  induction d as [|kv d IH]; [done|]. simpl.
  assert (py_in kv.1 ks = false) as ->.
  { apply not_true_is_false. intros Hin. apply py_in_spec in Hin.
    pose proof (Hfresh _ Hin) as Hm. rewrite dict_mem_false in Hm.
    eapply Hm; [by left|done]. }
  simpl. f_equal. apply IH. intros k Hk.
  pose proof (Hfresh _ Hk) as Hm. rewrite dict_mem_false in Hm |- *.
  intros kv' Hin. apply Hm. by right.
Qed.

(** *** Placement and removal, field by field *)

Lemma timetable_place st a :
  timetable (_place_assignment st a)
  = foldl (fun t k => dict_set k a t) (timetable st) (cells a).
Proof.
  unfold _place_assignment, cells.
  rewrite (foldl_proj timetable (place_resources a) (fun t _ => t)), foldl_keep.
  2:{ intros s q. unfold place_resources. by case_bool_decide. }
  rewrite foldl_bind.
  apply (foldl_proj timetable). intros s sid. unfold place_section.
  rewrite (foldl_proj timetable _ (fun t _ => t)), foldl_keep by done.
  rewrite foldl_fmap. by apply (foldl_proj timetable).
Qed.

Lemma timetable_remove st a :
  timetable (_remove_assignment st a)
  = foldl (fun t k => if dict_mem k t then dict_del k t else t)
      (timetable st) (cells a).
Proof.
  unfold _remove_assignment, cells.
  rewrite (foldl_proj timetable (remove_resources a) (fun t _ => t)), foldl_keep.
  2:{ intros s q. unfold remove_resources. by case_bool_decide. }
  rewrite foldl_bind.
  apply (foldl_proj timetable). intros s sid. unfold remove_section.
  rewrite (foldl_proj timetable _ (fun t _ => t)), foldl_keep by done.
  rewrite foldl_fmap. apply (foldl_proj timetable).
  intros s' q. simpl. by destruct (dict_mem _ _).
Qed.

Lemma instructor_busy_sections {f : Assignment → State → string → State} a st l :
  (∀ s sid, instructor_busy (f a s sid) = instructor_busy s) →
  instructor_busy (foldl (f a) st l) = instructor_busy st.
Proof.
  intros H. rewrite (foldl_proj instructor_busy (f a) (fun b _ => b)) by done.
  apply foldl_keep.
Qed.

Lemma room_busy_sections {f : Assignment → State → string → State} a st l :
  (∀ s sid, room_busy (f a s sid) = room_busy s) →
  room_busy (foldl (f a) st l) = room_busy st.
Proof.
  intros H. rewrite (foldl_proj room_busy (f a) (fun b _ => b)) by done.
  apply foldl_keep.
Qed.

Lemma place_section_busy a s sid :
  instructor_busy (place_section a s sid) = instructor_busy s
  ∧ room_busy (place_section a s sid) = room_busy s.
Proof.
  unfold place_section. split.
  - rewrite (foldl_proj instructor_busy _ (fun b _ => b)), foldl_keep by done.
    by rewrite (foldl_proj instructor_busy _ (fun b _ => b)), foldl_keep.
  - rewrite (foldl_proj room_busy _ (fun b _ => b)), foldl_keep by done.
    by rewrite (foldl_proj room_busy _ (fun b _ => b)), foldl_keep.
Qed.

Lemma remove_section_busy a s sid :
  instructor_busy (remove_section a s sid) = instructor_busy s
  ∧ room_busy (remove_section a s sid) = room_busy s.
Proof.
  unfold remove_section. split.
  - rewrite (foldl_proj instructor_busy _ (fun b _ => b)), foldl_keep by done.
    rewrite (foldl_proj instructor_busy _ (fun b _ => b)), foldl_keep; [done|].
    intros s' q. by destruct (dict_mem _ _).
  - rewrite (foldl_proj room_busy _ (fun b _ => b)), foldl_keep by done.
    rewrite (foldl_proj room_busy _ (fun b _ => b)), foldl_keep; [done|].
    intros s' q. by destruct (dict_mem _ _).
Qed.

Lemma foldl_union_keys (h : Z → Key) (l : list Z) (b : gset Key) :
  foldl (fun b q => {[h q]} ∪ b) b l = b ∪ list_to_set (h <$> l).
Proof.
  revert b. induction l as [|q l IH]; intros b; simpl.
  - set_solver.
  - rewrite IH. set_solver.
Qed.

Lemma foldl_difference_keys (h : Z → Key) (l : list Z) (b : gset Key) :
  foldl (fun b q => b ∖ {[h q]}) b l = b ∖ list_to_set (h <$> l).
Proof.
  revert b. induction l as [|q l IH]; intros b; simpl.
  - set_solver.
  - rewrite IH. set_solver.
Qed.

Lemma instructor_busy_place st a :
  instructor_busy (_place_assignment st a)
  = instructor_busy st
    ∪ list_to_set ((fun q => (instructor_id a, day a, q)) <$> slots a).
Proof.
  unfold _place_assignment.
  rewrite (foldl_proj instructor_busy (place_resources a)
             (fun b q => {[(instructor_id a, day a, q)]} ∪ b)).
  2:{ intros s q. unfold place_resources. by case_bool_decide. }
  rewrite foldl_union_keys.
  by rewrite (instructor_busy_sections (f := place_section))
    by apply place_section_busy.
Qed.

Lemma instructor_busy_remove st a :
  instructor_busy (_remove_assignment st a)
  = instructor_busy st
    ∖ list_to_set ((fun q => (instructor_id a, day a, q)) <$> slots a).
Proof.
  unfold _remove_assignment.
  rewrite (foldl_proj instructor_busy (remove_resources a)
             (fun b q => b ∖ {[(instructor_id a, day a, q)]})).
  2:{ intros s q. unfold remove_resources. by case_bool_decide. }
  rewrite foldl_difference_keys.
  by rewrite (instructor_busy_sections (f := remove_section))
    by apply remove_section_busy.
Qed.

Lemma room_busy_place st a :
  room_busy (_place_assignment st a)
  = if bool_decide (a_room_id a ≠ "N/A")
    then room_busy st ∪ list_to_set ((fun q => (a_room_id a, day a, q)) <$> slots a)
    else room_busy st.
Proof.
  unfold _place_assignment. case_bool_decide as Hna.
  - rewrite (foldl_proj room_busy (place_resources a)
               (fun b q => {[(a_room_id a, day a, q)]} ∪ b)).
    2:{ intros s q. unfold place_resources.
        by rewrite bool_decide_eq_true_2 by done. }
    rewrite foldl_union_keys.
    by rewrite (room_busy_sections (f := place_section))
      by apply place_section_busy.
  - rewrite (foldl_proj room_busy (place_resources a) (fun b _ => b)), foldl_keep.
    2:{ intros s q. unfold place_resources.
        case_bool_decide; [by destruct Hna|done]. }
    by rewrite (room_busy_sections (f := place_section))
      by apply place_section_busy.
Qed.

Lemma room_busy_remove st a :
  room_busy (_remove_assignment st a)
  = if bool_decide (a_room_id a ≠ "N/A")
    then room_busy st ∖ list_to_set ((fun q => (a_room_id a, day a, q)) <$> slots a)
    else room_busy st.
Proof.
  unfold _remove_assignment. case_bool_decide as Hna.
  - rewrite (foldl_proj room_busy (remove_resources a)
               (fun b q => b ∖ {[(a_room_id a, day a, q)]})).
    2:{ intros s q. unfold remove_resources.
        by rewrite bool_decide_eq_true_2 by done. }
    rewrite foldl_difference_keys.
    by rewrite (room_busy_sections (f := remove_section))
      by apply remove_section_busy.
  - rewrite (foldl_proj room_busy (remove_resources a) (fun b _ => b)), foldl_keep.
    2:{ intros s q. unfold remove_resources.
        case_bool_decide; [by destruct Hna|done]. }
    by rewrite (room_busy_sections (f := remove_section))
      by apply remove_section_busy.
Qed.

(** *** What an accepted assignment guarantees *)

Lemma existsb_false_elem_of {A} (f : A → bool) (l : list A) :
  existsb f l = false ↔ ∀ x, x ∈ l → f x = false.
Proof.
  split.
  - intros H x Hin. apply not_true_is_false. intros Hf.
    assert (existsb f l = true) by (apply existsb_elem_of; eauto). congruence.
  - intros H. apply not_true_is_false. intros Ht.
    apply existsb_elem_of in Ht as (x & Hin & Hf). rewrite H in Hf; done.
Qed.

Lemma valid_assignment_elim st secs d p dur instr room :
  _is_valid_assignment st secs d p dur instr room = true →
  (dur = 2 → p mod 2 = 0)
  ∧ p + dur ≤ PERIODS_PER_DAY
  ∧ (∀ sid q, sid ∈ secs → q ∈ range p (p + dur) →
       dict_mem (sid, d, q) (timetable st) = false)
  ∧ (∀ q, q ∈ range p (p + dur) → (instr, d, q) ∉ instructor_busy st)
  ∧ (room ≠ "N/A" → ∀ q, q ∈ range p (p + dur) → (room, d, q) ∉ room_busy st).
Proof.
  unfold _is_valid_assignment. intros H.
  destruct ((dur =? 2) && negb (p mod 2 =? 0)) eqn:Halign; [done|].
  destruct (PERIODS_PER_DAY <? p + dur) eqn:Hbound; [done|].
  destruct (existsb _ secs) eqn:Hsec; [done|].
  destruct (existsb _ (range p (p + dur))) eqn:Hinstr; [done|].
  destruct (bool_decide (room ≠ "N/A") && _) eqn:Hroom; [done|].
  split_and!.
  - intros ->. simpl in Halign. apply negb_false_iff in Halign. lia.
  - lia.
  - intros sid q Hsid Hq.
    rewrite existsb_false_elem_of in Hsec. specialize (Hsec _ Hsid).
    rewrite existsb_false_elem_of in Hsec. by apply Hsec.
  - intros q Hq. rewrite existsb_false_elem_of in Hinstr.
    specialize (Hinstr _ Hq). by apply bool_decide_eq_false in Hinstr.
  - intros Hna q Hq. rewrite bool_decide_eq_true_2 in Hroom by done.
    simpl in Hroom. rewrite existsb_false_elem_of in Hroom.
    specialize (Hroom _ Hq). by apply bool_decide_eq_false in Hroom.
Qed.

Lemma elem_of_cells a k :
  k ∈ cells a ↔ ∃ sid q, k = (sid, day a, q) ∧ sid ∈ sections a ∧ q ∈ slots a.
Proof.
  unfold cells. rewrite list_elem_of_bind. split.
  - intros (sid & Hk & Hsid). apply list_elem_of_fmap in Hk as (q & -> & Hq).
    eauto.
  - intros (sid & q & -> & Hsid & Hq). exists sid. split; [|done].
    apply list_elem_of_fmap. eauto.
Qed.

(** *** The board: timetable and busy cells *)

Lemma same_board_refl st : same_board st st.
Proof. done. Qed.

Lemma same_board_trans st1 st2 st3 :
  same_board st1 st2 → same_board st2 st3 → same_board st1 st3.
Proof. unfold same_board. intros (-> & -> & ->) (-> & -> & ->). done. Qed.

Lemma same_board_valid st st' secs d p dur instr room :
  same_board st st' →
  _is_valid_assignment st secs d p dur instr room
  = _is_valid_assignment st' secs d p dur instr room.
Proof.
  intros (Ht & Hi & Hr). unfold _is_valid_assignment. by rewrite Ht, Hi, Hr.
Qed.

Lemma same_board_place st st' a :
  same_board st st' →
  same_board (_place_assignment st a) (_place_assignment st' a).
Proof.
  intros (Ht & Hi & Hr). unfold same_board.
  by rewrite !timetable_place, !instructor_busy_place, !room_busy_place,
    Ht, Hi, Hr.
Qed.

Lemma same_board_remove st st' a :
  same_board st st' →
  same_board (_remove_assignment st a) (_remove_assignment st' a).
Proof.
  intros (Ht & Hi & Hr). unfold same_board.
  by rewrite !timetable_remove, !instructor_busy_remove, !room_busy_remove,
    Ht, Hi, Hr.
Qed.

Lemma timetable_restored st a :
  _is_valid_assignment st (sections a) (day a) (period a) (duration a)
    (instructor_id a) (a_room_id a) = true →
  timetable (_remove_assignment (_place_assignment st a) a) = timetable st.
Proof.
  intros Hvalid.
  apply valid_assignment_elim in Hvalid as (_ & _ & Hsec & _).
  rewrite timetable_remove, timetable_place. apply dict_set_del_fresh.
  intros k Hk. apply elem_of_cells in Hk as (sid & q & -> & Hsid & Hq).
  by apply Hsec.
Qed.

Lemma busy_restored (b : gset Key) (h : Z → Key) (l : list Z) :
  (∀ q, q ∈ l → h q ∉ b) →
  (b ∪ list_to_set (h <$> l)) ∖ list_to_set (h <$> l) = b.
Proof.
  intros Hfree.
  assert (b ## list_to_set (C := gset Key) (h <$> l)) as Hdisj.
  { intros k Hk Hnew. apply elem_of_list_to_set, list_elem_of_fmap in Hnew
      as (q & -> & Hq). by eapply Hfree. }
  set_solver.
Qed.

Lemma instructor_busy_restored st a :
  _is_valid_assignment st (sections a) (day a) (period a) (duration a)
    (instructor_id a) (a_room_id a) = true →
  instructor_busy (_remove_assignment (_place_assignment st a) a)
  = instructor_busy st.
Proof.
  intros Hvalid.
  apply valid_assignment_elim in Hvalid as (_ & _ & _ & Hinstr & _).
  rewrite instructor_busy_remove, instructor_busy_place.
  by apply busy_restored.
Qed.

Lemma room_busy_restored st a :
  _is_valid_assignment st (sections a) (day a) (period a) (duration a)
    (instructor_id a) (a_room_id a) = true →
  room_busy (_remove_assignment (_place_assignment st a) a) = room_busy st.
Proof.
  intros Hvalid.
  apply valid_assignment_elim in Hvalid as (_ & _ & _ & _ & Hroom).
  rewrite room_busy_remove, room_busy_place. case_bool_decide; [|done].
  apply busy_restored. by apply Hroom.
Qed.

Lemma place_remove_same_board st a :
  _is_valid_assignment st (sections a) (day a) (period a) (duration a)
    (instructor_id a) (a_room_id a) = true →
  same_board (_remove_assignment (_place_assignment st a) a) st.
Proof.
  intros Hvalid. split_and!;
    [by apply timetable_restored | by apply instructor_busy_restored
    | by apply room_busy_restored].
Qed.

(** C9.  For an assignment accepted in a state, placing it and then
    removing it gives back the timetable (entries and their order), the
    busy cells of the instructors and the busy cells of the rooms. *)
Theorem remove_undoes_place st a :
  _is_valid_assignment st (sections a) (day a) (period a) (duration a)
    (instructor_id a) (a_room_id a) = true →
  timetable (_remove_assignment (_place_assignment st a) a) = timetable st
  ∧ instructor_busy (_remove_assignment (_place_assignment st a) a)
    = instructor_busy st
  ∧ room_busy (_remove_assignment (_place_assignment st a) a) = room_busy st.
Proof.
  intros Hvalid. split_and!.
  - by apply timetable_restored.
  - by apply instructor_busy_restored.
  - by apply room_busy_restored.
Qed.

(** *** Suitable rooms *)

Lemma suitable_rooms_spec cat stype n lab ic rid :
  rid ∈ _get_suitable_rooms cat stype n lab ic
  ↔ ∃ room, room ∈ rooms cat ∧ room_id room = rid
            ∧ room_suits stype n lab ic room = true.
Proof.
  unfold _get_suitable_rooms. rewrite list_elem_of_fmap. split.
  - intros (room & -> & Hin). apply elem_of_bfilter in Hin as [Hs Hin]. eauto.
  - intros (room & Hin & <- & Hs). exists room. split; [done|].
    by apply elem_of_bfilter.
Qed.

Lemma room_suits_admissible stype n lab ic room :
  room_suits stype n lab ic room = true →
  spec_admissible_room_type stype lab (r_type room).
Proof.
  unfold room_suits, spec_admissible_room_type. intros H.
  destruct (negb ic && _); [done|].
  split_and!; intros ->; simpl in H.
  - destruct ic.
    + apply bool_decide_eq_true in H. rewrite H. set_solver.
    + apply py_in_spec in H. set_solver.
  - apply bool_decide_eq_true in H. rewrite H. set_solver.
  - apply andb_true_iff in H as [_ H]. by apply bool_decide_eq_true in H.
  - done.
Qed.

Lemma room_suits_capacity stype n lab room :
  room_suits stype n lab false room = true → n ≤ capacity room.
Proof.
  unfold room_suits. simpl. destruct (Z.ltb_spec (capacity room) n); [done|lia].
Qed.

Lemma suitable_rooms_ignore_capacity cat stype n n' lab :
  _get_suitable_rooms cat stype n lab true
  = _get_suitable_rooms cat stype n' lab true.
Proof. done. Qed.

(** *** A failed search leaves the board as it found it *)

Lemma same_board_sym st st' : same_board st st' → same_board st' st.
Proof. unfold same_board. intros (-> & -> & ->). done. Qed.

Lemma try_candidates_cons recurse course kind target dur d p instr room cands st :
  try_candidates recurse course kind target dur ((d, p, instr, room) :: cands) st
  = if _is_valid_assignment (count_attempt st) target d p dur instr room
    then match recurse (_place_assignment (count_attempt st)
                          (make_assignment course kind target dur
                             (d, p, instr, room))) with
         | Returns false st2 =>
             try_candidates recurse course kind target dur cands
               (_remove_assignment (count_backtrack st2)
                  (make_assignment course kind target dur (d, p, instr, room)))
         | r => r
         end
    else try_candidates recurse course kind target dur cands (count_attempt st).
Proof. simpl. by destruct (_is_valid_assignment _ _ _ _ _ _ _). Qed.

(** The state after a placement that the recursion gave up and the loop
    took back has the board of the state before the attempt. *)
Lemma backtracked_same_board recurse st a st2 :
  (∀ s s', recurse s = Returns false s' → same_board s s') →
  _is_valid_assignment (count_attempt st) (sections a) (day a) (period a)
    (duration a) (instructor_id a) (a_room_id a) = true →
  recurse (_place_assignment (count_attempt st) a) = Returns false st2 →
  same_board st (_remove_assignment (count_backtrack st2) a).
Proof.
  intros Hrec Hvalid Hr. apply Hrec in Hr.
  apply same_board_sym.
  eapply same_board_trans;
    [apply (same_board_remove _ (_place_assignment (count_attempt st) a))|].
  { apply same_board_sym. eapply same_board_trans; [exact Hr|]. done. }
  eapply same_board_trans; [by apply place_remove_same_board|]. done.
Qed.

Lemma try_candidates_restores recurse course kind target dur cands st st' :
  (∀ s s', recurse s = Returns false s' → same_board s s') →
  try_candidates recurse course kind target dur cands st = Returns false st' →
  same_board st st'.
Proof.
  intros Hrec. revert st.
  induction cands as [|[[[d p] instr] room] cands IH]; intros st Htry.
  - simpl in Htry. by simplify_eq.
  - rewrite try_candidates_cons in Htry.
    destruct (_is_valid_assignment (count_attempt st) target d p dur instr room)
      eqn:Hvalid.
    + destruct (recurse _) as [| |[|] st2] eqn:Hr in Htry; try discriminate.
      apply IH in Htry. eapply same_board_trans; [|exact Htry].
      by eapply backtracked_same_board.
    + apply IH in Htry. eapply same_board_trans; [|exact Htry]. done.
Qed.

Lemma schedule_session_restores recurse cat course kind target st st' :
  (∀ s s', recurse s = Returns false s' → same_board s s') →
  schedule_session recurse cat course kind target st = Returns false st' →
  same_board st st'.
Proof.
  intros Hrec. unfold schedule_session. intros H.
  destruct (students_of cat target); [|done].
  destruct (_get_qualified_instructors _ _ _); [by simplify_eq|].
  destruct (session_rooms cat course kind _); [by simplify_eq|].
  by eapply try_candidates_restores.
Qed.

Lemma solve_by_course_restores cat remaining st st' :
  solve_by_course cat remaining st = Returns false st' → same_board st st'.
Proof.
  revert st st'.
  induction remaining as [|[[course kind] target] rest IH]; intros st st' H;
    simpl in H; [done|].
  destruct (already_scheduled st course kind target); [by apply IH|].
  eapply schedule_session_restores; [|exact H]. apply IH.
Qed.

Lemma solve_by_section_restores fuel cat idx st st' :
  solve_by_section fuel cat idx st = Returns false st' → same_board st st'.
Proof.
  revert idx st st'. induction fuel as [|fuel IH]; intros idx st st' H;
    simpl in H; [done|].
  destruct (all_sections cat !! idx) as [section|]; [|done].
  destruct (section_courses cat section) as [eligible|]; [|done].
  destruct (forallb _ eligible); [by eapply IH|].
  destruct (pending_course cat st section eligible) as [| |course kind target];
    [done|by eapply IH|].
  destruct (already_scheduled st course kind target).
  - apply IH in H. eapply same_board_trans; [|exact H]. done.
  - eapply schedule_session_restores; [|exact H]. apply IH.
Qed.

(** *** The timetable of a successful search *)

Lemma dict_mem_true {V} (k : Key) (d : list (Key * V)) :
  dict_mem k d = true ↔ ∃ v, (k, v) ∈ d.
Proof.
  unfold dict_mem. rewrite existsb_elem_of. split.
  - intros ([k' v] & Hin & Heq). apply bool_decide_eq_true in Heq.
    simpl in Heq. subst. eauto.
  - intros [v Hin]. exists (k, v). by rewrite bool_decide_eq_true.
Qed.

Lemma dict_mem_keys {V} (k : Key) (d : list (Key * V)) :
  dict_mem k d = false ↔ k ∉ d.*1.
Proof.
  rewrite dict_mem_false, list_elem_of_fmap. split.
  - intros H (kv & -> & Hin). by eapply H.
  - intros H kv Hin Heq. apply H. eauto.
Qed.

(** Writing one value under keys that are all new appends one entry per
    key. *)
Lemma dict_set_fresh_entries {V} (v : V) (ks : list Key) (d new0 : list (Key * V)) :
  (∀ k, k ∈ ks → dict_mem k d = false) →
  NoDup new0.*1 → (∀ kv, kv ∈ new0 → kv.2 = v) →
  ∃ new, foldl (fun t k => dict_set k v t) (d ++ new0) ks = d ++ new
         ∧ NoDup new.*1
         ∧ ∀ kv, kv ∈ new ↔ kv ∈ new0 ∨ (kv.2 = v ∧ kv.1 ∈ ks).
Proof.
  revert new0. induction ks as [|k ks IH]; intros new0 Hfresh Hnd Hval.
  - exists new0. split_and!; [done..|]. intros kv. split; [by left|].
    intros [?|[_ Hin]]; [done|]. by apply elem_of_nil in Hin.
  - simpl. rewrite dict_set_absent_l by (apply Hfresh; by left).
    destruct (dict_mem k new0) eqn:Hmem.
    + assert (dict_set k v new0 = new0) as ->.
      { unfold dict_set. rewrite Hmem. clear -Hval.
        induction new0 as [|[k' v'] new0 IHn]; [done|]. rewrite fmap_cons.
        f_equal.
        - case_bool_decide as Hk; [|done]. simpl in Hk. subst.
          f_equal. symmetry. apply (Hval (k, v')). by left.
        - apply IHn. intros kv Hin. apply Hval. by right. }
      destruct (IH new0) as (new & Heq & Hnd' & Hin); [|done..|].
      { intros k' Hk'. apply Hfresh. by right. }
      exists new. split_and!; [done..|]. intros kv. rewrite Hin, elem_of_cons.
      split; [tauto|]. intros [?|[Hv [Hk|?]]]; [tauto| |tauto].
      left. apply dict_mem_true in Hmem as [v' Hv'].
      pose proof (Hval _ Hv') as Hvv. simpl in Hvv.
      destruct kv as [k' x]. simpl in Hv, Hk. rewrite Hv, Hk, <- Hvv.
      exact Hv'.
    + assert (dict_set k v new0 = new0 ++ [(k, v)]) as ->.
      { unfold dict_set. by rewrite Hmem. }
      destruct (IH (new0 ++ [(k, v)])) as (new & Heq & Hnd' & Hin).
      { intros k' Hk'. apply Hfresh. by right. }
      { rewrite fmap_app. apply NoDup_app. split_and!; [done| |].
        - intros k' Hk' Hk''. apply list_elem_of_singleton in Hk''. subst.
          by apply dict_mem_keys in Hmem.
        - apply NoDup_singleton. }
      { intros kv. rewrite elem_of_app, list_elem_of_singleton.
        intros [?| ->]; [by apply Hval|done]. }
      exists new. split_and!; [done..|]. intros kv.
      rewrite Hin, elem_of_app, list_elem_of_singleton, elem_of_cons.
      destruct kv as [k' x]. simpl. split.
      * intros [[?|Hkv]|[? ?]]; [by left| |by auto]. simplify_eq. auto.
      * intros [?|[-> [->|?]]]; auto.
Qed.

Lemma place_timetable_ok st a :
  timetable_ok (timetable st) →
  _is_valid_assignment st (sections a) (day a) (period a) (duration a)
    (instructor_id a) (a_room_id a) = true →
  0 ≤ day a < DAYS → 0 ≤ period a →
  timetable_ok (timetable (_place_assignment st a)).
Proof.
  intros [Hnd Hok] Hvalid Hday Hperiod.
  apply valid_assignment_elim in Hvalid as (Halign & Hbound & Hsec & _).
  assert (∀ k, k ∈ cells a → dict_mem k (timetable st) = false) as Hfresh.
  { intros k Hk. apply elem_of_cells in Hk as (sid & q & -> & Hsid & Hq).
    by apply Hsec. }
  rewrite timetable_place.
  destruct (dict_set_fresh_entries a (cells a) (timetable st) [] Hfresh)
    as (new & Heq & Hnd' & Hin).
  { constructor. } { intros kv Hkv. by apply elem_of_nil in Hkv. }
  rewrite app_nil_r in Heq. rewrite Heq. split.
  - rewrite fmap_app. apply NoDup_app. split_and!; [done| |done].
    intros k Hk Hk'. apply list_elem_of_fmap in Hk' as (kv & -> & Hkv).
    apply Hin in Hkv as [Hkv|[_ Hkv]]; [by apply elem_of_nil in Hkv|].
    apply Hfresh, dict_mem_keys in Hkv. done.
  - intros k x Hx. apply elem_of_app in Hx as [Hx|Hx].
    + destruct (Hok _ _ Hx) as (Hwp & Hk & Hall). split_and!; [done..|].
      intros k' Hk'. apply elem_of_app. left. by apply Hall.
    + apply Hin in Hx as [Hx|[Hv Hk]]; [by apply elem_of_nil in Hx|].
      simpl in Hv, Hk. subst x. split_and!; [done| |].
      * done.
      * intros k' Hk'. apply elem_of_app. right. apply Hin. by right.
Qed.

Lemma elem_of_candidates qualified suitable d p instr room :
  (d, p, instr, room) ∈ candidates qualified suitable →
  0 ≤ d < DAYS ∧ 0 ≤ p < PERIODS_PER_DAY.
Proof.
  unfold candidates. rewrite list_elem_of_bind. intros (d' & Hin & Hd).
  apply list_elem_of_bind in Hin as (p' & Hin & Hp).
  apply list_elem_of_bind in Hin as (i' & Hin & _).
  apply list_elem_of_bind in Hin as (r' & Hin & _).
  apply list_elem_of_singleton in Hin. simplify_eq.
  apply elem_of_range in Hd, Hp. lia.
Qed.

Lemma try_candidates_ok recurse course kind target dur cands st st' :
  (∀ s s', recurse s = Returns false s' → same_board s s') →
  (∀ s s', timetable_ok (timetable s) → recurse s = Returns true s' →
           timetable_ok (timetable s')) →
  (∀ d p instr room, (d, p, instr, room) ∈ cands → 0 ≤ d < DAYS ∧ 0 ≤ p) →
  timetable_ok (timetable st) →
  try_candidates recurse course kind target dur cands st = Returns true st' →
  timetable_ok (timetable st').
Proof.
  intros Hrec Hsucc. revert st.
  induction cands as [|[[[d p] instr] room] cands IH]; intros st Hcands Hok Htry.
  - done.
  - rewrite try_candidates_cons in Htry.
    assert (∀ d p instr room, (d, p, instr, room) ∈ cands → 0 ≤ d < DAYS ∧ 0 ≤ p)
      as Hcands' by (intros; eapply Hcands; by right).
    destruct (_is_valid_assignment (count_attempt st) target d p dur instr room)
      eqn:Hvalid.
    + destruct (Hcands d p instr room) as [Hd Hp]; [by left|].
      destruct (recurse _) as [| |[|] st2] eqn:Hr in Htry; try discriminate.
      * simplify_eq. eapply Hsucc; [|exact Hr].
        by apply place_timetable_ok.
      * eapply IH; [done| |exact Htry].
        destruct (backtracked_same_board recurse st
                    (make_assignment course kind target dur (d, p, instr, room))
                    st2 Hrec Hvalid Hr) as [<- _].
        done.
    + eapply IH; [done| |exact Htry]. done.
Qed.

Lemma schedule_session_ok recurse cat course kind target st st' :
  (∀ s s', recurse s = Returns false s' → same_board s s') →
  (∀ s s', timetable_ok (timetable s) → recurse s = Returns true s' →
           timetable_ok (timetable s')) →
  timetable_ok (timetable st) →
  schedule_session recurse cat course kind target st = Returns true st' →
  timetable_ok (timetable st').
Proof.
  intros Hrec Hsucc Hok. unfold schedule_session. intros H.
  destruct (students_of cat target); [|done].
  destruct (_get_qualified_instructors _ _ _) eqn:Hq; [done|].
  destruct (session_rooms cat course kind _) eqn:Hs; [done|].
  eapply try_candidates_ok; [done..| |done|exact H].
  intros d p instr room Hin. apply elem_of_candidates in Hin. lia.
Qed.

Lemma solve_by_course_ok cat remaining st st' :
  timetable_ok (timetable st) →
  solve_by_course cat remaining st = Returns true st' →
  timetable_ok (timetable st').
Proof.
  revert st st'.
  induction remaining as [|[[course kind] target] rest IH]; intros st st' Hok H;
    simpl in H; [by simplify_eq|].
  destruct (already_scheduled st course kind target); [by eapply IH|].
  eapply schedule_session_ok; [| |done|exact H].
  - apply solve_by_course_restores.
  - apply IH.
Qed.

Lemma solve_by_section_ok fuel cat idx st st' :
  timetable_ok (timetable st) →
  solve_by_section fuel cat idx st = Returns true st' →
  timetable_ok (timetable st').
Proof.
  revert idx st st'. induction fuel as [|fuel IH]; intros idx st st' Hok H;
    simpl in H; [done|].
  destruct (all_sections cat !! idx) as [section|]; [|by simplify_eq].
  destruct (section_courses cat section) as [eligible|]; [|done].
  destruct (forallb _ eligible); [by eapply IH|].
  destruct (pending_course cat st section eligible) as [| |course kind target];
    [done|by eapply IH|].
  destruct (already_scheduled st course kind target).
  - eapply IH; [|exact H]. done.
  - eapply schedule_session_ok; [| |done|exact H].
    + apply solve_by_section_restores.
    + intros s s'. apply IH.
Qed.

Lemma initial_timetable_ok : timetable_ok (timetable initial_state).
Proof.
  split; [constructor|]. intros k a Hin. by apply elem_of_nil in Hin.
Qed.

Lemma nodup_keys_functional {V} (l : list (Key * V)) k a b :
  NoDup l.*1 → (k, a) ∈ l → (k, b) ∈ l → a = b.
Proof.
  induction l as [|[k' v] l IH]; intros Hnd Ha Hb.
  - by apply elem_of_nil in Ha.
  - rewrite fmap_cons in Hnd. apply NoDup_cons in Hnd as [Hk Hnd].
    apply elem_of_cons in Ha as [Ha|Ha], Hb as [Hb|Hb]; simplify_eq.
    + done.
    + destruct Hk. apply list_elem_of_fmap. by exists (k', b).
    + destruct Hk. apply list_elem_of_fmap. by exists (k', a).
    + by apply IH.
Qed.

Lemma elem_of_slots a q : q ∈ slots a ↔ period a ≤ q < period a + duration a.
Proof. apply elem_of_range. Qed.

(** Two different assignments in the timetable, for the same day and with a
    section in common, occupy disjoint periods. *)
Lemma timetable_sections_apart t k1 k2 a b sid :
  timetable_ok t → (k1, a) ∈ t → (k2, b) ∈ t → a ≠ b →
  day a = day b → sid ∈ sections a → sid ∈ sections b →
  period a + duration a ≤ period b ∨ period b + duration b ≤ period a.
Proof.
  intros [Hnd Hok] Ha Hb Hne Hday Hsa Hsb.
  destruct (Hok _ _ Ha) as (_ & Hka & Halla).
  destruct (Hok _ _ Hb) as (_ & Hkb & Hallb).
  apply elem_of_cells in Hka as (? & qa & _ & _ & Hqa).
  apply elem_of_cells in Hkb as (? & qb & _ & _ & Hqb).
  apply elem_of_slots in Hqa, Hqb.
  destruct (decide (period a + duration a ≤ period b)); [by left|].
  destruct (decide (period b + duration b ≤ period a)); [by right|].
  exfalso. apply Hne.
  apply (nodup_keys_functional t (sid, day a, Z.max (period a) (period b)));
    [done|apply Halla|apply Hallb].
  - apply elem_of_cells. eexists _, _. split_and!; [done..|].
    apply elem_of_slots. lia.
  - apply elem_of_cells. eexists _, _. split_and!; [by rewrite Hday|done|].
    apply elem_of_slots. lia.
Qed.

(** *** From the timetable to the schedule *)

Lemma elem_of_mapM_Some {A B} (f : A → option B) (l : list A) (k : list B) y :
  mapM f l = Some k → y ∈ k → ∃ x, x ∈ l ∧ f x = Some y.
Proof.
  intros Hm Hy. apply mapM_Some in Hm.
  induction Hm as [|x y' l k Hxy _ IH]; [by apply elem_of_nil in Hy|].
  apply elem_of_cons in Hy as [->|Hy].
  - exists x. split; [by left|done].
  - destruct (IH Hy) as (x' & Hin & Hf). exists x'. split; [by right|done].
Qed.

Lemma extract_items_entries cat items seen schedule e :
  extract_items cat items seen = Some schedule → e ∈ schedule →
  ∃ sid0 d p a sid,
    ((sid0, d, p), a) ∈ items ∧ sid ∈ sections a
    ∧ entry_of cat d p a sid = Some e.
Proof.
  revert seen schedule.
  induction items as [|[[[sid0 d] p] a] items IH]; intros seen schedule H He;
    simpl in H.
  - simplify_eq. by apply elem_of_nil in He.
  - destruct (py_in (a_course_id a, session_type a, sections a, d, period a)
                seen).
    + destruct (IH _ _ H He) as (s0 & d' & p' & a' & sid & Hin & Hrest).
      exists s0, d', p', a', sid. split; [by right|done].
    + destruct (mapM _ (sections a)) as [here|] eqn:Hhere; [|done].
      destruct (extract_items cat items _) as [later|] eqn:Hlater; [|done].
      simplify_eq. apply elem_of_app in He as [He|He].
      * destruct (elem_of_mapM_Some _ _ _ _ Hhere He) as (sid & Hsid & Hent).
        exists sid0, d, p, a, sid. split; [by left|done].
      * destruct (IH _ _ Hlater He) as (s0 & d' & p' & a' & sid & Hin & Hrest).
        exists s0, d', p', a', sid. split; [by right|done].
Qed.

Lemma entry_of_fields cat d p a sid e :
  entry_of cat d p a sid = Some e →
  e_course_id e = a_course_id a ∧ e_type e = session_type a
  ∧ e_section_id e = sid
  ∧ py_index DAY_NAMES d = Some (e_day e)
  ∧ e_start_period e = period a + 1
  ∧ e_end_period e = period a + duration a
  ∧ e_duration_periods e = duration a
  ∧ e_instructor_id e = instructor_id a ∧ e_room_id e = a_room_id a
  ∧ e_period_alignment e = period_alignment a.
Proof.
  unfold entry_of. intros H. simplify_option_eq. done.
Qed.

(** A successful call of either strategy ends in a state whose timetable
    satisfies the invariant, and the schedule is read off that timetable. *)
Lemma schedule_from_timetable fuel cat strategy n schedule att bt :
  schedule_timetable fuel cat strategy = Some (Success n schedule att bt) →
  ∃ st, timetable_ok (timetable st)
        ∧ extract_items cat (timetable st) [] = Some schedule.
Proof.
  unfold schedule_timetable. intros H.
  destruct (if bool_decide (strategy = "section") then _ else _)
    as [| |[|] st] eqn:Hout; try done.
  assert (timetable_ok (timetable st)) as Hok.
  { case_bool_decide.
    - eapply solve_by_section_ok; [apply initial_timetable_ok|exact Hout].
    - destruct (_get_all_sessions_to_schedule cat) as [sessions|]; [|done].
      eapply solve_by_course_ok; [apply initial_timetable_ok|exact Hout]. }
  exists st. split; [done|]. unfold _extract_solution in H.
  destruct (extract_items cat (timetable st) []); by simplify_eq.
Qed.

Lemma schedule_entries_placed fuel cat strategy n schedule att bt :
  schedule_timetable fuel cat strategy = Some (Success n schedule att bt) →
  ∃ t, timetable_ok t
       ∧ ∀ e, e ∈ schedule →
           ∃ k a, (k, a) ∈ t
                  ∧ 1 ≤ duration a
                  ∧ e_section_id e ∈ sections a
                  ∧ py_index DAY_NAMES (day a) = Some (e_day e)
                  ∧ e_start_period e = period a + 1
                  ∧ e_end_period e = period a + duration a
                  ∧ e_duration_periods e = duration a
                  ∧ e_course_id e = a_course_id a
                  ∧ e_type e = session_type a
                  ∧ e_period_alignment e = period_alignment a.
Proof.
  intros H. destruct (schedule_from_timetable _ _ _ _ _ _ _ H)
    as (st & Hok & Hex).
  exists (timetable st). split; [done|]. intros e He.
  destruct (extract_items_entries _ _ _ _ _ Hex He)
    as (sid0 & d & p & a & sid & Hin & Hsid & Hent).
  destruct Hok as [_ Hok]. destruct (Hok _ _ Hin) as (_ & Hk & _).
  apply elem_of_cells in Hk as (? & q & Hkey & _ & Hq). simplify_eq.
  apply elem_of_slots in Hq.
  apply entry_of_fields in Hent
    as (Hc & Hty & <- & Hday & Hs & Hend & Hdur & _ & _ & Hal).
  eexists _, a. split; [exact Hin|]. split_and!; [lia|done..].
Qed.

Lemma day_names_inj d1 d2 name :
  0 ≤ d1 < DAYS → 0 ≤ d2 < DAYS →
  py_index DAY_NAMES d1 = Some name → py_index DAY_NAMES d2 = Some name →
  d1 = d2.
Proof.
  unfold DAYS. intros H1 H2 Hn1 Hn2.
  assert (d1 = 0 ∨ d1 = 1 ∨ d1 = 2 ∨ d1 = 3 ∨ d1 = 4) as Hd1 by lia.
  assert (d2 = 0 ∨ d2 = 1 ∨ d2 = 2 ∨ d2 = 3 ∨ d2 = 4) as Hd2 by lia.
  destruct Hd1 as [->|[->|[->|[->| ->]]]];
    destruct Hd2 as [->|[->|[->|[->| ->]]]];
    vm_compute in Hn1, Hn2; congruence.
Qed.

(** X15.  The schedule of a successful backtracking run never books a
    section twice: two entries for the same section and day belong to the
    same session or lie apart. *)
Lemma backtracker_sections_never_clash fuel cat strategy n schedule att bt e1 e2 :
  schedule_timetable fuel cat strategy = Some (Success n schedule att bt) →
  e1 ∈ schedule → e2 ∈ schedule →
  e_section_id e1 = e_section_id e2 → e_day e1 = e_day e2 →
  (e_course_id e1 = e_course_id e2 ∧ e_type e1 = e_type e2
   ∧ e_start_period e1 = e_start_period e2
   ∧ e_end_period e1 = e_end_period e2)
  ∨ e_end_period e1 < e_start_period e2
  ∨ e_end_period e2 < e_start_period e1.
Proof.
  intros H He1 He2 Hsec Hday.
  destruct (schedule_entries_placed _ _ _ _ _ _ _ H) as (t & Hok & Hent).
  destruct (Hent _ He1)
    as (k1 & a & Ha & _ & Hsa & Hda & Hsta & Hena & _ & Hca & Hta & _).
  destruct (Hent _ He2)
    as (k2 & b & Hb & _ & Hsb & Hdb & Hstb & Henb & _ & Hcb & Htb & _).
  destruct (decide (a = b)) as [->|Hne].
  - left. by rewrite Hca, Hcb, Hta, Htb, Hsta, Hstb, Hena, Henb.
  - right.
    assert (day a = day b) as Hd.
    { destruct Hok as [_ Hok].
      destruct (Hok _ _ Ha) as ((? & _) & _), (Hok _ _ Hb) as ((? & _) & _).
      eapply day_names_inj; [done..|]. by rewrite Hday. }
    rewrite Hsec in Hsa.
    destruct (timetable_sections_apart _ _ _ _ _ _ Hok Ha Hb Hne Hd Hsa Hsb);
      lia.
Qed.

(** *** What a successful search leaves on the board *)

Lemma timetable_place_entries st a :
  _is_valid_assignment st (sections a) (day a) (period a) (duration a)
    (instructor_id a) (a_room_id a) = true →
  ∀ kv, kv ∈ timetable (_place_assignment st a)
        ↔ kv ∈ timetable st ∨ (kv.2 = a ∧ kv.1 ∈ cells a).
Proof.
  intros Hvalid.
  apply valid_assignment_elim in Hvalid as (_ & _ & Hsec & _).
  assert (∀ k, k ∈ cells a → dict_mem k (timetable st) = false) as Hfresh.
  { intros k Hk. apply elem_of_cells in Hk as (sid & q & -> & Hsid & Hq).
    by apply Hsec. }
  rewrite timetable_place.
  destruct (dict_set_fresh_entries a (cells a) (timetable st) [] Hfresh)
    as (new & Heq & _ & Hin).
  { constructor. } { intros kv Hkv. by apply elem_of_nil in Hkv. }
  rewrite app_nil_r in Heq. rewrite Heq. intros kv.
  rewrite elem_of_app, Hin. split.
  - intros [?|[H|?]]; [by left|by apply elem_of_nil in H|by right].
  - intros [?|?]; [by left|right; by right].
Qed.

Lemma board_ok_same_board cat src st st' :
  same_board st st' → board_ok cat src st → board_ok cat src st'.
Proof.
  intros (Ht & Hi & Hr) (Hok & Hin & Hap). unfold board_ok, booked in *.
  rewrite <- Ht, <- Hi, <- Hr. done.
Qed.

Lemma board_ok_initial cat src : board_ok cat src initial_state.
Proof.
  split; [apply initial_timetable_ok|]. split.
  - intros k a Hin. by apply elem_of_nil in Hin.
  - intros k1 a k2 b Hin. by apply elem_of_nil in Hin.
Qed.

Lemma cell_duration a k : k ∈ cells a → 1 ≤ duration a.
Proof.
  intros Hk. apply elem_of_cells in Hk as (sid & q & _ & _ & Hq).
  apply elem_of_slots in Hq. lia.
Qed.

(** An assignment that is booked and one whose instructor and room are
    free at its periods do not overlap when they share one of the two. *)
Lemma booked_apart st a b :
  booked st b → 1 ≤ duration a → 1 ≤ duration b →
  (∀ q, q ∈ range (period a) (period a + duration a) →
        (instructor_id a, day a, q) ∉ instructor_busy st) →
  (a_room_id a ≠ "N/A" →
   ∀ q, q ∈ range (period a) (period a + duration a) →
        (a_room_id a, day a, q) ∉ room_busy st) →
  day a = day b →
  instructor_id a = instructor_id b
  ∨ (a_room_id a = a_room_id b ∧ a_room_id a ≠ "N/A") →
  period a + duration a ≤ period b ∨ period b + duration b ≤ period a.
Proof.
  intros Hbk Hda Hdb Hinstr Hroom Hday Hres.
  destruct (decide (period a + duration a ≤ period b)); [by left|].
  destruct (decide (period b + duration b ≤ period a)); [by right|].
  exfalso.
  assert (Z.max (period a) (period b) ∈ slots b) as Hqb
    by (apply elem_of_slots; lia).
  assert (Z.max (period a) (period b)
            ∈ range (period a) (period a + duration a)) as Hqa
    by (apply elem_of_range; lia).
  destruct (Hbk _ Hqb) as [Hi Hr]. destruct Hres as [Heq|[Heq Hna]].
  - apply (Hinstr _ Hqa). by rewrite Heq, Hday.
  - apply (Hroom Hna _ Hqa). rewrite Heq, Hday. apply Hr. by rewrite <- Heq.
Qed.

Lemma place_board_ok cat src st a :
  board_ok cat src st →
  _is_valid_assignment st (sections a) (day a) (period a) (duration a)
    (instructor_id a) (a_room_id a) = true →
  0 ≤ day a < DAYS → 0 ≤ period a →
  placed_by cat src a →
  board_ok cat src (_place_assignment st a).
Proof.
  intros (Hok & Hin & Hap) Hvalid Hday Hperiod Hby.
  pose proof (timetable_place_entries _ _ Hvalid) as Hent.
  pose proof (place_timetable_ok _ _ Hok Hvalid Hday Hperiod) as Hok'.
  apply valid_assignment_elim in Hvalid as (_ & _ & _ & Hinstr & Hroom).
  split; [done|]. split.
  - intros k b Hb. apply Hent in Hb as [Hb|[Hv Hk]]; simpl in *.
    + destruct (Hin _ _ Hb) as [Hby' Hbk]. split; [done|].
      intros q Hq. destruct (Hbk q Hq) as [Hi Hr]. split.
      * rewrite instructor_busy_place. set_solver.
      * intros Hna. rewrite room_busy_place. case_bool_decide; set_solver.
    + subst b. split; [done|]. intros q Hq. split.
      * rewrite instructor_busy_place. apply elem_of_union. right.
        apply elem_of_list_to_set, list_elem_of_fmap. by exists q.
      * intros Hna. rewrite room_busy_place.
        rewrite (bool_decide_eq_true_2 (a_room_id a ≠ "N/A")) by done.
        apply elem_of_union. right.
        apply elem_of_list_to_set, list_elem_of_fmap. by exists q.
  - intros k1 b1 k2 b2 H1 H2 Hne Hd Hres.
    apply Hent in H1 as [H1|[Hv1 Hk1]]; apply Hent in H2 as [H2|[Hv2 Hk2]];
      simpl in *.
    + by eapply Hap.
    + subst b2. destruct (Hin _ _ H1) as [_ Hbk].
      destruct (Hok) as [_ Hcells]. destruct (Hcells _ _ H1) as (_ & Hk1 & _).
      apply or_comm. apply (booked_apart st a b1); try done.
      * by eapply cell_duration.
      * by eapply cell_duration.
      * destruct Hres as [->|[-> Hna]]; [by left|right]. split; [done|].
        intros Heq. apply Hna. congruence.
    + subst b1. destruct (Hin _ _ H2) as [_ Hbk].
      destruct (Hok) as [_ Hcells]. destruct (Hcells _ _ H2) as (_ & Hk2' & _).
      apply (booked_apart st a b2); try done.
      * by eapply cell_duration.
      * by eapply cell_duration.
    + congruence.
Qed.

Lemma elem_of_candidates_resources qualified suitable d p instr room :
  (d, p, instr, room) ∈ candidates qualified suitable →
  instr ∈ qualified ∧ room ∈ suitable.
Proof.
  unfold candidates. rewrite list_elem_of_bind. intros (d' & Hin & Hd).
  apply list_elem_of_bind in Hin as (p' & Hin & Hp).
  apply list_elem_of_bind in Hin as (i' & Hin & Hi).
  apply list_elem_of_bind in Hin as (r' & Hin & Hr).
  apply list_elem_of_singleton in Hin. by simplify_eq.
Qed.

Lemma try_candidates_board cat src recurse course kind target dur cands st st' :
  (∀ s s', recurse s = Returns false s' → same_board s s') →
  (∀ s s', board_ok cat src s → recurse s = Returns true s' →
           board_ok cat src s') →
  (∀ d p instr room, (d, p, instr, room) ∈ cands →
     0 ≤ d < DAYS ∧ 0 ≤ p
     ∧ placed_by cat src
         (make_assignment course kind target dur (d, p, instr, room))) →
  board_ok cat src st →
  try_candidates recurse course kind target dur cands st = Returns true st' →
  board_ok cat src st'.
Proof.
  intros Hrec Hsucc. revert st.
  induction cands as [|[[[d p] instr] room] cands IH]; intros st Hcands Hok Htry.
  - done.
  - rewrite try_candidates_cons in Htry.
    assert (∀ d p instr room, (d, p, instr, room) ∈ cands →
              0 ≤ d < DAYS ∧ 0 ≤ p
              ∧ placed_by cat src
                  (make_assignment course kind target dur (d, p, instr, room)))
      as Hcands' by (intros; eapply Hcands; by right).
    assert (board_ok cat src (count_attempt st)) as Hok1.
    { eapply board_ok_same_board; [|exact Hok]. by split_and!. }
    destruct (_is_valid_assignment (count_attempt st) target d p dur instr room)
      eqn:Hvalid.
    + destruct (Hcands d p instr room) as (Hd & Hp & Hby); [by left|].
      destruct (recurse _) as [| |[|] st2] eqn:Hr in Htry; try discriminate.
      * simplify_eq. eapply Hsucc; [|exact Hr].
        by apply place_board_ok.
      * eapply IH; [done| |exact Htry].
        eapply board_ok_same_board; [|exact Hok].
        exact (backtracked_same_board recurse st
                 (make_assignment course kind target dur (d, p, instr, room))
                 st2 Hrec Hvalid Hr).
    + eapply IH; [done| |exact Htry]. done.
Qed.

Lemma schedule_session_board cat src recurse course kind target st st' :
  (∀ s s', recurse s = Returns false s' → same_board s s') →
  (∀ s s', board_ok cat src s → recurse s = Returns true s' →
           board_ok cat src s') →
  src course kind →
  board_ok cat src st →
  schedule_session recurse cat course kind target st = Returns true st' →
  board_ok cat src st'.
Proof.
  intros Hrec Hsucc Hsrc Hok. unfold schedule_session. intros H.
  destruct (students_of cat target) as [students|] eqn:Hst; [|done].
  destruct (_get_qualified_instructors _ _ _) as [|i0 q] eqn:Hq; [done|].
  destruct (session_rooms cat course kind _) as [|r0 rs] eqn:Hs; [done|].
  eapply try_candidates_board; [done..| |done|exact H].
  intros d p instr room Hin.
  pose proof (elem_of_candidates _ _ _ _ _ _ Hin) as [Hd Hp].
  apply elem_of_candidates_resources in Hin as [Hi Hr].
  split_and!; [lia..|].
  exists course, kind, students. simpl. rewrite Hq, Hs. by split_and!.
Qed.

Lemma solve_by_course_board cat src remaining st st' :
  (∀ course kind target, (course, kind, target) ∈ remaining → src course kind) →
  board_ok cat src st →
  solve_by_course cat remaining st = Returns true st' →
  board_ok cat src st'.
Proof.
  revert st st'.
  induction remaining as [|[[course kind] target] rest IH];
    intros st st' Hsrc Hok H; simpl in H; [by simplify_eq|].
  assert (∀ course kind target, (course, kind, target) ∈ rest → src course kind)
    as Hsrc' by (intros; eapply Hsrc; by right).
  destruct (already_scheduled st course kind target); [by eapply IH|].
  eapply schedule_session_board; [| | |done|exact H].
  - apply solve_by_course_restores.
  - intros s s'. by apply IH.
  - eapply Hsrc. by left.
Qed.

Lemma pending_kind_session cat st section course ks c k t :
  pending_kind cat st section course ks = PendingSession c k t →
  c = course ∧ k ∈ ks ∧ section_id section ∈ t.
Proof.
  induction ks as [|kind ks IH]; simpl; [done|]. intros H.
  assert (pending_kind cat st section course ks = PendingSession c k t →
          c = course ∧ k ∈ kind :: ks ∧ section_id section ∈ t) as IH'.
  { intros H'. destruct (IH H') as (? & ? & ?). split_and!; [done| |done].
    by right. }
  destruct (bool_decide _); [by apply IH'|].
  destruct (_get_target_sections cat course kind section) as [groups|]; [|done].
  destruct (List.find _ groups) as [[|s0 target]|] eqn:Hfind;
    [by apply IH'| |by apply IH'].
  apply find_some in Hfind as [_ Hin]. apply py_in_spec in Hin.
  injection H as <- <- <-. split_and!; [done|by left|done].
Qed.

Lemma pending_course_session cat st section cs c k t :
  pending_course cat st section cs = PendingSession c k t →
  c ∈ cs ∧ k ∈ kinds c ∧ is_project c = false ∧ section_id section ∈ t.
Proof.
  induction cs as [|course cs IH]; simpl; [done|]. intros H.
  assert (pending_course cat st section cs = PendingSession c k t →
          c ∈ course :: cs ∧ k ∈ kinds c ∧ is_project c = false
          ∧ section_id section ∈ t) as IH'.
  { intros H'. destruct (IH H') as (? & ? & ? & ?). split_and!; [|done..].
    by right. }
  destruct (_is_course_complete_for_section _ _ _); [by apply IH'|].
  destruct (is_project course) eqn:Hp; [by apply IH'|].
  destruct (pending_kind cat st section course (kinds course))
    as [| |c' k' t'] eqn:Hk; [done|by apply IH'|].
  injection H as -> -> ->.
  apply pending_kind_session in Hk as (-> & Hk & Ht).
  split_and!; [by left|done..].
Qed.

Lemma section_courses_sub cat section cs c :
  section_courses cat section = Some cs → c ∈ cs → c ∈ courses cat.
Proof.
  unfold section_courses. intros H Hin.
  destruct (courses cat) as [|c0 rest].
  - injection H as <-. by apply elem_of_nil in Hin.
  - destruct (group_by_id cat !! s_group_id section) as [g|]; [|done].
    injection H as <-.
    apply (elem_of_bfilter
             (fun c => bool_decide (c_year c = g_year g)
                       && match major c with
                          | None => true
                          | Some m => bool_decide (Some m = specialization g)
                          end) (c0 :: rest)) in Hin as [_ Hin].
    done.
Qed.

Lemma solve_by_section_board cat src fuel idx st st' :
  (∀ course kind, course ∈ courses cat → kind ∈ kinds course →
                  is_project course = false → src course kind) →
  board_ok cat src st →
  solve_by_section fuel cat idx st = Returns true st' →
  board_ok cat src st'.
Proof.
  intros Hsrc. revert idx st st'.
  induction fuel as [|fuel IH]; intros idx st st' Hok H; simpl in H; [done|].
  destruct (all_sections cat !! idx) as [section|]; [|by simplify_eq].
  destruct (section_courses cat section) as [eligible|] eqn:Hel; [|done].
  destruct (forallb _ eligible); [by eapply IH|].
  destruct (pending_course cat st section eligible) as [| |course kind target]
    eqn:Hpend; [done|by eapply IH|].
  apply pending_course_session in Hpend as (Hc & Hk & Hp & _).
  destruct (already_scheduled st course kind target).
  - eapply IH; [|exact H].
    eapply board_ok_same_board; [|exact Hok]. by split_and!.
  - eapply schedule_session_board; [| | |done|exact H].
    + apply solve_by_section_restores.
    + intros s s'. apply IH.
    + apply Hsrc; [|done..]. by eapply section_courses_sub.
Qed.

Lemma elem_of_concat {A} (ls : list (list A)) (x : A) :
  x ∈ concat ls ↔ ∃ l, l ∈ ls ∧ x ∈ l.
Proof.
  rewrite list_elem_of_In, in_concat. setoid_rewrite list_elem_of_In. done.
Qed.

Lemma all_sessions_src cat all course kind target :
  _get_all_sessions_to_schedule cat = Some all →
  (course, kind, target) ∈ all →
  course ∈ courses cat ∧ kind ∈ kinds course.
Proof.
  unfold _get_all_sessions_to_schedule.
  destruct (mapM _ (courses cat)) as [per_course|] eqn:Hm; [|done].
  intros [= <-] Hin. apply elem_of_concat in Hin as (l & Hl & Hin).
  destruct (elem_of_mapM_Some _ _ _ _ Hm Hl) as (c & Hc & Hsc).
  unfold sessions_of_course in Hsc.
  destruct (mapM _ (kinds c)) as [per_kind|] eqn:Hm'; [|done].
  injection Hsc as <-. apply elem_of_concat in Hin as (l' & Hl' & Hin).
  destruct (elem_of_mapM_Some _ _ _ _ Hm' Hl') as (k & Hk & Hsk).
  unfold sessions_of_kind in Hsk.
  destruct (all_sections cat !! 0%nat) as [ref|]; [|done].
  destruct (_get_target_sections cat c k ref) as [groups|]; [|done].
  injection Hsk as <-. apply list_elem_of_fmap in Hin as (g & Heq & _).
  by simplify_eq.
Qed.

(** The courses and kinds a strategy places: any kind of a course of the
    catalog, and no project course under the section strategy. *)
Lemma schedule_from_board fuel cat strategy n schedule att bt :
  schedule_timetable fuel cat strategy = Some (Success n schedule att bt) →
  ∃ st, board_ok cat
          (fun course kind =>
             course ∈ courses cat ∧ kind ∈ kinds course
             ∧ (strategy = "section" → is_project course = false)) st
        ∧ extract_items cat (timetable st) [] = Some schedule.
Proof.
  unfold schedule_timetable. intros H.
  destruct (if bool_decide (strategy = "section") then _ else _)
    as [| |[|] st] eqn:Hout; try done.
  exists st. split.
  - case_bool_decide as Hs.
    + eapply solve_by_section_board; [|apply board_ok_initial|exact Hout].
      intros course kind Hc Hk Hp. by split_and!.
    + destruct (_get_all_sessions_to_schedule cat) as [sessions|] eqn:Hall;
        [|done].
      eapply solve_by_course_board; [|apply board_ok_initial|exact Hout].
      intros course kind target Hin.
      destruct (all_sessions_src _ _ _ _ _ Hall Hin). by split_and!.
  - unfold _extract_solution in H.
    destruct (extract_items cat (timetable st) []); by simplify_eq.
Qed.

Lemma schedule_entries_assigned cat st schedule e :
  timetable_ok (timetable st) →
  extract_items cat (timetable st) [] = Some schedule → e ∈ schedule →
  ∃ k a, (k, a) ∈ timetable st ∧ 1 ≤ duration a
         ∧ e_section_id e ∈ sections a
         ∧ entry_of cat (day a) k.2 a (e_section_id e) = Some e.
Proof.
  intros [_ Hok] Hex He.
  destruct (extract_items_entries _ _ _ _ _ Hex He)
    as (sid0 & d & p & a & sid & Hin & Hsid & Hent).
  destruct (Hok _ _ Hin) as (_ & Hk & _).
  pose proof (cell_duration _ _ Hk) as Hdur.
  apply elem_of_cells in Hk as (? & q & Hkey & _ & Hq). simplify_eq.
  pose proof (entry_of_fields _ _ _ _ _ _ Hent) as (_ & _ & Hs & _).
  eexists _, a. split; [exact Hin|]. rewrite Hs. by split_and!.
Qed.

(** X14.  A search that returns [False], under either strategy, hands back
    the timetable and the two busy sets exactly as it received them: every
    placement it made has been taken back. *)
Theorem failed_search_restores_the_board fuel cat idx sessions st st' :
  solve_by_section fuel cat idx st = Returns false st'
  ∨ solve_by_course cat sessions st = Returns false st' →
  timetable st' = timetable st
  ∧ instructor_busy st' = instructor_busy st
  ∧ room_busy st' = room_busy st.
Proof.
  intros [H|H].
  - apply solve_by_section_restores in H as (? & ? & ?). by split_and!.
  - apply solve_by_course_restores in H as (? & ? & ?). by split_and!.
Qed.

Lemma entries_same_day cat st e1 e2 k1 a k2 b :
  timetable_ok (timetable st) →
  (k1, a) ∈ timetable st → (k2, b) ∈ timetable st →
  entry_of cat (day a) k1.2 a (e_section_id e1) = Some e1 →
  entry_of cat (day b) k2.2 b (e_section_id e2) = Some e2 →
  e_day e1 = e_day e2 → day a = day b.
Proof.
  intros [_ Hok] Ha Hb H1 H2 Hday.
  destruct (Hok _ _ Ha) as ((? & _) & _), (Hok _ _ Hb) as ((? & _) & _).
  apply entry_of_fields in H1 as (_ & _ & _ & Hd1 & _).
  apply entry_of_fields in H2 as (_ & _ & _ & Hd2 & _).
  eapply day_names_inj; [done..|]. by rewrite Hday.
Qed.

(** X16.  The schedule of a successful backtracking run never books an
    instructor twice: two entries of one day with the same instructor
    belong to the same session (same course, type, periods and room) or lie
    apart. *)
Theorem backtracker_instructors_never_clash
    fuel cat strategy n schedule att bt e1 e2 :
  schedule_timetable fuel cat strategy = Some (Success n schedule att bt) →
  e1 ∈ schedule → e2 ∈ schedule →
  e_instructor_id e1 = e_instructor_id e2 → e_day e1 = e_day e2 →
  (e_course_id e1 = e_course_id e2 ∧ e_type e1 = e_type e2
   ∧ e_start_period e1 = e_start_period e2
   ∧ e_end_period e1 = e_end_period e2
   ∧ e_room_id e1 = e_room_id e2)
  ∨ e_end_period e1 < e_start_period e2
  ∨ e_end_period e2 < e_start_period e1.
Proof.
  intros H He1 He2 Hinstr Hday.
  destruct (schedule_from_board _ _ _ _ _ _ _ H) as (st & (Hok & _ & Hap) & Hex).
  destruct (schedule_entries_assigned _ _ _ _ Hok Hex He1)
    as (k1 & a & Ha & _ & _ & Hea).
  destruct (schedule_entries_assigned _ _ _ _ Hok Hex He2)
    as (k2 & b & Hb & _ & _ & Heb).
  pose proof (entries_same_day _ _ _ _ _ _ _ _ Hok Ha Hb Hea Heb Hday)
    as Hd.
  apply entry_of_fields in Hea
    as (Hca & Hta & _ & _ & Hsta & Hena & _ & Hia & Hra & _).
  apply entry_of_fields in Heb
    as (Hcb & Htb & _ & _ & Hstb & Henb & _ & Hib & Hrb & _).
  destruct (decide (a = b)) as [->|Hne].
  - left. by rewrite Hca, Hcb, Hta, Htb, Hsta, Hstb, Hena, Henb, Hra, Hrb.
  - right. destruct (Hap _ _ _ _ Ha Hb Hne Hd); [left; congruence|lia..].
Qed.

(** X17.  Nor does it book a room twice: two entries of one day in the same
    room, other than the placeholder of the project sessions, belong to the
    same session (same course, type, periods and instructor) or lie
    apart. *)
Theorem backtracker_rooms_never_clash
    fuel cat strategy n schedule att bt e1 e2 :
  schedule_timetable fuel cat strategy = Some (Success n schedule att bt) →
  e1 ∈ schedule → e2 ∈ schedule →
  e_room_id e1 = e_room_id e2 → e_room_id e1 ≠ "N/A" →
  e_day e1 = e_day e2 →
  (e_course_id e1 = e_course_id e2 ∧ e_type e1 = e_type e2
   ∧ e_start_period e1 = e_start_period e2
   ∧ e_end_period e1 = e_end_period e2
   ∧ e_instructor_id e1 = e_instructor_id e2)
  ∨ e_end_period e1 < e_start_period e2
  ∨ e_end_period e2 < e_start_period e1.
Proof.
  intros H He1 He2 Hroom Hna Hday.
  destruct (schedule_from_board _ _ _ _ _ _ _ H) as (st & (Hok & _ & Hap) & Hex).
  destruct (schedule_entries_assigned _ _ _ _ Hok Hex He1)
    as (k1 & a & Ha & _ & _ & Hea).
  destruct (schedule_entries_assigned _ _ _ _ Hok Hex He2)
    as (k2 & b & Hb & _ & _ & Heb).
  pose proof (entries_same_day _ _ _ _ _ _ _ _ Hok Ha Hb Hea Heb Hday)
    as Hd.
  apply entry_of_fields in Hea
    as (Hca & Hta & _ & _ & Hsta & Hena & _ & Hia & Hra & _).
  apply entry_of_fields in Heb
    as (Hcb & Htb & _ & _ & Hstb & Henb & _ & Hib & Hrb & _).
  destruct (decide (a = b)) as [->|Hne].
  - left. by rewrite Hca, Hcb, Hta, Htb, Hsta, Hstb, Hena, Henb, Hia, Hib.
  - right. destruct (Hap _ _ _ _ Ha Hb Hne Hd); [right|lia..].
    split; congruence.
Qed.

Lemma qualified_instructors_spec cat cid stype iid :
  iid ∈ _get_qualified_instructors cat cid stype
  ↔ ∃ instr, instr ∈ instructors cat ∧ instr_id instr = iid
             ∧ cid ∈ qualified_courses instr
             ∧ (stype = "Lecture" ∧ role instr = "Professor"
                ∨ (stype = "Tut" ∨ stype = "Lab") ∧ role instr = "TA").
Proof.
  unfold _get_qualified_instructors. rewrite list_elem_of_fmap.
  assert (∀ instr, instructor_qualifies cid stype instr = true
            ↔ cid ∈ qualified_courses instr
              ∧ (stype = "Lecture" ∧ role instr = "Professor"
                 ∨ (stype = "Tut" ∨ stype = "Lab") ∧ role instr = "TA"))
    as Hq.
  { intros instr. unfold instructor_qualifies.
    rewrite andb_true_iff, orb_true_iff, !andb_true_iff, !py_in_spec,
      !bool_decide_eq_true.
    rewrite elem_of_cons, list_elem_of_singleton. done. }
  split.
  - intros (instr & -> & Hin). apply elem_of_bfilter in Hin as [Hs Hin].
    apply Hq in Hs as [? ?]. by exists instr.
  - intros (instr & Hin & <- & Hc & Hr). exists instr. split; [done|].
    apply elem_of_bfilter. split; [|done]. by apply Hq.
Qed.

Lemma room_suits_type stype n lab ic room :
  room_suits stype n lab ic room = true →
  (ic = false → n ≤ capacity room)
  ∧ (stype = "Lecture" ∧ (r_type room = "theater"
                          ∨ ic = false ∧ r_type room = "classroom")
     ∨ stype = "Tut" ∧ r_type room = "classroom"
     ∨ stype = "Lab" ∧ lab = Some (r_type room)).
Proof.
  unfold room_suits. intros H. split.
  - intros ->. simpl in H. destruct (Z.ltb_spec (capacity room) n); [done|lia].
  - destruct (negb ic && _); [done|].
    destruct (bool_decide (stype = "Lab")) eqn:E1.
    { apply bool_decide_eq_true in E1. right. right.
      apply andb_true_iff in H as [_ H]. by apply bool_decide_eq_true in H. }
    destruct (bool_decide (stype = "Lecture")) eqn:E2.
    { apply bool_decide_eq_true in E2. left. split; [done|]. destruct ic.
      - left. by apply bool_decide_eq_true in H.
      - apply py_in_spec in H. apply elem_of_cons in H as [H|H]; [by right|].
        apply list_elem_of_singleton in H. by left. }
    destruct (bool_decide (stype = "Tut")) eqn:E3; [|done].
    apply bool_decide_eq_true in E3. right. left.
    by apply bool_decide_eq_true in H.
Qed.

(** X18.  Every entry of a successful backtracking run stands for a kind of
    a course of the catalog, with the length of that kind in periods; its
    instructor is one of the catalog who is qualified for the course, a
    Professor for a Lecture and a TA for a Tut or a Lab; a project course
    gets the placeholder room, any other course a room of the catalog whose
    type fits the session type; and the section strategy places no project
    course at all. *)
Theorem backtracker_entries_come_from_the_catalog
    fuel cat strategy n schedule att bt e :
  schedule_timetable fuel cat strategy = Some (Success n schedule att bt) →
  e ∈ schedule →
  ∃ course kind,
    course ∈ courses cat ∧ kind ∈ kinds course
    ∧ e_course_id e = course_id course ∧ e_type e = k_type kind
    ∧ e_duration_periods e = k_length kind / 45
    ∧ (strategy = "section" → is_project course = false)
    ∧ (∃ instr, instr ∈ instructors cat
                ∧ instr_id instr = e_instructor_id e
                ∧ e_course_id e ∈ qualified_courses instr
                ∧ (e_type e = "Lecture" ∧ role instr = "Professor"
                   ∨ (e_type e = "Tut" ∨ e_type e = "Lab")
                     ∧ role instr = "TA"))
    ∧ (if is_project course then e_room_id e = "N/A"
       else ∃ room, room ∈ rooms cat ∧ room_id room = e_room_id e
              ∧ (e_type e = "Lecture"
                   ∧ (r_type room = "theater"
                      ∨ ignore_capacity kind = false
                        ∧ r_type room = "classroom")
                 ∨ e_type e = "Tut" ∧ r_type room = "classroom"
                 ∨ e_type e = "Lab"
                   ∧ k_lab_type kind = Some (r_type room))).
Proof.
  intros H He.
  destruct (schedule_from_board _ _ _ _ _ _ _ H) as (st & (Hok & Hby & _) & Hex).
  destruct (schedule_entries_assigned _ _ _ _ Hok Hex He)
    as (k & a & Ha & _ & _ & Hea).
  destruct (Hby _ _ Ha) as [(course & kind & students & (Hc & Hk & Hp) & Hcid
                             & Hty & Hdur & Hi & _ & Hr) _].
  apply entry_of_fields in Hea
    as (Hca & Hta & _ & _ & _ & _ & Hda & Hia & Hra & _).
  exists course, kind.
  rewrite Hca, Hta, Hda, Hia, Hra, Hcid, Hty.
  split_and!; [done..| |].
  - apply qualified_instructors_spec in Hi as (instr & ? & ? & ? & ?).
    by exists instr.
  - unfold session_rooms in Hr. destruct (is_project course).
    + by apply list_elem_of_singleton in Hr.
    + apply suitable_rooms_spec in Hr as (room & Hin & Hid & Hs).
      exists room. split_and!; [done..|].
      by apply room_suits_type in Hs as [_ Hs].
Qed.

(** *** Indexes and cohorts *)

Lemma index_by_snoc {A} (key : A → string) (l : list A) (x : A) :
  index_by key (l ++ [x]) = <[key x := x]> (index_by key l).
Proof. unfold index_by. by rewrite foldl_app. Qed.

Lemma index_by_found {A} (key : A → string) (l : list A) (k : string) (x : A) :
  index_by key l !! k = Some x → x ∈ l ∧ key x = k.
Proof.
  induction l as [|z l IH] using rev_ind.
  - unfold index_by. simpl. by rewrite lookup_empty.
  - rewrite index_by_snoc. destruct (decide (key z = k)) as [Hk|Hk].
    + rewrite Hk, lookup_insert_eq. intros [= <-]. split; [|done].
      apply elem_of_app. right. by left.
    + rewrite lookup_insert_ne by done. intros H.
      destruct (IH H) as [? ?]. split; [|done]. apply elem_of_app. by left.
Qed.

(** X19.  An index built from a list answers a key with the last element
    of the list that carries it, and has no entry exactly for the keys that
    no element carries. *)
Theorem index_by_lookup {A} (key : A → string) (l : list A) (k : string) :
  (∀ x, index_by key l !! k = Some x
        ↔ ∃ l1 l2, l = l1 ++ x :: l2 ∧ key x = k
                   ∧ ∀ y, y ∈ l2 → key y ≠ k)
  ∧ (index_by key l !! k = None ↔ ∀ y, y ∈ l → key y ≠ k).
Proof.
  induction l as [|z l [IHs IHn]] using rev_ind.
  - split.
    + intros x. unfold index_by. simpl. rewrite lookup_empty. split; [done|].
      intros (l1 & l2 & Hl & _). by destruct l1.
    + unfold index_by. simpl. rewrite lookup_empty. split; [|done].
      intros _ y Hy. by apply elem_of_nil in Hy.
  - rewrite index_by_snoc. destruct (decide (key z = k)) as [Hk|Hk].
    + rewrite Hk, lookup_insert_eq. split.
      * intros x. split.
        -- intros [= <-]. exists l, []. split_and!; [done..|].
           intros y Hy. by apply elem_of_nil in Hy.
        -- intros (l1 & l2 & Hl & Hx & Hlast).
           destruct l2 as [|y l2 _] using rev_ind.
           ++ apply app_inj_tail in Hl as [_ ->]. done.
           ++ rewrite app_comm_cons, app_assoc in Hl.
              apply app_inj_tail in Hl as [_ ->].
              destruct (Hlast y); [|done]. apply elem_of_app. right. by left.
      * split; [done|]. intros Hall. destruct (Hall z); [|done].
        apply elem_of_app. right. by left.
    + rewrite lookup_insert_ne by done. split.
      * intros x. rewrite IHs. split.
        -- intros (l1 & l2 & -> & Hx & Hlast). exists l1, (l2 ++ [z]).
           split_and!; [by rewrite <- app_assoc|done|].
           intros y Hy. apply elem_of_app in Hy as [Hy|Hy]; [by apply Hlast|].
           apply list_elem_of_singleton in Hy. by subst y.
        -- intros (l1 & l2 & Hl & Hx & Hlast).
           destruct l2 as [|y l2 _] using rev_ind.
           ++ apply app_inj_tail in Hl as [_ ->]. done.
           ++ rewrite app_comm_cons, app_assoc in Hl.
              apply app_inj_tail in Hl as [-> ->]. exists l1, l2.
              split_and!; [done..|]. intros y' Hy'. apply Hlast.
              apply elem_of_app. by left.
      * rewrite IHn. split.
        -- intros Hall y Hy. apply elem_of_app in Hy as [Hy|Hy]; [by apply Hall|].
           apply list_elem_of_singleton in Hy. by subst y.
        -- intros Hall y Hy. apply Hall. apply elem_of_app. by left.
Qed.

Lemma lab_step_fold max secs gs cur :
  1 ≤ max →
  Forall (fun g => 1 ≤ Z.of_nat (length g) ≤ max) gs →
  Z.of_nat (length cur) ≤ max → (cur = [] → gs = []) →
  concat (foldl (lab_step max) (gs, cur) secs).1
    ++ (foldl (lab_step max) (gs, cur) secs).2
  = concat gs ++ cur ++ (section_id <$> secs)
  ∧ Forall (fun g => 1 ≤ Z.of_nat (length g) ≤ max)
      (foldl (lab_step max) (gs, cur) secs).1
  ∧ Z.of_nat (length (foldl (lab_step max) (gs, cur) secs).2) ≤ max
  ∧ ((foldl (lab_step max) (gs, cur) secs).2 = [] →
     (foldl (lab_step max) (gs, cur) secs).1 = [] ∧ secs = []).
Proof.
  intros Hmax. revert gs cur.
  induction secs as [|s secs IH]; intros gs cur Hgs Hcur Hempty; simpl.
  - rewrite app_nil_r. split_and!; [done..|]. intros Hc. by split; [apply Hempty|].
  - unfold lab_step at 2 4 6 8 10. simpl.
    destruct (Z.ltb_spec (Z.of_nat (length cur)) max) as [Hlt|Hge].
    + destruct (IH gs (cur ++ [section_id s])) as (Hc & Hf & Hl & He).
      * done.
      * rewrite length_app. simpl. lia.
      * intros Hnil. by destruct cur.
      * rewrite Hc, <- app_assoc. split_and!; [done..|].
        intros Hnil. destruct (He Hnil) as [_ ->].
        simpl in Hnil. by destruct cur.
    + destruct (IH (gs ++ [cur]) [section_id s]) as (Hc & Hf & Hl & He).
      * apply Forall_app. split; [done|]. constructor; [|done]. lia.
      * simpl. lia.
      * done.
      * rewrite Hc, concat_app. simpl. rewrite app_nil_r, <- !app_assoc.
        split_and!; [done..|].
        intros Hnil. destruct (He Hnil) as [_ ->]. by simpl in Hnil.
Qed.

Lemma lab_step_always max secs gs cur s :
  max ≤ 0 →
  foldl (lab_step max) (gs, cur) (secs ++ [s])
  = (gs ++ [cur] ++ ((fun s => [section_id s]) <$> secs), [section_id s]).
Proof.
  intros Hmax. revert gs cur.
  induction secs as [|s0 secs IH]; intros gs cur; simpl.
  - unfold lab_step. simpl.
    destruct (Z.ltb_spec (Z.of_nat (length cur)) max) as [|_]; [lia|done].
  - unfold lab_step at 2. simpl.
    destruct (Z.ltb_spec (Z.of_nat (length cur)) max) as [|_]; [lia|].
    rewrite IH. by rewrite <- app_assoc.
Qed.

(** X20.  With at least one section allowed per lab, the lab groups split
    the sections, in order, into groups of one section up to the allowed
    number, and no section is lost or repeated.  With an allowance of zero
    or less the groups are the single sections, behind a leading group
    that is empty. *)
Theorem lab_groups_partition max secs :
  (1 ≤ max →
   concat (lab_groups max secs) = section_id <$> secs
   ∧ Forall (fun g => 1 ≤ Z.of_nat (length g) ≤ max) (lab_groups max secs))
  ∧ (max ≤ 0 → secs ≠ [] →
     lab_groups max secs = [] :: ((fun s => [section_id s]) <$> secs)).
Proof.
  split.
  - intros Hmax. unfold lab_groups.
    destruct (lab_step_fold max secs [] [] Hmax) as (Hc & Hf & Hl & He);
      [done|simpl; lia|done|].
    simpl in Hc.
    destruct (foldl (lab_step max) ([], []) secs) as [gs cur]. simpl in *.
    destruct cur as [|c cur].
    + destruct (He eq_refl) as [-> ->]. done.
    + destruct (gs ++ [c :: cur]) as [|g0 gs'] eqn:Hg.
      { by destruct gs. }
      rewrite <- Hg, concat_app. simpl. rewrite app_nil_r. split; [done|].
      apply Forall_app. split; [done|]. constructor; [|done].
      simpl in *. lia.
  - intros Hmax Hne.
    destruct secs as [|s secs _] using rev_ind; [done|].
    unfold lab_groups. rewrite (lab_step_always max) by done. simpl.
    by rewrite fmap_app.
Qed.

(** *** Reading the timetable back *)

Lemma mapM_Some_elem {A B} (f : A → option B) (l : list A) (k : list B) x :
  mapM f l = Some k → x ∈ l → ∃ y, y ∈ k ∧ f x = Some y.
Proof.
  intros Hm Hx. apply mapM_Some in Hm.
  apply list_elem_of_lookup in Hx as [i Hi].
  destruct (Forall2_lookup_l _ _ _ _ _ Hm Hi) as (y & Hy & Hf).
  exists y. split; [|done]. apply list_elem_of_lookup. eauto.
Qed.

Lemma extract_items_complete cat items seen schedule sid0 d p a sid :
  extract_items cat items seen = Some schedule →
  ((sid0, d, p), a) ∈ items → sid ∈ sections a →
  (a_course_id a, session_type a, sections a, d, period a) ∉ seen →
  ∃ e p' a', e ∈ schedule ∧ entry_of cat d p' a' sid = Some e
             ∧ a_course_id a' = a_course_id a
             ∧ session_type a' = session_type a
             ∧ period a' = period a.
Proof.
  revert seen schedule.
  induction items as [|[[[s0 d0] p0] a0] items IH];
    intros seen schedule H Hin Hsid Hseen; simpl in H.
  - by apply elem_of_nil in Hin.
  - destruct (py_in (a_course_id a0, session_type a0, sections a0, d0, period a0)
                seen) eqn:Hpy.
    + apply elem_of_cons in Hin as [Heq|Hin].
      * injection Heq as -> -> -> ->. by apply py_in_spec in Hpy.
      * by eapply IH.
    + destruct (mapM _ (sections a0)) as [here|] eqn:Hhere; [|done].
      destruct (extract_items cat items _) as [later|] eqn:Hlater; [|done].
      injection H as <-.
      destruct (decide ((a_course_id a, session_type a, sections a, d, period a)
                        = (a_course_id a0, session_type a0, sections a0, d0,
                           period a0))) as [Hkey|Hkey].
      * injection Hkey as Hc Ht Hs -> Hp. rewrite Hs in Hsid.
        destruct (mapM_Some_elem _ _ _ _ Hhere Hsid) as (e & He & Hent).
        exists e, p0, a0. split_and!; [|done..]. apply elem_of_app. by left.
      * apply elem_of_cons in Hin as [Heq|Hin].
        { injection Heq as -> -> -> ->. done. }
        destruct (IH _ _ Hlater Hin Hsid) as (e & p' & a' & He & Hrest).
        { intros Hc. apply elem_of_cons in Hc as [Hc|Hc]; [done|]. done. }
        exists e, p', a'. split; [|done]. apply elem_of_app. by right.
Qed.

(** X21.  The extracted schedule leaves no placed session out: for every
    cell of the timetable and every section of the assignment in it, the
    schedule holds an entry of that section with the course, the type, the
    day and the first period of the assignment; and the reported total is
    the number of entries. *)
Theorem every_placed_section_gets_an_entry
    cat st n schedule att bt sid0 d p a sid :
  _extract_solution cat st = Some (Success n schedule att bt) →
  ((sid0, d, p), a) ∈ timetable st → sid ∈ sections a →
  n = length schedule
  ∧ ∃ e, e ∈ schedule ∧ e_section_id e = sid
         ∧ e_course_id e = a_course_id a ∧ e_type e = session_type a
         ∧ e_start_period e = period a + 1
         ∧ py_index DAY_NAMES d = Some (e_day e).
Proof.
  unfold _extract_solution. intros H Hin Hsid.
  destruct (extract_items cat (timetable st) []) as [sch|] eqn:Hex; [|done].
  injection H as <- <- _ _. split; [done|].
  destruct (extract_items_complete _ _ _ _ _ _ _ _ _ Hex Hin Hsid)
    as (e & p' & a' & He & Hent & Hc & Ht & Hp).
  { intros Hc. by apply elem_of_nil in Hc. }
  apply entry_of_fields in Hent as (Hce & Hte & Hse & Hde & Hst & _).
  exists e. split_and!; [done..|congruence|congruence|congruence|done].
Qed.

(** *** The marks of the scheduled session types *)

Lemma sched_add_lookup m sid' y sid x :
  x ∈ default ∅ (sched_add sid' y m !! sid)
  ↔ x ∈ default ∅ (m !! sid) ∨ (sid = sid' ∧ x = y).
Proof.
  unfold sched_add. destruct (decide (sid = sid')) as [->|Hne].
  - rewrite lookup_insert_eq. simpl. set_solver.
  - rewrite lookup_insert_ne by done. intuition congruence.
Qed.

Lemma sched_discard_lookup m sid' y sid x :
  x ∈ default ∅ (sched_discard sid' y m !! sid)
  ↔ x ∈ default ∅ (m !! sid) ∧ ¬ (sid = sid' ∧ x = y).
Proof.
  unfold sched_discard. destruct (decide (sid = sid')) as [->|Hne].
  - rewrite lookup_insert_eq. simpl. set_solver.
  - rewrite lookup_insert_ne by done. intuition congruence.
Qed.

Lemma marks_add_all y secs m sid x :
  x ∈ default ∅ (foldl (fun m sid' => sched_add sid' y m) m secs !! sid)
  ↔ x ∈ default ∅ (m !! sid) ∨ (x = y ∧ sid ∈ secs).
Proof.
  revert m. induction secs as [|s secs IH]; intros m; simpl.
  - split; [by left|]. intros [?|[_ H]]; [done|by apply elem_of_nil in H].
  - rewrite IH, sched_add_lookup, elem_of_cons. intuition congruence.
Qed.

Lemma marks_discard_all y secs m sid x :
  x ∈ default ∅ (foldl (fun m sid' => sched_discard sid' y m) m secs !! sid)
  ↔ x ∈ default ∅ (m !! sid) ∧ ¬ (x = y ∧ sid ∈ secs).
Proof.
  revert m. induction secs as [|s secs IH]; intros m; simpl.
  - split; [|by intros [? _]]. intros H. split; [done|].
    intros [_ Hin]. by apply elem_of_nil in Hin.
  - rewrite IH, sched_discard_lookup, elem_of_cons. intuition congruence.
Qed.

Lemma marks_add_rounds y secs (l : list string) m sid x :
  x ∈ default ∅
        (foldl (fun m _ => foldl (fun m sid' => sched_add sid' y m) m secs) m l
           !! sid)
  ↔ x ∈ default ∅ (m !! sid) ∨ (l ≠ [] ∧ x = y ∧ sid ∈ secs).
Proof.
  revert m. induction l as [|s l IH]; intros m; simpl.
  - split; [by left|]. by intros [?|[? _]].
  - rewrite IH, marks_add_all. split.
    + intros [[?|?]|(_ & ?)]; [by left|by right..].
    + intros [?|(_ & ?)]; [by left; left|left; by right].
Qed.

Lemma marks_discard_rounds y secs (l : list string) m sid x :
  x ∈ default ∅
        (foldl (fun m _ => foldl (fun m sid' => sched_discard sid' y m) m secs)
           m l !! sid)
  ↔ x ∈ default ∅ (m !! sid) ∧ ¬ (l ≠ [] ∧ x = y ∧ sid ∈ secs).
Proof.
  revert m. induction l as [|s l IH]; intros m; simpl.
  - split; [|by intros [? _]]. intros H. split; [done|]. by intros [? _].
  - rewrite IH, marks_discard_all. split.
    + intros [[? Hn] _]. split; [done|]. intros (_ & ?). by apply Hn.
    + intros [? Hn]. split; [split; [done|]|].
      * intros HB. apply Hn. by split.
      * intros [_ HB]. apply Hn. by split.
Qed.

Lemma marked_place st a sid x :
  marked (_place_assignment st a) sid x
  ↔ marked st sid x ∨ (x = (a_course_id a, session_type a) ∧ sid ∈ sections a).
Proof.
  assert (scheduled_sessions (_place_assignment st a)
          = foldl (fun m (_ : string) =>
                     foldl (fun m sid' =>
                              sched_add sid' (a_course_id a, session_type a) m)
                       m (sections a))
              (scheduled_sessions st) (sections a)) as Hp.
  { unfold _place_assignment.
    rewrite (foldl_proj scheduled_sessions (place_resources a) (fun m _ => m)),
      foldl_keep.
    2:{ intros s q. unfold place_resources. by case_bool_decide. }
    apply (foldl_proj scheduled_sessions). intros s s0. unfold place_section.
    rewrite (foldl_proj scheduled_sessions _
               (fun m sid' =>
                  sched_add sid' (a_course_id a, session_type a) m)) by done.
    f_equal.
    by rewrite (foldl_proj scheduled_sessions _ (fun m _ => m)), foldl_keep. }
  unfold marked, scheduled_for. rewrite Hp, marks_add_rounds. split.
  - intros [?|(_ & ?)]; [by left|by right].
  - intros [?|[? Hin]]; [by left|right]. split; [|done].
    intros Hnil. rewrite Hnil in Hin. by apply elem_of_nil in Hin.
Qed.

Lemma marked_remove st a sid x :
  marked (_remove_assignment st a) sid x
  ↔ marked st sid x
    ∧ ¬ (x = (a_course_id a, session_type a) ∧ sid ∈ sections a).
Proof.
  assert (scheduled_sessions (_remove_assignment st a)
          = foldl (fun m (_ : string) =>
                     foldl (fun m sid' =>
                              sched_discard sid'
                                (a_course_id a, session_type a) m)
                       m (sections a))
              (scheduled_sessions st) (sections a)) as Hp.
  { unfold _remove_assignment.
    rewrite (foldl_proj scheduled_sessions (remove_resources a) (fun m _ => m)),
      foldl_keep.
    2:{ intros s q. unfold remove_resources. by case_bool_decide. }
    apply (foldl_proj scheduled_sessions). intros s s0. unfold remove_section.
    rewrite (foldl_proj scheduled_sessions _
               (fun m sid' =>
                  sched_discard sid' (a_course_id a, session_type a) m))
      by done.
    f_equal.
    rewrite (foldl_proj scheduled_sessions _ (fun m _ => m)), foldl_keep;
      [done|].
    intros s' q. by destruct (dict_mem _ _). }
  unfold marked, scheduled_for. rewrite Hp, marks_discard_rounds. split.
  - intros [? Hn]. split; [done|]. intros [? Hin]. apply Hn.
    split; [|done]. intros Hnil. rewrite Hnil in Hin.
    by apply elem_of_nil in Hin.
  - intros [? Hn]. split; [done|]. intros (_ & ?). by apply Hn.
Qed.

Lemma already_scheduled_spec st course kind target :
  already_scheduled st course kind target = true
  ↔ ∀ sid, sid ∈ target → marked st sid (course_id course, k_type kind).
Proof.
  unfold already_scheduled. rewrite forallb_elem_of.
  by setoid_rewrite bool_decide_eq_true.
Qed.

(** Only the sessions of the list set or clear marks. *)
Lemma try_candidates_frame recurse course kind target dur cands st b st'
    (F : string → string * string → Prop) :
  (∀ s b s', recurse s = Returns b s' →
     ∀ sid x, ¬ F sid x → (marked s sid x ↔ marked s' sid x)) →
  (∀ sid, sid ∈ target → F sid (course_id course, k_type kind)) →
  try_candidates recurse course kind target dur cands st = Returns b st' →
  ∀ sid x, ¬ F sid x → (marked st sid x ↔ marked st' sid x).
Proof.
  intros Hrec HF. revert st.
  induction cands as [|[[[d p] instr] room] cands IH]; intros st Htry sid x HnF.
  - simpl in Htry. by injection Htry as _ <-.
  - rewrite try_candidates_cons in Htry.
    destruct (_is_valid_assignment (count_attempt st) target d p dur instr room)
      eqn:Hvalid.
    + destruct (recurse _) as [| |b2 st2] eqn:Hr in Htry; try discriminate.
      pose proof (Hrec _ _ _ Hr sid x HnF) as Hstep.
      rewrite marked_place in Hstep.
      assert (marked st sid x ↔ marked st2 sid x) as Hst2.
      { rewrite <- Hstep. split; [by left|].
        intros [?|[-> Hin]]; [done|]. destruct HnF. exact (HF _ Hin). }
      destruct b2.
      * by injection Htry as <- <-.
      * rewrite Hst2, <- (IH _ Htry sid x HnF), marked_remove.
        split; [|by intros [? _]]. intros ?. split; [done|].
        intros [-> Hin]. apply HnF. exact (HF _ Hin).
    + by rewrite <- (IH _ Htry sid x HnF).
Qed.

Lemma solve_by_course_frame cat rest st b st' :
  solve_by_course cat rest st = Returns b st' →
  ∀ sid x, ¬ touches rest sid x → (marked st sid x ↔ marked st' sid x).
Proof.
  revert st b st'.
  induction rest as [|[[course kind] target] rest IH];
    intros st b st' H sid x Hn; simpl in H.
  - by injection H as _ <-.
  - assert (∀ sid x, ¬ touches ((course, kind, target) :: rest) sid x →
                     ¬ touches rest sid x) as Hweak.
    { intros sid' x' Hn' (c & k & t & Hin & Hrest). apply Hn'.
      exists c, k, t. split; [by right|done]. }
    destruct (already_scheduled st course kind target).
    { eapply IH; [exact H|]. by apply Hweak. }
    unfold schedule_session in H.
    destruct (students_of cat target) as [students|]; [|done].
    destruct (_get_qualified_instructors _ _ _) as [|i0 q0]; [by injection H as _ <-|].
    destruct (session_rooms _ _ _ _) as [|r0 rs0]; [by injection H as _ <-|].
    eapply (try_candidates_frame _ _ _ _ _ _ _ _ _
              (touches ((course, kind, target) :: rest))); [| |exact H|exact Hn].
    + intros s b' s' Hs sid' x' Hn'. eapply IH; [exact Hs|by apply Hweak].
    + intros sid' Hin. exists course, kind, target. split; [by left|done].
Qed.

Lemma try_candidates_success recurse course kind target dur cands st st' :
  try_candidates recurse course kind target dur cands st = Returns true st' →
  ∃ c s1, c ∈ cands
          ∧ recurse (_place_assignment s1
                       (make_assignment course kind target dur c))
            = Returns true st'.
Proof.
  revert st.
  induction cands as [|[[[d p] instr] room] cands IH]; intros st Htry; [done|].
  rewrite try_candidates_cons in Htry.
  assert (∀ s, try_candidates recurse course kind target dur cands s
               = Returns true st' →
               ∃ c s1, c ∈ (d, p, instr, room) :: cands
                       ∧ recurse (_place_assignment s1
                                    (make_assignment course kind target dur c))
                         = Returns true st') as IH'.
  { intros s Hs. destruct (IH _ Hs) as (c & s1 & Hc & Hr).
    exists c, s1. split; [by right|done]. }
  destruct (_is_valid_assignment _ _ _ _ _ _ _); [|by eapply IH'].
  destruct (recurse _) as [| |[|] st2] eqn:Hr in Htry; try discriminate.
  - injection Htry as <-. eexists _, _. split; [by left|exact Hr].
  - by eapply IH'.
Qed.

(** A mark that the rest of the sessions leaves at the end stays through
    their search. *)
Lemma solve_by_course_keeps cat rest s st' sid x :
  (∀ sid x, touches rest sid x → marked st' sid x) →
  solve_by_course cat rest s = Returns true st' →
  marked s sid x → marked st' sid x.
Proof.
  intros Hall Hs Hm.
  destruct (decide (x ∈ scheduled_for st' sid)) as [|Hno]; [done|].
  apply (solve_by_course_frame _ _ _ _ _ Hs sid x); [|done].
  intros Ht. by apply Hno, Hall.
Qed.

Lemma solve_by_course_marks cat rest st st' :
  solve_by_course cat rest st = Returns true st' →
  ∀ sid x, touches rest sid x → marked st' sid x.
Proof.
  revert st st'.
  induction rest as [|[[course kind] target] rest IH];
    intros st st' H sid x Ht; simpl in H.
  - destruct Ht as (c & k & t & Hin & _). by apply elem_of_nil in Hin.
  - destruct Ht as (c & k & t & Hin & Hx & Hsid).
    destruct (already_scheduled st course kind target) eqn:Hal.
    + apply elem_of_cons in Hin as [Heq|Hin].
      * injection Heq as -> -> ->. subst x.
        eapply solve_by_course_keeps; [by eapply IH|exact H|].
        by eapply already_scheduled_spec.
      * eapply IH; [exact H|]. by exists c, k, t.
    + unfold schedule_session in H.
      destruct (students_of cat target) as [students|]; [|done].
      destruct (_get_qualified_instructors _ _ _) as [|i0 q0]; [done|].
      destruct (session_rooms _ _ _ _) as [|r0 rs0]; [done|].
      apply try_candidates_success in H as ([[[d p] instr] room] & s1 & _ & Hr).
      apply elem_of_cons in Hin as [Heq|Hin].
      * injection Heq as -> -> ->. subst x.
        eapply solve_by_course_keeps; [by eapply IH|exact Hr|].
        apply marked_place. by right.
      * eapply IH; [exact Hr|]. by exists c, k, t.
Qed.

(** A failed search sets no mark. *)
Lemma try_candidates_shrinks recurse course kind target dur cands st st' :
  (∀ s s', recurse s = Returns false s' →
     ∀ sid x, marked s' sid x → marked s sid x) →
  try_candidates recurse course kind target dur cands st = Returns false st' →
  ∀ sid x, marked st' sid x → marked st sid x.
Proof.
  intros Hrec. revert st.
  induction cands as [|[[[d p] instr] room] cands IH]; intros st Htry sid x Hm.
  - simpl in Htry. by injection Htry as <-.
  - rewrite try_candidates_cons in Htry.
    destruct (_is_valid_assignment _ _ _ _ _ _ _).
    + destruct (recurse _) as [| |[|] st2] eqn:Hr in Htry; try discriminate.
      apply (IH _ Htry) in Hm. apply marked_remove in Hm as [Hm Hn].
      apply (Hrec _ _ Hr) in Hm. apply marked_place in Hm as [Hm|Hm]; [done|].
      by destruct Hn.
    + by apply (IH _ Htry) in Hm.
Qed.

Lemma solve_by_course_shrinks cat rest st st' :
  solve_by_course cat rest st = Returns false st' →
  ∀ sid x, marked st' sid x → marked st sid x.
Proof.
  revert st st'.
  induction rest as [|[[course kind] target] rest IH]; intros st st' H;
    simpl in H; [done|].
  destruct (already_scheduled st course kind target); [by eapply IH|].
  unfold schedule_session in H.
  destruct (students_of cat target) as [students|]; [|done].
  destruct (_get_qualified_instructors _ _ _) as [|i0 q0]; [by injection H as <-|].
  destruct (session_rooms _ _ _ _) as [|r0 rs0]; [by injection H as <-|].
  eapply try_candidates_shrinks; [|exact H]. apply IH.
Qed.

Lemma place_marks_on_board st a :
  marks_on_board st →
  _is_valid_assignment st (sections a) (day a) (period a) (duration a)
    (instructor_id a) (a_room_id a) = true →
  1 ≤ duration a →
  marks_on_board (_place_assignment st a).
Proof.
  intros Hmb Hvalid Hdur sid x Hm.
  pose proof (timetable_place_entries _ _ Hvalid) as Hent.
  apply marked_place in Hm as [Hm|[-> Hsid]].
  - destruct (Hmb _ _ Hm) as (k & b & Hin & Hrest). exists k, b.
    split; [|done]. apply Hent. by left.
  - exists (sid, day a, period a), a. split; [|done]. apply Hent. right.
    split; [done|]. apply elem_of_cells. exists sid, (period a).
    split_and!; [done..|]. apply elem_of_slots. lia.
Qed.

Lemma try_candidates_marks_on_board recurse course kind target dur cands st st' :
  (∀ s s', recurse s = Returns false s' → same_board s s') →
  (∀ s s', recurse s = Returns false s' →
     ∀ sid x, marked s' sid x → marked s sid x) →
  (∀ s s', marks_on_board s → recurse s = Returns true s' →
           marks_on_board s') →
  1 ≤ dur →
  marks_on_board st →
  try_candidates recurse course kind target dur cands st = Returns true st' →
  marks_on_board st'.
Proof.
  intros Hrec Hshr Hsucc Hdur. revert st.
  induction cands as [|[[[d p] instr] room] cands IH]; intros st Hmb Htry;
    [done|].
  rewrite try_candidates_cons in Htry.
  destruct (_is_valid_assignment (count_attempt st) target d p dur instr room)
    eqn:Hvalid.
  - destruct (recurse _) as [| |[|] st2] eqn:Hr in Htry; try discriminate.
    + injection Htry as <-. eapply Hsucc; [|exact Hr].
      by apply place_marks_on_board.
    + eapply IH; [|exact Htry]. intros sid x Hm.
      apply marked_remove in Hm as [Hm Hn]. apply (Hshr _ _ Hr) in Hm.
      apply marked_place in Hm as [Hm|Hm]; [|by destruct Hn].
      destruct (Hmb sid x Hm) as (k & b & Hin & Hrest). exists k, b.
      split; [|done].
      destruct (backtracked_same_board recurse st
                  (make_assignment course kind target dur (d, p, instr, room))
                  st2 Hrec Hvalid Hr) as [<- _].
      done.
  - eapply IH; [|exact Htry]. done.
Qed.

Lemma solve_by_course_marks_on_board cat rest st st' :
  (∀ course kind target, (course, kind, target) ∈ rest → 45 ≤ k_length kind) →
  marks_on_board st →
  solve_by_course cat rest st = Returns true st' →
  marks_on_board st'.
Proof.
  revert st st'.
  induction rest as [|[[course kind] target] rest IH];
    intros st st' Hlen Hmb H; simpl in H; [by simplify_eq|].
  assert (∀ course kind target, (course, kind, target) ∈ rest →
                                45 ≤ k_length kind)
    as Hlen' by (intros; eapply Hlen; by right).
  destruct (already_scheduled st course kind target); [by eapply IH|].
  unfold schedule_session in H.
  destruct (students_of cat target) as [students|]; [|done].
  destruct (_get_qualified_instructors _ _ _) as [|i0 q0]; [done|].
  destruct (session_rooms _ _ _ _) as [|r0 rs0]; [done|].
  eapply try_candidates_marks_on_board; [| | | |exact Hmb|exact H].
  - apply solve_by_course_restores.
  - apply solve_by_course_shrinks.
  - intros s s' Hs. by apply IH.
  - apply Z.div_le_lower_bound; [lia|]. specialize (Hlen course kind target).
    rewrite Z.mul_1_r. apply Hlen. by left.
Qed.

(** X22.  When every kind lasts at least one period of 45 minutes, a
    successful run of the course strategy leaves no session out: for every
    session that the list of sessions to schedule holds and every section
    of its target, the schedule has an entry of that section with the
    course and the type of the session. *)
Theorem course_strategy_schedules_every_session
    fuel cat strategy n schedule att bt all course kind target sid :
  strategy ≠ "section" →
  (∀ c k, c ∈ courses cat → k ∈ kinds c → 45 ≤ k_length k) →
  schedule_timetable fuel cat strategy = Some (Success n schedule att bt) →
  _get_all_sessions_to_schedule cat = Some all →
  (course, kind, target) ∈ all → sid ∈ target →
  ∃ e, e ∈ schedule ∧ e_section_id e = sid
       ∧ e_course_id e = course_id course ∧ e_type e = k_type kind.
Proof.
  intros Hstrat Hlen H Hall Hin Hsid. unfold schedule_timetable in H.
  rewrite (bool_decide_eq_false_2 (strategy = "section")) in H by done.
  rewrite Hall in H.
  destruct (solve_by_course cat all initial_state) as [| |[|] st] eqn:Hsolve;
    try done.
  unfold _extract_solution in H.
  destruct (extract_items cat (timetable st) []) as [sch|] eqn:Hex; [|done].
  injection H as _ <- _ _.
  assert (marked st sid (course_id course, k_type kind)) as Hm.
  { eapply solve_by_course_marks; [exact Hsolve|].
    by exists course, kind, target. }
  assert (marks_on_board st) as Hmb.
  { eapply solve_by_course_marks_on_board; [| |exact Hsolve].
    - intros c k t Hc. destruct (all_sessions_src _ _ _ _ _ Hall Hc).
      by apply (Hlen c k).
    - intros sid' x Hx. unfold marked, scheduled_for in Hx. simpl in Hx.
      rewrite lookup_empty in Hx. simpl in Hx. set_solver. }
  destruct (Hmb _ _ Hm) as ([[sid0 d] p] & a & Ha & Hx & Hsa).
  injection Hx as Hc Ht.
  destruct (extract_items_complete _ _ _ _ _ _ _ _ _ Hex Ha Hsa)
    as (e & p' & a' & He & Hent & Hc' & Ht' & _).
  { intros Hno. by apply elem_of_nil in Hno. }
  apply entry_of_fields in Hent as (Hce & Hte & Hse & _).
  exists e. split_and!; [done..|congruence|congruence].
Qed.

(** *** Edge cases of the entry point *)

(** X23.  Without sections the section strategy succeeds at once with an
    empty schedule and no attempt, whereas any other strategy ends with the
    error result as soon as one course has a kind, because the first
    section is read as the reference section. *)
Theorem no_sections_edge fuel cat strategy :
  all_sections cat = [] →
  (strategy = "section" →
   schedule_timetable (S fuel) cat strategy = Some (Success 0 [] 0 0))
  ∧ (strategy ≠ "section" →
     (∃ c, c ∈ courses cat ∧ kinds c ≠ []) →
     schedule_timetable fuel cat strategy = Some Error).
Proof.
  intros Hnil. split.
  - intros ->. unfold schedule_timetable. simpl. by rewrite Hnil.
  - intros Hs (c & Hc & Hk). unfold schedule_timetable.
    rewrite (bool_decide_eq_false_2 (strategy = "section")) by done.
    assert (_get_all_sessions_to_schedule cat = None) as ->; [|done].
    unfold _get_all_sessions_to_schedule.
    destruct (mapM (sessions_of_course cat) (courses cat)) as [per|] eqn:Hm;
      [|done].
    exfalso.
    assert (is_Some (mapM (sessions_of_course cat) (courses cat))) as His
      by (by rewrite Hm).
    apply mapM_is_Some in His. rewrite Forall_forall in His.
    destruct (His _ Hc) as [l Hl]. unfold sessions_of_course in Hl.
    destruct (mapM (sessions_of_kind cat c) (kinds c)) as [pk|] eqn:Hm';
      [|done].
    assert (is_Some (mapM (sessions_of_kind cat c) (kinds c))) as His'
      by (by rewrite Hm').
    apply mapM_is_Some in His'.
    destruct (kinds c) as [|k ks]; [done|].
    apply Forall_cons in His' as [[l' Hl'] _].
    unfold sessions_of_kind in Hl'. by rewrite Hnil in Hl'.
Qed.

(** *** The cohorts of the backtracking search *)

Lemma eligible_sections_spec cat course l s :
  eligible_sections cat course = Some l →
  s ∈ l →
  s ∈ all_sections cat
  ∧ ∃ g, group_by_id cat !! s_group_id s = Some g
         ∧ g_year g = c_year course
         ∧ (∀ m, major course = Some m → specialization g = Some m).
Proof.
  unfold eligible_sections. revert l.
  induction (all_sections cat) as [|s0 rest IH]; intros l H Hin; simpl in H.
  - injection H as <-. by apply elem_of_nil in Hin.
  - destruct (group_by_id cat !! s_group_id s0) as [g|] eqn:Hg; [|done].
    simpl in H.
    destruct (foldr _ (Some []) rest) as [l'|]; [|done]. simpl in H.
    injection H as <-.
    assert (s ∈ l' →
            s ∈ s0 :: rest
            ∧ ∃ g, group_by_id cat !! s_group_id s = Some g
                   ∧ g_year g = c_year course
                   ∧ (∀ m, major course = Some m → specialization g = Some m))
      as IH'.
    { intros Hs. destruct (IH _ eq_refl Hs) as [? ?]. split; [by right|done]. }
    destruct (bool_decide (g_year g = c_year course) && _) eqn:Hel;
      [|by apply IH'].
    apply elem_of_cons in Hin as [->|Hin]; [|by apply IH'].
    split; [by left|]. exists g. apply andb_true_iff in Hel as [Hy Hm].
    apply bool_decide_eq_true in Hy. split_and!; [done..|].
    intros m Hmaj. rewrite Hmaj in Hm. by apply bool_decide_eq_true in Hm.
Qed.

Lemma lab_step_ids max secs acc g sid :
  g ∈ (foldl (lab_step max) acc secs).1
  ∨ g = (foldl (lab_step max) acc secs).2 →
  sid ∈ g →
  (∃ g', (g' ∈ acc.1 ∨ g' = acc.2) ∧ sid ∈ g')
  ∨ ∃ s, s ∈ secs ∧ section_id s = sid.
Proof.
  revert acc.
  induction secs as [|s secs IH]; intros [gs cur] Hg Hsid; simpl in Hg.
  - left. by exists g.
  - destruct (IH _ Hg Hsid) as [(g' & Hg' & Hin)|(s' & Hs' & Hid)].
    + unfold lab_step in Hg'. simpl in Hg'.
      destruct (Z.of_nat (length cur) <? max); simpl in Hg'.
      * destruct Hg' as [Hg'| ->]; [left; exists g'; by split; [left|]|].
        apply elem_of_app in Hin as [Hin|Hin].
        -- left. exists cur. by split; [right|].
        -- apply list_elem_of_singleton in Hin. right. exists s.
           split; [by left|done].
      * destruct Hg' as [Hg'| ->].
        -- apply elem_of_app in Hg' as [Hg'|Hg'].
           ++ left. exists g'. by split; [left|].
           ++ apply list_elem_of_singleton in Hg'. subst g'.
              left. exists cur. by split; [right|].
        -- apply list_elem_of_singleton in Hin. right. exists s.
           split; [by left|done].
    + right. exists s'. split; [by right|done].
Qed.

Lemma lab_groups_ids max secs g sid :
  g ∈ lab_groups max secs → sid ∈ g → ∃ s, s ∈ secs ∧ section_id s = sid.
Proof.
  unfold lab_groups. intros Hg Hsid.
  pose proof (lab_step_ids max secs ([], []) g sid) as Hids.
  destruct (foldl (lab_step max) ([], []) secs) as [gs cur]. simpl in *.
  assert (g ∈ gs ∨ g = cur → ∃ s, s ∈ secs ∧ section_id s = sid) as Hfrom.
  { intros Hor. destruct (Hids Hor Hsid) as [(g' & [Hg'| ->] & Hin)|?]; [| |done].
    - by apply elem_of_nil in Hg'.
    - by apply elem_of_nil in Hin. }
  assert (g ∈ (fun s => [section_id s]) <$> secs →
          ∃ s, s ∈ secs ∧ section_id s = sid) as Hsingle.
  { intros Hin. apply list_elem_of_fmap in Hin as (s & -> & Hs).
    apply list_elem_of_singleton in Hsid. by exists s. }
  destruct cur as [|c cur].
  - destruct gs as [|g0 gs]; [by apply Hsingle|]. apply Hfrom. by left.
  - destruct (gs ++ [c :: cur]) as [|g0 gs'] eqn:Heq; [by apply Hsingle|].
    rewrite <- Heq in Hg. apply elem_of_app in Hg as [Hg|Hg].
    + apply Hfrom. by left.
    + apply list_elem_of_singleton in Hg. apply Hfrom. by right.
Qed.

Lemma elem_of_sections_by_group cat gid s :
  s ∈ sections_by_group cat gid ↔ s ∈ all_sections cat ∧ s_group_id s = gid.
Proof.
  unfold sections_by_group. rewrite elem_of_bfilter, bool_decide_eq_true.
  tauto.
Qed.

(** X24.  For a course that is not a project, every section id of every
    target that [_get_target_sections] returns is the id of a section of
    the catalog whose group is in the catalog and has the year of the
    course and, unless the course runs for the full year, its major when
    it names one. *)
Theorem target_sections_are_the_cohort cat course kind ref targets target sid :
  is_project course = false →
  _get_target_sections cat course kind ref = Some targets →
  target ∈ targets → sid ∈ target →
  ∃ s g, s ∈ all_sections cat ∧ section_id s = sid
         ∧ g ∈ groups cat ∧ group_id g = s_group_id s
         ∧ g_year g = c_year course
         ∧ (full_year course = false →
            ∀ m, major course = Some m → specialization g = Some m).
Proof.
  intros Hp H Ht Hsid. unfold _get_target_sections in H. rewrite Hp in H.
  assert (∀ s, s ∈ sections_by_year cat (c_year course) →
            ∃ g, s ∈ all_sections cat ∧ g ∈ groups cat
                 ∧ group_id g = s_group_id s ∧ g_year g = c_year course)
    as Hyear.
  { intros s Hs. unfold sections_by_year in Hs.
    apply list_elem_of_In, in_flat_map in Hs as (g & Hg & Hs).
    apply list_elem_of_In, elem_of_bfilter in Hg as [Hy Hg].
    apply list_elem_of_In, elem_of_sections_by_group in Hs as [Hs Hid].
    apply bool_decide_eq_true in Hy. by exists g. }
  assert (∀ l s, eligible_sections cat course = Some l → s ∈ l →
            ∃ s' g, s' ∈ all_sections cat ∧ section_id s' = section_id s
                    ∧ g ∈ groups cat ∧ group_id g = s_group_id s'
                    ∧ g_year g = c_year course
                    ∧ (full_year course = false →
                       ∀ m, major course = Some m → specialization g = Some m))
    as Hel.
  { intros l s Hl Hs.
    destruct (eligible_sections_spec _ _ _ _ Hl Hs) as (Hin & g & Hg & Hy & Hm).
    apply (index_by_found group_id) in Hg as [Hg Hid].
    exists s, g. by split_and!. }
  destruct (full_year course) eqn:Hfull.
  - destruct (bool_decide (k_type kind = "Lecture")
              || bool_decide (k_type kind = "Lab")).
    + injection H as <-. apply list_elem_of_singleton in Ht. subst target.
      apply list_elem_of_fmap in Hsid as (s & -> & Hs).
      destruct (Hyear _ Hs) as (g & ? & ? & ? & ?). exists s, g.
      by split_and!.
    + injection H as <-. apply list_elem_of_fmap in Ht as (s & -> & Hs).
      apply list_elem_of_singleton in Hsid. subst sid.
      destruct (Hyear _ Hs) as (g & ? & ? & ? & ?). exists s, g.
      by split_and!.
  - destruct (bool_decide (k_type kind = "Lecture")).
    { injection H as <-. apply list_elem_of_fmap in Ht as (g & -> & Hg).
      apply elem_of_bfilter in Hg as [Hok Hg].
      apply list_elem_of_fmap in Hsid as (s & -> & Hs).
      apply elem_of_sections_by_group in Hs as [Hs Hid].
      apply andb_true_iff in Hok as [Hy Hm]. apply bool_decide_eq_true in Hy.
      exists s, g. split_and!; [done..|]. intros _ m Hmaj.
      rewrite Hmaj in Hm. by apply bool_decide_eq_true in Hm. }
    destruct (bool_decide (k_type kind = "Tut")).
    { destruct (eligible_sections cat course) as [l|] eqn:Hl; [|done].
      injection H as <-. apply list_elem_of_fmap in Ht as (s & -> & Hs).
      apply list_elem_of_singleton in Hsid. subst sid. by eapply Hel. }
    destruct (bool_decide (k_type kind = "Lab")).
    { destruct (eligible_sections cat course) as [l|] eqn:Hl; [|done].
      injection H as <-.
      destruct (lab_groups_ids _ _ _ _ Ht Hsid) as (s & Hs & <-).
      by eapply Hel. }
    injection H as <-. by apply elem_of_nil in Ht.
Qed.

(** *** The counters of the search *)

Lemma place_counters st a :
  attempts (_place_assignment st a) = attempts st
  ∧ backtracks (_place_assignment st a) = backtracks st.
Proof.
  unfold _place_assignment. split.
  - rewrite (foldl_proj attempts (place_resources a) (fun n _ => n)), foldl_keep.
    2:{ intros s q. unfold place_resources. by case_bool_decide. }
    rewrite (foldl_proj attempts (place_section a) (fun n _ => n)), foldl_keep;
      [done|].
    intros s sid. unfold place_section.
    rewrite (foldl_proj attempts _ (fun n _ => n)), foldl_keep by done.
    by rewrite (foldl_proj attempts _ (fun n _ => n)), foldl_keep.
  - rewrite (foldl_proj backtracks (place_resources a) (fun n _ => n)),
      foldl_keep.
    2:{ intros s q. unfold place_resources. by case_bool_decide. }
    rewrite (foldl_proj backtracks (place_section a) (fun n _ => n)), foldl_keep;
      [done|].
    intros s sid. unfold place_section.
    rewrite (foldl_proj backtracks _ (fun n _ => n)), foldl_keep by done.
    by rewrite (foldl_proj backtracks _ (fun n _ => n)), foldl_keep.
Qed.

Lemma remove_counters st a :
  attempts (_remove_assignment st a) = attempts st
  ∧ backtracks (_remove_assignment st a) = backtracks st.
Proof.
  unfold _remove_assignment. split.
  - rewrite (foldl_proj attempts (remove_resources a) (fun n _ => n)),
      foldl_keep.
    2:{ intros s q. unfold remove_resources. by case_bool_decide. }
    rewrite (foldl_proj attempts (remove_section a) (fun n _ => n)), foldl_keep;
      [done|].
    intros s sid. unfold remove_section.
    rewrite (foldl_proj attempts _ (fun n _ => n)), foldl_keep by done.
    rewrite (foldl_proj attempts _ (fun n _ => n)), foldl_keep; [done|].
    intros s' q. by destruct (dict_mem _ _).
  - rewrite (foldl_proj backtracks (remove_resources a) (fun n _ => n)),
      foldl_keep.
    2:{ intros s q. unfold remove_resources. by case_bool_decide. }
    rewrite (foldl_proj backtracks (remove_section a) (fun n _ => n)),
      foldl_keep; [done|].
    intros s sid. unfold remove_section.
    rewrite (foldl_proj backtracks _ (fun n _ => n)), foldl_keep by done.
    rewrite (foldl_proj backtracks _ (fun n _ => n)), foldl_keep; [done|].
    intros s' q. by destruct (dict_mem _ _).
Qed.

Lemma try_candidates_counts recurse course kind target dur cands st b st' :
  (∀ s b s', recurse s = Returns b s' → counters_grow s s') →
  try_candidates recurse course kind target dur cands st = Returns b st' →
  counters_grow st st'.
Proof.
  intros Hrec. revert st.
  induction cands as [|[[[d p] instr] room] cands IH]; intros st Htry.
  - simpl in Htry. injection Htry as _ <-. unfold counters_grow. lia.
  - rewrite try_candidates_cons in Htry.
    destruct (_is_valid_assignment _ _ _ _ _ _ _).
    + destruct (recurse _) as [| |b2 st2] eqn:Hr in Htry; try discriminate.
      apply Hrec in Hr. unfold counters_grow in Hr.
      destruct (place_counters (count_attempt st)
                  (make_assignment course kind target dur (d, p, instr, room)))
        as [Ha Hb].
      rewrite Ha, Hb in Hr. simpl in Hr. destruct b2.
      * injection Htry as _ <-. unfold counters_grow. lia.
      * apply IH in Htry. unfold counters_grow in *.
        destruct (remove_counters (count_backtrack st2)
                    (make_assignment course kind target dur
                       (d, p, instr, room))) as [Ha' Hb'].
        rewrite Ha', Hb' in Htry. simpl in Htry. lia.
    + apply IH in Htry. unfold counters_grow in *. simpl in Htry. lia.
Qed.

Lemma schedule_session_counts recurse cat course kind target st b st' :
  (∀ s b s', recurse s = Returns b s' → counters_grow s s') →
  schedule_session recurse cat course kind target st = Returns b st' →
  counters_grow st st'.
Proof.
  intros Hrec. unfold schedule_session. intros H.
  assert (counters_grow st st) as Hrefl by (unfold counters_grow; lia).
  destruct (students_of cat target) as [students|]; [|done].
  destruct (_get_qualified_instructors _ _ _) as [|i0 q0];
    [by injection H as _ <-|].
  destruct (session_rooms _ _ _ _) as [|r0 rs0]; [by injection H as _ <-|].
  by eapply try_candidates_counts.
Qed.

Lemma solve_by_course_counts cat rest st b st' :
  solve_by_course cat rest st = Returns b st' → counters_grow st st'.
Proof.
  revert st b st'.
  induction rest as [|[[course kind] target] rest IH]; intros st b st' H;
    simpl in H.
  - injection H as _ <-. unfold counters_grow. lia.
  - destruct (already_scheduled st course kind target); [by eapply IH|].
    eapply schedule_session_counts; [|exact H]. apply IH.
Qed.

Lemma solve_by_section_counts fuel cat idx st b st' :
  solve_by_section fuel cat idx st = Returns b st' → counters_grow st st'.
Proof.
  revert idx st b st'.
  induction fuel as [|fuel IH]; intros idx st b st' H; simpl in H; [done|].
  destruct (all_sections cat !! idx) as [section|].
  2:{ injection H as _ <-. unfold counters_grow. lia. }
  destruct (section_courses cat section) as [eligible|]; [|done].
  destruct (forallb _ eligible); [by eapply IH|].
  destruct (pending_course cat st section eligible) as [| |course kind target];
    [done|by eapply IH|].
  destruct (already_scheduled st course kind target).
  - apply IH in H. exact H.
  - eapply schedule_session_counts; [|exact H]. intros s b' s'. apply IH.
Qed.

(** X26.  The counters that a run reports, whether it succeeds or fails,
    satisfy [0 ≤ backtracks ≤ attempts]: every backtrack undoes a placement
    that one attempt made. *)
Theorem reported_counters_are_consistent fuel cat strategy att bt :
  (∃ n schedule,
     schedule_timetable fuel cat strategy = Some (Success n schedule att bt))
  ∨ schedule_timetable fuel cat strategy = Some (Failed att bt) →
  0 ≤ bt ≤ att.
Proof.
  unfold schedule_timetable. intros H.
  destruct (if bool_decide (strategy = "section") then _ else _)
    as [| |b st] eqn:Hout.
  - by destruct H as [(? & ? & ?)|?].
  - by destruct H as [(? & ? & ?)|?].
  - assert (counters_grow initial_state st) as (Ha & Hb & Hab).
    { case_bool_decide.
      - by eapply solve_by_section_counts.
      - destruct (_get_all_sessions_to_schedule cat) as [sessions|]; [|done].
        by eapply solve_by_course_counts. }
    simpl in Ha, Hb, Hab.
    assert (att = attempts st ∧ bt = backtracks st) as [-> ->]; [|lia].
    destruct b.
    + unfold _extract_solution in H.
      destruct (extract_items cat (timetable st) []) as [sch|];
        destruct H as [(n & schedule & H)|H]; try done.
      by injection H as _ _ <- <-.
    + destruct H as [(n & schedule & H)|H]; [done|]. by injection H as <- <-.
Qed.

(** X27.  When the group of the first section is not in the catalog and
    there is at least one course, the section strategy ends with the error
    result: the lookup of the group raises before anything is placed. *)
Theorem section_without_group_is_an_error fuel cat s :
  all_sections cat !! 0%nat = Some s →
  (∀ g, g ∈ groups cat → group_id g ≠ s_group_id s) →
  courses cat ≠ [] →
  schedule_timetable (S fuel) cat "section" = Some Error.
Proof.
  intros Hs Hg Hc. unfold schedule_timetable. simpl. rewrite Hs.
  assert (group_by_id cat !! s_group_id s = None) as Hnone.
  { destruct (group_by_id cat !! s_group_id s) as [g|] eqn:Hl; [|done].
    apply (index_by_found group_id) in Hl as [Hin Hid]. by destruct (Hg g). }
  unfold section_courses. rewrite Hnone.
  by destruct (courses cat).
Qed.

(** *** The Lecture sessions of the course strategy *)

Lemma all_sessions_hold cat all c k :
  _get_all_sessions_to_schedule cat = Some all →
  c ∈ courses cat → k ∈ kinds c →
  ∃ l, sessions_of_kind cat c k = Some l ∧ ∀ x, x ∈ l → x ∈ all.
Proof.
  unfold _get_all_sessions_to_schedule.
  destruct (mapM _ (courses cat)) as [per_course|] eqn:Hm; [|done].
  intros [= <-] Hc Hk.
  destruct (mapM_Some_elem _ _ _ _ Hm Hc) as (lc & Hlc & Hsc).
  unfold sessions_of_course in Hsc.
  destruct (mapM _ (kinds c)) as [per_kind|] eqn:Hm'; [|done].
  injection Hsc as <-.
  destruct (mapM_Some_elem _ _ _ _ Hm' Hk) as (l & Hl & Hsk).
  exists l. split; [done|]. intros x Hx.
  apply elem_of_concat. exists (concat per_kind). split; [done|].
  apply elem_of_concat. by exists l.
Qed.

Lemma lecture_sessions_of_kind cat course kind ref :
  is_project course = false → full_year course = false →
  k_type kind = "Lecture" →
  all_sections cat !! 0%nat = Some ref →
  sessions_of_kind cat course kind
  = Some ((fun g => (course, kind,
                     section_id <$> sections_by_group cat (group_id g)))
            <$> List.filter
                  (fun g => bool_decide (g_year g = c_year course)
                            && match major course with
                               | None => true
                               | Some m => bool_decide (specialization g = Some m)
                               end)
                  (groups cat)).
Proof.
  intros Hp Hf Ht Hr. unfold sessions_of_kind, _get_target_sections.
  rewrite Hr, Hp, Hf, Ht. simpl. by rewrite <- list_fmap_compose.
Qed.

Lemma course_run_entry cat all st schedule course kind target sid :
  (∀ c k t, (c, k, t) ∈ all → 45 ≤ k_length k) →
  solve_by_course cat all initial_state = Returns true st →
  extract_items cat (timetable st) [] = Some schedule →
  (course, kind, target) ∈ all → sid ∈ target →
  ∃ e, e ∈ schedule ∧ e_section_id e = sid
       ∧ e_course_id e = course_id course ∧ e_type e = k_type kind.
Proof.
  intros Hlen Hsolve Hex Hin Hsid.
  assert (marked st sid (course_id course, k_type kind)) as Hm.
  { eapply solve_by_course_marks; [exact Hsolve|].
    by exists course, kind, target. }
  assert (marks_on_board st) as Hmb.
  { eapply solve_by_course_marks_on_board; [exact Hlen| |exact Hsolve].
    intros sid' x Hx. unfold marked, scheduled_for in Hx. simpl in Hx.
    rewrite lookup_empty in Hx. simpl in Hx. set_solver. }
  destruct (Hmb _ _ Hm) as ([[sid0 d] p] & a & Ha & Hx & Hsa).
  injection Hx as Hc Ht.
  destruct (extract_items_complete _ _ _ _ _ _ _ _ _ Hex Ha Hsa)
    as (e & p' & a' & He & Hent & Hc' & Ht' & _).
  { intros Hno. by apply elem_of_nil in Hno. }
  apply entry_of_fields in Hent as (Hce & Hte & Hse & _).
  exists e. split_and!; [done..|congruence|congruence].
Qed.

End BtFacts.

(** ** Properties that span both schedulers *)

(** C2, as the code has it.  In the constraint model a Lecture kind of a
    course that is not a project yields one instance per eligible group
    (same year; no major, or the group's specialization), with
    [sessions_per_week] defaulting to 2; the model repeats each instance
    that many times; and a schedule that [build_and_solve] returns has
    exactly one entry per occurrence, in order.  The backtracking scheduler
    has no [sessions_per_week]: when the catalog has a first section, a
    Lecture kind of a course that is neither a project nor full-year
    contributes to the list of sessions exactly one session per eligible
    group, in the order of the groups, whose target is the sections of the
    group; and when every kind lasts at least 45 minutes, a successful run
    of the course strategy has, for every such kind and group and every
    section of the group, an entry of that section with the id of the
    course and the type Lecture. *)
Theorem lecture_occurrences_scheduled :
  (∀ cp_solve course groups sections kind,
     CpModel.c_is_project course = false →
     CpModel.k_type kind = Some "Lecture" →
     CpModel.instances_of_kind course groups sections kind
       = CpModel.lecture_instance course kind
           <$> List.filter (CpModel.eligible_group course) groups
     ∧ (∀ g, CpModel.eligible_group course g = true
             ↔ CpModel.g_year g = CpModel.c_year course
               ∧ (CpModel.c_major course = None
                  ∨ CpModel.g_specialization g = CpModel.c_major course))
     ∧ (∀ g, CpModel.occurrences_of [CpModel.lecture_instance course kind g]
             = (fun k => {| CpModel.o_instance :=
                              CpModel.lecture_instance course kind g;
                            CpModel.o_occ := k |})
                 <$> range 0 (default 2 (CpModel.k_sessions_per_week kind)))
     ∧ (∀ data params status n schedule,
          CpModel.build_and_solve cp_solve data params
            = Some (CpModel.Scheduled status n schedule) →
          Forall2 CpModel.entry_matches schedule
            (CpModel.occurrences_of (CpModel.instances data))
          ∧ n = length (CpModel.occurrences_of (CpModel.instances data))))
  ∧ (∀ cat course kind ref,
       Backtracking.is_project course = false →
       Backtracking.full_year course = false →
       Backtracking.k_type kind = "Lecture" →
       Backtracking.all_sections cat !! 0%nat = Some ref →
       ∃ eligible : Backtracking.Group → bool,
         (∀ g, eligible g = true
               ↔ Backtracking.g_year g = Backtracking.c_year course
                 ∧ (Backtracking.major course = None
                    ∨ Backtracking.specialization g
                      = Backtracking.major course))
         ∧ Backtracking.sessions_of_kind cat course kind
           = Some ((fun g =>
                      (course, kind,
                       Backtracking.section_id
                         <$> Backtracking.sections_by_group cat
                               (Backtracking.group_id g)))
                     <$> List.filter eligible (Backtracking.groups cat)))
  ∧ (∀ fuel cat strategy n schedule att bt course kind g s,
       strategy ≠ "section" →
       (∀ c k, c ∈ Backtracking.courses cat → k ∈ Backtracking.kinds c →
               45 ≤ Backtracking.k_length k) →
       Backtracking.schedule_timetable fuel cat strategy
         = Some (Backtracking.Success n schedule att bt) →
       course ∈ Backtracking.courses cat →
       kind ∈ Backtracking.kinds course →
       Backtracking.is_project course = false →
       Backtracking.full_year course = false →
       Backtracking.k_type kind = "Lecture" →
       g ∈ Backtracking.groups cat →
       Backtracking.g_year g = Backtracking.c_year course →
       Backtracking.major course = None
       ∨ Backtracking.specialization g = Backtracking.major course →
       s ∈ Backtracking.all_sections cat →
       Backtracking.s_group_id s = Backtracking.group_id g →
       ∃ e, e ∈ schedule
            ∧ Backtracking.e_section_id e = Backtracking.section_id s
            ∧ Backtracking.e_course_id e = Backtracking.course_id course
            ∧ Backtracking.e_type e = "Lecture").
Proof.
  assert (∀ course g,
            bool_decide (Backtracking.g_year g = Backtracking.c_year course)
            && match Backtracking.major course with
               | None => true
               | Some m => bool_decide (Backtracking.specialization g = Some m)
               end = true
            ↔ Backtracking.g_year g = Backtracking.c_year course
              ∧ (Backtracking.major course = None
                 ∨ Backtracking.specialization g = Backtracking.major course))
    as Helig.
  { intros course g. rewrite andb_true_iff, bool_decide_eq_true.
    destruct (Backtracking.major course) as [m|];
      [rewrite bool_decide_eq_true|]; intuition (auto; congruence). }
  split; [|split].
  - intros cp_solve course groups sections kind.
    apply CpFacts.cp_lecture_occurrences.
  - intros cat course kind ref Hp Hf Ht Hr. eexists. split; [apply Helig|].
    by eapply BtFacts.lecture_sessions_of_kind.
  - intros fuel cat strategy n schedule att bt course kind g s Hstrat Hlen H
      Hc Hk Hp Hf Ht Hg Hy Hm Hs Hsg.
    unfold Backtracking.schedule_timetable in H.
    rewrite (bool_decide_eq_false_2 (strategy = "section")) in H by done.
    destruct (Backtracking._get_all_sessions_to_schedule cat) as [all|]
      eqn:Hall; [|done].
    destruct (Backtracking.solve_by_course cat all Backtracking.initial_state)
      as [| |[|] st] eqn:Hsolve; try done.
    unfold Backtracking._extract_solution in H.
    destruct (Backtracking.extract_items cat (Backtracking.timetable st) [])
      as [sch|] eqn:Hex; [|done].
    injection H as _ <- _ _.
    destruct (BtFacts.all_sessions_hold _ _ _ _ Hall Hc Hk) as (l & Hl & Hsub).
    assert (is_Some (Backtracking.all_sections cat !! 0%nat)) as [ref Hr].
    { apply lookup_lt_is_Some. apply list_elem_of_lookup in Hs as [i Hi].
      apply lookup_lt_Some in Hi. lia. }
    rewrite (BtFacts.lecture_sessions_of_kind _ _ _ _ Hp Hf Ht Hr) in Hl.
    injection Hl as <-. rewrite <- Ht.
    eapply (BtFacts.course_run_entry cat all st sch course kind
              (Backtracking.section_id
                 <$> Backtracking.sections_by_group cat
                       (Backtracking.group_id g))).
    + intros c k t Hin. destruct (BtFacts.all_sessions_src _ _ _ _ _ Hall Hin).
      by apply (Hlen c k).
    + exact Hsolve.
    + exact Hex.
    + apply Hsub. apply list_elem_of_fmap. exists g. split; [done|].
      apply elem_of_bfilter. split; [|done]. by apply Helig.
    + apply list_elem_of_fmap. exists s. split; [done|].
      by apply BtFacts.elem_of_sections_by_group.
Qed.

(** C6, as the code has it.  In a model built after a clean pre-check,
    every index in the room domain of an occurrence is a room whose type the
    table of the specification admits for the session type of the
    occurrence; every room that the backtracking scheduler finds suitable
    for a session type is a room of the catalogue with an admitted type; and
    the room list the backtracking search iterates over is that list of
    suitable rooms, except for a project course, which gets the placeholder
    "N/A" and no room. *)
Theorem room_domains_admissible :
  (∀ data params m x idx,
     CpModel.quick_feasibility_checks data params = Some [] →
     CpModel.build_model data params = Some m →
     x ∈ CpModel.m_vars m → idx ∈ CpModel.v_rooms x →
     ∃ r, CpModel.rooms data !! idx = Some r
          ∧ spec_admissible_room_type
              (CpModel.i_type (CpModel.o_instance (CpModel.v_occ x)))
              (CpModel.lab_type (CpModel.o_instance (CpModel.v_occ x)))
              (CpModel.r_type r))
  ∧ (∀ cat stype n lab ic rid,
       rid ∈ Backtracking._get_suitable_rooms cat stype n lab ic →
       ∃ room, room ∈ Backtracking.rooms cat
               ∧ Backtracking.room_id room = rid
               ∧ spec_admissible_room_type stype lab (Backtracking.r_type room))
  ∧ (∀ cat course kind students rid,
       rid ∈ Backtracking.session_rooms cat course kind students →
       (Backtracking.is_project course = true ∧ rid = "N/A")
       ∨ ∃ room, room ∈ Backtracking.rooms cat
                 ∧ Backtracking.room_id room = rid
                 ∧ spec_admissible_room_type (Backtracking.k_type kind)
                     (Backtracking.k_lab_type kind) (Backtracking.r_type room)).
Proof.
  split_and!.
  - intros data params m x idx Hq Hm Hx Hidx.
    destruct (CpFacts.model_room_domain _ _ _ _ _ Hq Hm Hx Hidx)
      as (r & Hr & Hok & Hlab).
    exists r. split; [done|]. by apply CpFacts.build_room_ok_admissible.
  - intros cat stype n lab ic rid Hin.
    apply BtFacts.suitable_rooms_spec in Hin as (room & Hroom & Hid & Hs).
    exists room. split_and!; [done..|].
    by eapply BtFacts.room_suits_admissible.
  - intros cat course kind students rid. unfold Backtracking.session_rooms.
    destruct (Backtracking.is_project course).
    + intros Hin. apply list_elem_of_singleton in Hin. by left.
    + intros Hin. right.
      apply BtFacts.suitable_rooms_spec in Hin as (room & Hroom & Hid & Hs).
      exists room. split_and!; [done..|].
      by eapply BtFacts.room_suits_admissible.
Qed.

(** C7, as the code has it.  The constraint model keeps only rooms that
    hold the expected students and never reads [ignore_capacity]; the
    backtracking scheduler keeps only rooms that hold the students unless
    [ignore_capacity] is set, and then the student count plays no part in the
    choice of rooms; the room list of its search is that list, or the
    placeholder "N/A" for a project course. *)
Theorem room_domains_capacity :
  (∀ data params m x idx r,
     CpModel.quick_feasibility_checks data params = Some [] →
     CpModel.build_model data params = Some m →
     x ∈ CpModel.m_vars m → idx ∈ CpModel.v_rooms x →
     CpModel.rooms data !! idx = Some r →
     0 ≤ default 0 (CpModel.r_capacity r) →
     CpModel.expected_students (CpModel.o_instance (CpModel.v_occ x))
       ≤ default 0 (CpModel.r_capacity r))
  ∧ (∀ cat stype n lab rid,
       rid ∈ Backtracking._get_suitable_rooms cat stype n lab false →
       ∃ room, room ∈ Backtracking.rooms cat
               ∧ Backtracking.room_id room = rid
               ∧ n ≤ Backtracking.capacity room)
  ∧ (∀ cat stype n n' lab,
       Backtracking._get_suitable_rooms cat stype n lab true
       = Backtracking._get_suitable_rooms cat stype n' lab true)
  ∧ (∀ cat course kind students rid,
       Backtracking.ignore_capacity kind = false →
       rid ∈ Backtracking.session_rooms cat course kind students →
       (Backtracking.is_project course = true ∧ rid = "N/A")
       ∨ ∃ room, room ∈ Backtracking.rooms cat
                 ∧ Backtracking.room_id room = rid
                 ∧ students ≤ Backtracking.capacity room).
Proof.
  split_and!.
  - intros data params m x idx r Hq Hm Hx Hidx Hr Hcap.
    destruct (CpFacts.model_room_domain _ _ _ _ _ Hq Hm Hx Hidx)
      as (r' & Hr' & Hok & _).
    rewrite Hr in Hr'. simplify_eq.
    by apply CpFacts.build_room_ok_capacity.
  - intros cat stype n lab rid Hin.
    apply BtFacts.suitable_rooms_spec in Hin as (room & Hroom & Hid & Hs).
    exists room. split_and!; [done..|].
    by eapply BtFacts.room_suits_capacity.
  - apply BtFacts.suitable_rooms_ignore_capacity.
  - intros cat course kind students rid Hic. unfold Backtracking.session_rooms.
    destruct (Backtracking.is_project course).
    + intros Hin. apply list_elem_of_singleton in Hin. by left.
    + rewrite Hic. intros Hin. right.
      apply BtFacts.suitable_rooms_spec in Hin as (room & Hroom & Hid & Hs).
      exists room. split_and!; [done..|].
      by eapply BtFacts.room_suits_capacity.
Qed.

Lemma valid_starts_spec total spd needed starts s :
  CpModel.valid_starts total spd needed = Some starts →
  s ∈ starts →
  0 ≤ s ≤ total - needed ∧ s / spd = (s + needed - 1) / spd.
Proof.
  unfold CpModel.valid_starts. intros H Hs.
  case_decide; simplify_eq.
  apply elem_of_bfilter in Hs as [Heq Hr]. apply elem_of_range in Hr.
  apply Z.eqb_eq in Heq. lia.
Qed.

(** A start in the start domain of the constraint model, for [S > 0]
    slots per day, lies in the same day as the last slot of the occurrence,
    and the interval it opens stays inside that day; an assignment that the
    backtracking scheduler accepts at period [p ≥ 0] of day [d] ends by the
    last period of the day, so its interval, counted from the start of the
    week, stays inside day [d], and for a length of at least one slot its
    first and last slot have the same day number; and every entry of a
    schedule that the backtracking scheduler returns runs from its start
    period to its end period within the periods 1 to [PERIODS_PER_DAY] of
    its day. *)
Theorem starts_stay_within_one_day :
  (∀ total S l starts s,
     0 < S →
     CpModel.valid_starts total S l = Some starts → s ∈ starts →
     s / S = (s + l - 1) / S
     ∧ S * (s / S) ≤ s ∧ s + l ≤ S * (s / S + 1))
  ∧ (∀ st secs d p dur instr room,
       0 ≤ p →
       Backtracking._is_valid_assignment st secs d p dur instr room = true →
       let S := Backtracking.PERIODS_PER_DAY in
       let s := d * S + p in
       S * d ≤ s ∧ s + dur ≤ S * (d + 1)
       ∧ (1 ≤ dur → s / S = d ∧ (s + dur - 1) / S = d))
  ∧ (∀ fuel cat strategy n schedule att bt e,
       Backtracking.schedule_timetable fuel cat strategy
         = Some (Backtracking.Success n schedule att bt) →
       e ∈ schedule →
       1 ≤ Backtracking.e_start_period e
       ∧ Backtracking.e_start_period e ≤ Backtracking.e_end_period e
       ∧ Backtracking.e_end_period e ≤ Backtracking.PERIODS_PER_DAY
       ∧ Backtracking.e_end_period e
         = Backtracking.e_start_period e + Backtracking.e_duration_periods e - 1).
Proof.
  split_and!.
  - intros total S l starts s HS Hv Hs.
    destruct (valid_starts_spec _ _ _ _ _ Hv Hs) as [_ Heq].
    split; [done|].
    pose proof (Z.mul_div_le s S HS).
    pose proof (Z.mul_succ_div_gt (s + l - 1) S HS).
    rewrite <- Heq in *. lia.
  - intros st secs d p dur instr room Hp Hvalid S s.
    apply BtFacts.valid_assignment_elim in Hvalid as (_ & Hbound & _).
    subst S s. change Backtracking.PERIODS_PER_DAY with 8 in *.
    split_and!; [lia..|].
    intros Hdur. split.
    + rewrite Z.add_comm, Z.div_add by lia. rewrite Z.div_small; lia.
    + replace (d * 8 + p + dur - 1) with ((p + dur - 1) + d * 8) by lia.
      rewrite Z.div_add by lia. rewrite Z.div_small; lia.
  - intros fuel cat strategy n schedule att bt e H He.
    destruct (BtFacts.schedule_entries_placed _ _ _ _ _ _ _ H)
      as (t & [_ Hok] & Hent).
    destruct (Hent _ He) as (k & a & Ha & Hdur & _ & _ & Hs & Hend & Hdp & _).
    destruct (Hok _ _ Ha) as ((_ & Hp & Hbound & _) & _).
    unfold Backtracking.PERIODS_PER_DAY in *. lia.
Qed.

(** C4, as the code has it.  The backtracking scheduler accepts an
    assignment of exactly two periods only at an even period, and every
    entry of two periods in a schedule it returns starts at an even period
    counted from 0 (an odd 1-based start period), which the entry reports as
    "Even". *)
Theorem two_period_sessions_start_even :
  (∀ st secs d p instr room,
     Backtracking._is_valid_assignment st secs d p 2 instr room = true →
     p mod 2 = 0)
  ∧ (∀ fuel cat strategy n schedule att bt e,
       Backtracking.schedule_timetable fuel cat strategy
         = Some (Backtracking.Success n schedule att bt) →
       e ∈ schedule →
       Backtracking.e_duration_periods e = 2 →
       (Backtracking.e_start_period e - 1) mod 2 = 0
       ∧ Backtracking.e_period_alignment e = "Even").
Proof.
  split.
  - intros st secs d p instr room Hvalid.
    apply BtFacts.valid_assignment_elim in Hvalid as (Halign & _).
    by apply Halign.
  - intros fuel cat strategy n schedule att bt e H He Hdur.
    destruct (BtFacts.schedule_entries_placed _ _ _ _ _ _ _ H)
      as (t & [_ Hok] & Hent).
    destruct (Hent _ He)
      as (k & a & Ha & _ & _ & _ & Hs & _ & Hd & _ & _ & Hal).
    destruct (Hok _ _ Ha) as ((_ & _ & _ & Halign) & _).
    rewrite Hd in Hdur. specialize (Halign Hdur). split.
    + rewrite Hs. by replace (Backtracking.period a + 1 - 1)
        with (Backtracking.period a) by lia.
    + rewrite Hal. unfold Backtracking.period_alignment.
      by rewrite Hdur, Halign.
Qed.

(** ** Inputs on which one scheduler leaves the specification *)

(** C4: the start domain of the constraint model offers slot 1 to an
    occurrence of two slots, and the backtracking scheduler accepts an
    assignment of three periods at period 1. *)
Lemma starts_need_not_be_even :
  ¬ (∀ total S l starts s,
       2 ≤ l → CpModel.valid_starts total S l = Some starts → s ∈ starts →
       s mod 2 = 0)
  ∧ ¬ (∀ st secs d p dur instr room,
         2 ≤ dur →
         Backtracking._is_valid_assignment st secs d p dur instr room = true →
         p mod 2 = 0).
Proof.
  split.
  - intros H.
    destruct (CpModel.valid_starts 40 8 2) as [starts|] eqn:Hv;
      [|by vm_compute in Hv].
    assert (1 ∈ starts) as Hin.
    { vm_compute in Hv. injection Hv as <-. right. by left. }
    by specialize (H 40 8 2 starts 1 ltac:(lia) Hv Hin).
  - intros H.
    by specialize (H Backtracking.initial_state ["S1"] 0 1 3 "P1" "R1"
                     ltac:(lia) eq_refl).
Qed.

(** C2: the document with one 90-minute Lecture and no declared
    [sessions_per_week] gives the constraint model two occurrences, while
    either strategy of the backtracking scheduler succeeds with a schedule
    of a single Lecture entry. *)
Lemma backtracker_schedules_one_lecture :
  length (CpModel.occurrences_of
            (CpModel.generate_instances [Scenarios.Cp.one_lecture]
               [Scenarios.Cp.G1] [Scenarios.Cp.S1])) = 2%nat
  ∧ (∃ sessions,
       Backtracking._get_all_sessions_to_schedule Scenarios.Bt.one_lecture
         = Some sessions ∧ length sessions = 1%nat)
  ∧ ∀ strategy, strategy ∈ ["section"; "course"] →
      ∃ e attempts backtracks,
        Backtracking.schedule_timetable 5 Scenarios.Bt.one_lecture strategy
          = Some (Backtracking.Success 1 [e] attempts backtracks)
        ∧ Backtracking.e_type e = "Lecture".
Proof.
  split; [by vm_compute|]. split.
  - eexists. split; [by vm_compute|]. done.
  - intros strategy Hin.
    apply elem_of_cons in Hin as [->|Hin];
      [|apply list_elem_of_singleton in Hin as ->];
      eexists _, _, _; (split; [by vm_compute|done]).
Qed.


(** C6: for a project course the course-by-course search iterates over the
    one-element room list ["N/A"], and the Lecture entry of the returned
    schedule carries "N/A" as its room and room type, which the table does
    not admit for a Lecture. *)
Lemma backtracker_project_has_no_room :
  Backtracking.session_rooms Scenarios.Bt.one_project
    (Scenarios.Bt.project_of "C1" [Scenarios.Bt.lecture 90])
    (Scenarios.Bt.lecture 90) 20 = ["N/A"]
  ∧ (∃ e attempts backtracks,
       Backtracking.schedule_timetable 5 Scenarios.Bt.one_project "course"
         = Some (Backtracking.Success 1 [e] attempts backtracks)
       ∧ Backtracking.e_type e = "Lecture"
       ∧ Backtracking.e_room_id e = "N/A"
       ∧ Backtracking.e_room_type e = "N/A")
  ∧ ¬ spec_admissible_room_type "Lecture" None "N/A".
Proof.
  split_and!.
  - reflexivity.
  - eexists _, _, _. split; [by vm_compute|done].
  - intros (Hlec & _). specialize (Hlec eq_refl).
    repeat (apply elem_of_cons in Hlec as [Hlec|Hlec]; [discriminate|]).
    by apply elem_of_nil in Hlec.
Qed.

(** What the backtracking scheduler does with a graduation project: the
    course-by-course strategy places it for the declared length with a
    qualified instructor, and the section-by-section strategy leaves it out
    of the schedule. *)
Lemma backtracker_project_session :
  (∃ e attempts backtracks,
     Backtracking.schedule_timetable 5 Scenarios.Bt.one_project "course"
       = Some (Backtracking.Success 1 [e] attempts backtracks)
     ∧ Backtracking.e_instructor_id e = "P1"
     ∧ Backtracking.e_duration_minutes e = 90)
  ∧ Backtracking.schedule_timetable 5 Scenarios.Bt.one_project "section"
    = Some (Backtracking.Success 0 [] 0 0).
Proof.
  split; [|by vm_compute].
  eexists _, _, _. split; [by vm_compute|done].
Qed.

(** ** The theorems at work on the worked inputs *)

Lemma precheck_makes_fallback_unreachable_witness :
  CpModel.room_candidates (CpModel.rooms Scenarios.Cp.clash_data)
    (CpModel.lecture_instance Scenarios.Cp.lecture_and_tut
       (Scenarios.Cp.kind_of "Lecture" 90 None false) Scenarios.Cp.G1) ≠ []
  ∧ CpModel.room_domain (CpModel.rooms Scenarios.Cp.clash_data)
      (CpModel.lecture_instance Scenarios.Cp.lecture_and_tut
         (Scenarios.Cp.kind_of "Lecture" 90 None false) Scenarios.Cp.G1)
    = CpModel.room_candidates (CpModel.rooms Scenarios.Cp.clash_data)
        (CpModel.lecture_instance Scenarios.Cp.lecture_and_tut
           (Scenarios.Cp.kind_of "Lecture" 90 None false) Scenarios.Cp.G1).
Proof.
  apply (CpFacts.precheck_makes_fallback_unreachable Scenarios.Cp.clash_data
           Scenarios.Cp.std_params
           {| CpModel.o_instance :=
                CpModel.lecture_instance Scenarios.Cp.lecture_and_tut
                  (Scenarios.Cp.kind_of "Lecture" 90 None false) Scenarios.Cp.G1;
              CpModel.o_occ := 0 |}).
  - vm_compute. reflexivity.
  - vm_compute. left.
Defined.


Lemma lecture_occurrences_scheduled_witness :
  CpModel.instances_of_kind Scenarios.Cp.one_lecture [Scenarios.Cp.G1]
    [Scenarios.Cp.S1] (Scenarios.Cp.kind_of "Lecture" 90 None false)
  = CpModel.lecture_instance Scenarios.Cp.one_lecture
      (Scenarios.Cp.kind_of "Lecture" 90 None false)
    <$> List.filter (CpModel.eligible_group Scenarios.Cp.one_lecture)
          [Scenarios.Cp.G1]
  ∧ Backtracking.sessions_of_kind Scenarios.Bt.one_lecture
      (Scenarios.Bt.course_of "C1" [Scenarios.Bt.lecture 90])
      (Scenarios.Bt.lecture 90)
    = Some [(Scenarios.Bt.course_of "C1" [Scenarios.Bt.lecture 90],
             Scenarios.Bt.lecture 90, ["S1"])]
  ∧ ∃ n schedule att bt e,
      Backtracking.schedule_timetable 5 Scenarios.Bt.two_lectures "course"
        = Some (Backtracking.Success n schedule att bt)
      ∧ e ∈ schedule ∧ Backtracking.e_section_id e = "S1"
      ∧ Backtracking.e_course_id e = "C2"
      ∧ Backtracking.e_type e = "Lecture".
Proof.
  split; [|split].
  - refine (proj1 (proj1 lecture_occurrences_scheduled
                     (fun _ => (CpModel.FEASIBLE, Scenarios.Cp.clash_values))
                     Scenarios.Cp.one_lecture [Scenarios.Cp.G1]
                     [Scenarios.Cp.S1]
                     (Scenarios.Cp.kind_of "Lecture" 90 None false) _ _));
      reflexivity.
  - destruct (proj1 (proj2 lecture_occurrences_scheduled)
                Scenarios.Bt.one_lecture
                (Scenarios.Bt.course_of "C1" [Scenarios.Bt.lecture 90])
                (Scenarios.Bt.lecture 90) Scenarios.Bt.S1)
      as (eligible & Hel & Hsess); [reflexivity..|].
    rewrite Hsess. f_equal. simpl.
    destruct (eligible Scenarios.Bt.G1) eqn:Hg; [done|].
    assert (eligible Scenarios.Bt.G1 = true) as Ht; [|congruence].
    apply Hel. split; [reflexivity|by left].
  - destruct (Backtracking.schedule_timetable 5 Scenarios.Bt.two_lectures
                "course") as [[n schedule att bt| |]|] eqn:Hrun;
      try (by vm_compute in Hrun).
    destruct (proj2 (proj2 lecture_occurrences_scheduled) 5%nat
                Scenarios.Bt.two_lectures "course" n schedule att bt
                (Scenarios.Bt.course_of "C2" [Scenarios.Bt.lecture 90])
                (Scenarios.Bt.lecture 90) Scenarios.Bt.G1 Scenarios.Bt.S1)
      as (e & He & Hs & Hc & Ht).
    + discriminate.
    + intros c k Hc Hk. simpl in Hc.
      apply elem_of_cons in Hc as [->|Hc];
        [|apply list_elem_of_singleton in Hc as ->];
        apply list_elem_of_singleton in Hk as ->; simpl; lia.
    + exact Hrun.
    + right. left.
    + left.
    + reflexivity.
    + reflexivity.
    + reflexivity.
    + left.
    + reflexivity.
    + by left.
    + left.
    + reflexivity.
    + by exists n, schedule, att, bt, e.
Defined.

Lemma project_instances_witness :
  CpModel.instances_of_kind Scenarios.Cp.long_project [Scenarios.Cp.G1]
    [Scenarios.Cp.S1] (Scenarios.Cp.kind_of "Lecture" 450 None false)
  = CpModel.project_instance Scenarios.Cp.long_project
      (Scenarios.Cp.kind_of "Lecture" 450 None false)
    <$> List.filter (CpModel.eligible_group Scenarios.Cp.long_project)
          [Scenarios.Cp.G1].
Proof.
  refine (proj1 (CpFacts.project_instances Scenarios.Cp.long_project
                   [Scenarios.Cp.G1] [Scenarios.Cp.S1]
                   (Scenarios.Cp.kind_of "Lecture" 450 None false) _)).
  reflexivity.
Defined.

Lemma remove_undoes_place_witness :
  Backtracking.timetable
    (Backtracking._remove_assignment
       (Backtracking._place_assignment Backtracking.initial_state
          (Scenarios.Bt.lecture_at 0 2 2))
       (Scenarios.Bt.lecture_at 0 2 2))
  = Backtracking.timetable Backtracking.initial_state.
Proof.
  refine (proj1 (BtFacts.remove_undoes_place Backtracking.initial_state
                   (Scenarios.Bt.lecture_at 0 2 2) _)).
  vm_compute. reflexivity.
Defined.

Lemma two_period_sessions_start_even_witness :
  4 mod 2 = 0
  ∧ (Backtracking.e_start_period Scenarios.Bt.one_lecture_entry - 1) mod 2 = 0
  ∧ Backtracking.e_period_alignment Scenarios.Bt.one_lecture_entry = "Even".
Proof.
  split.
  - apply (proj1 two_period_sessions_start_even Backtracking.initial_state
             ["S1"] 1 4 "P1" "R1").
    vm_compute. reflexivity.
  - apply (proj2 two_period_sessions_start_even 5%nat Scenarios.Bt.one_lecture
             "course" 1%nat [Scenarios.Bt.one_lecture_entry] 1 0
             Scenarios.Bt.one_lecture_entry).
    + vm_compute. reflexivity.
    + left.
    + reflexivity.
Defined.

Lemma starts_stay_within_one_day_witness :
  (14 / 8 = (14 + 2 - 1) / 8 ∧ 8 * (14 / 8) ≤ 14 ∧ 14 + 2 ≤ 8 * (14 / 8 + 1))
  ∧ (8 * 3 ≤ 3 * 8 + 6 ∧ 3 * 8 + 6 + 2 ≤ 8 * (3 + 1)
     ∧ (1 ≤ 2 → (3 * 8 + 6) / 8 = 3 ∧ (3 * 8 + 6 + 2 - 1) / 8 = 3))
  ∧ (1 ≤ Backtracking.e_start_period Scenarios.Bt.one_lecture_entry
     ∧ Backtracking.e_start_period Scenarios.Bt.one_lecture_entry
       ≤ Backtracking.e_end_period Scenarios.Bt.one_lecture_entry
     ∧ Backtracking.e_end_period Scenarios.Bt.one_lecture_entry
       ≤ Backtracking.PERIODS_PER_DAY
     ∧ Backtracking.e_end_period Scenarios.Bt.one_lecture_entry
       = Backtracking.e_start_period Scenarios.Bt.one_lecture_entry
         + Backtracking.e_duration_periods Scenarios.Bt.one_lecture_entry - 1).
Proof.
  split; [|split].
  - destruct (CpModel.valid_starts 40 8 2) as [starts|] eqn:Hv;
      [|by vm_compute in Hv].
    apply (proj1 starts_stay_within_one_day 40 8 2 starts 14); [lia|done|].
    vm_compute in Hv. injection Hv as <-. do 13 right. left.
  - apply (proj1 (proj2 starts_stay_within_one_day) Backtracking.initial_state
             ["S1"] 3 6 2 "P1" "R1"); [lia|].
    vm_compute. reflexivity.
  - apply (proj2 (proj2 starts_stay_within_one_day) 5%nat
             Scenarios.Bt.one_lecture "section" 1%nat
             [Scenarios.Bt.one_lecture_entry] 1 0
             Scenarios.Bt.one_lecture_entry).
    + vm_compute. reflexivity.
    + left.
Defined.

Lemma room_domains_admissible_witness :
  (∃ r, CpModel.rooms Scenarios.Cp.clash_data !! 1%nat = Some r
        ∧ spec_admissible_room_type "Tut" None (CpModel.r_type r))
  ∧ (∃ room, room ∈ Backtracking.rooms Scenarios.Bt.one_lecture
             ∧ Backtracking.room_id room = "R1"
             ∧ spec_admissible_room_type "Lecture" None
                 (Backtracking.r_type room))
  ∧ ((Backtracking.is_project (Scenarios.Bt.course_of "C1" [Scenarios.Bt.lecture 90])
        = true ∧ "R1" = "N/A")
     ∨ ∃ room, room ∈ Backtracking.rooms Scenarios.Bt.one_lecture
               ∧ Backtracking.room_id room = "R1"
               ∧ spec_admissible_room_type "Lecture" None
                   (Backtracking.r_type room)).
Proof.
  split; [|split].
  - destruct (CpModel.build_model Scenarios.Cp.clash_data
                Scenarios.Cp.std_params) as [m|] eqn:Hm;
      [|by vm_compute in Hm].
    destruct (CpModel.m_vars m !! 2%nat) as [x|] eqn:Hx;
      [|vm_compute in Hm; injection Hm as <-; by vm_compute in Hx].
    assert (CpModel.v_rooms x = [0%nat; 1%nat]
            ∧ CpModel.i_type (CpModel.o_instance (CpModel.v_occ x)) = "Tut"
            ∧ CpModel.lab_type (CpModel.o_instance (CpModel.v_occ x)) = None)
      as (Hrooms & Hty & Hlab).
    { vm_compute in Hm. injection Hm as <-. vm_compute in Hx.
      injection Hx as <-. done. }
    rewrite <- Hty, <- Hlab.
    apply (proj1 room_domains_admissible Scenarios.Cp.clash_data
             Scenarios.Cp.std_params m x 1%nat).
    + vm_compute. reflexivity.
    + exact Hm.
    + apply list_elem_of_lookup. by exists 2%nat.
    + rewrite Hrooms. right. left.
  - apply (proj1 (proj2 room_domains_admissible) Scenarios.Bt.one_lecture
             "Lecture" 20 None false "R1").
    vm_compute. left.
  - apply (proj2 (proj2 room_domains_admissible) Scenarios.Bt.one_lecture
             (Scenarios.Bt.course_of "C1" [Scenarios.Bt.lecture 90])
             (Scenarios.Bt.lecture 90) 20 "R1").
    vm_compute. left.
Defined.

Lemma room_domains_capacity_witness :
  (∃ room, room ∈ Backtracking.rooms Scenarios.Bt.one_lecture
           ∧ Backtracking.room_id room = "R1"
           ∧ 20 ≤ Backtracking.capacity room)
  ∧ CpModel.expected_students
      (CpModel.tut_instance Scenarios.Cp.lecture_and_tut
         (Scenarios.Cp.kind_of "Tut" 45 None false) Scenarios.Cp.S1)
    ≤ 100.
Proof.
  split.
  - apply (proj1 (proj2 room_domains_capacity) Scenarios.Bt.one_lecture
             "Lecture" 20 None "R1").
    vm_compute. left.
  - destruct (CpModel.build_model Scenarios.Cp.clash_data
                Scenarios.Cp.std_params) as [m|] eqn:Hm;
      [|by vm_compute in Hm].
    destruct (CpModel.m_vars m !! 2%nat) as [x|] eqn:Hx;
      [|vm_compute in Hm; injection Hm as <-; by vm_compute in Hx].
    assert (CpModel.v_rooms x = [0%nat; 1%nat]
            ∧ CpModel.o_instance (CpModel.v_occ x)
              = CpModel.tut_instance Scenarios.Cp.lecture_and_tut
                  (Scenarios.Cp.kind_of "Tut" 45 None false) Scenarios.Cp.S1)
      as (Hrooms & Hinst).
    { vm_compute in Hm. injection Hm as <-. vm_compute in Hx.
      injection Hx as <-. done. }
    rewrite <- Hinst.
    apply (proj1 room_domains_capacity Scenarios.Cp.clash_data
             Scenarios.Cp.std_params m x 1%nat
             (Scenarios.Cp.classroom "R2" 100)).
    + vm_compute. reflexivity.
    + exact Hm.
    + apply list_elem_of_lookup. by exists 2%nat.
    + rewrite Hrooms. right. left.
    + reflexivity.
    + simpl. lia.
Defined.

(** ** The further properties of the constraint model on worked inputs *)

Lemma cp_rooms_never_double_booked_witness :
  ∃ m xi xj,
    CpModel.build_model Scenarios.Cp.clash_data Scenarios.Cp.std_params = Some m
    ∧ CpModel.m_vars m !! 0%nat = Some xi ∧ CpModel.m_vars m !! 1%nat = Some xj
    ∧ CpModel.v_needed xi = 2 ∧ CpModel.v_needed xj = 2
    ∧ (CpModel.val_start Scenarios.Cp.clash_values 0 + CpModel.v_needed xi
         ≤ CpModel.val_start Scenarios.Cp.clash_values 1
       ∨ CpModel.val_start Scenarios.Cp.clash_values 1 + CpModel.v_needed xj
         ≤ CpModel.val_start Scenarios.Cp.clash_values 0).
Proof.
  destruct (CpModel.build_model Scenarios.Cp.clash_data Scenarios.Cp.std_params)
    as [m|] eqn:Hm; [|by vm_compute in Hm].
  assert (CpModel.satisfies m Scenarios.Cp.clash_values = true) as Hs
    by (vm_compute in Hm; injection Hm as <-; by vm_compute).
  destruct (CpModel.m_vars m !! 0%nat) as [xi|] eqn:Hi;
    [|vm_compute in Hm; injection Hm as <-; by vm_compute in Hi].
  destruct (CpModel.m_vars m !! 1%nat) as [xj|] eqn:Hj;
    [|vm_compute in Hm; injection Hm as <-; by vm_compute in Hj].
  assert (CpModel.v_needed xi = 2 ∧ CpModel.v_needed xj = 2) as [Hni Hnj].
  { vm_compute in Hm. injection Hm as <-. vm_compute in Hi, Hj.
    injection Hi as <-. injection Hj as <-. done. }
  exists m, xi, xj. do 5 (split; [done|]).
  apply (CpFacts.cp_rooms_never_double_booked m Scenarios.Cp.clash_values
           0%nat 1%nat xi xj Hs); [done|exact Hi|exact Hj|reflexivity].
Defined.

Lemma cp_same_cohort_never_overlaps_witness :
  ∃ m xi xj,
    CpModel.build_model Scenarios.Cp.clash_data Scenarios.Cp.std_params = Some m
    ∧ CpModel.m_vars m !! 0%nat = Some xi ∧ CpModel.m_vars m !! 1%nat = Some xj
    ∧ CpModel.group_id (CpModel.o_instance (CpModel.v_occ xi)) = Some "G1"
    ∧ CpModel.group_id (CpModel.o_instance (CpModel.v_occ xj)) = Some "G1"
    ∧ (CpModel.val_start Scenarios.Cp.clash_values 0 + CpModel.v_needed xi
         ≤ CpModel.val_start Scenarios.Cp.clash_values 1
       ∨ CpModel.val_start Scenarios.Cp.clash_values 1 + CpModel.v_needed xj
         ≤ CpModel.val_start Scenarios.Cp.clash_values 0).
Proof.
  destruct (CpModel.build_model Scenarios.Cp.clash_data Scenarios.Cp.std_params)
    as [m|] eqn:Hm; [|by vm_compute in Hm].
  assert (CpModel.satisfies m Scenarios.Cp.clash_values = true) as Hs
    by (vm_compute in Hm; injection Hm as <-; by vm_compute).
  destruct (CpModel.m_vars m !! 0%nat) as [xi|] eqn:Hi;
    [|vm_compute in Hm; injection Hm as <-; by vm_compute in Hi].
  destruct (CpModel.m_vars m !! 1%nat) as [xj|] eqn:Hj;
    [|vm_compute in Hm; injection Hm as <-; by vm_compute in Hj].
  assert (CpModel.group_id (CpModel.o_instance (CpModel.v_occ xi)) = Some "G1"
          ∧ CpModel.group_id (CpModel.o_instance (CpModel.v_occ xj)) = Some "G1")
    as [Hgi Hgj].
  { vm_compute in Hm. injection Hm as <-. vm_compute in Hi, Hj.
    injection Hi as <-. injection Hj as <-. done. }
  exists m, xi, xj. do 5 (split; [done|]).
  apply (CpFacts.cp_same_cohort_never_overlaps m Scenarios.Cp.clash_values
           0%nat 1%nat xi xj Hs); [done|exact Hi|exact Hj|].
  left. exists "G1". split; [discriminate|]. by split.
Defined.

Lemma cp_solution_stays_in_its_day_witness :
  ∃ m x,
    CpModel.build_model Scenarios.Cp.clash_data Scenarios.Cp.std_params = Some m
    ∧ CpModel.m_vars m !! 1%nat = Some x
    ∧ CpModel.v_needed x = 2
    ∧ CpModel.val_day Scenarios.Cp.clash_values 1
      = CpModel.val_start Scenarios.Cp.clash_values 1 / 8
    ∧ 0 ≤ CpModel.val_day Scenarios.Cp.clash_values 1
        < Z.of_nat (length (CpModel.days Scenarios.Cp.std_params))
    ∧ 8 * CpModel.val_day Scenarios.Cp.clash_values 1
      ≤ CpModel.val_start Scenarios.Cp.clash_values 1
    ∧ CpModel.val_start Scenarios.Cp.clash_values 1 + CpModel.v_needed x
      ≤ 8 * (CpModel.val_day Scenarios.Cp.clash_values 1 + 1).
Proof.
  destruct (CpModel.build_model Scenarios.Cp.clash_data Scenarios.Cp.std_params)
    as [m|] eqn:Hm; [|by vm_compute in Hm].
  assert (CpModel.satisfies m Scenarios.Cp.clash_values = true) as Hs
    by (vm_compute in Hm; injection Hm as <-; by vm_compute).
  destruct (CpModel.m_vars m !! 1%nat) as [x|] eqn:Hx;
    [|vm_compute in Hm; injection Hm as <-; by vm_compute in Hx].
  assert (CpModel.v_needed x = 2) as Hn.
  { vm_compute in Hm. injection Hm as <-. vm_compute in Hx.
    by injection Hx as <-. }
  exists m, x. do 3 (split; [done|]).
  apply (CpFacts.cp_solution_stays_in_its_day Scenarios.Cp.clash_data
           Scenarios.Cp.std_params m Scenarios.Cp.clash_values 1%nat x 8
           Hm Hs); [reflexivity|lia|exact Hx].
Defined.

Lemma cp_instructors_never_double_booked_witness :
  ∃ m xi xj,
    CpModel.build_model Scenarios.Cp.clash_data Scenarios.Cp.std_params = Some m
    ∧ CpModel.m_vars m !! 0%nat = Some xi ∧ CpModel.m_vars m !! 1%nat = Some xj
    ∧ CpModel.val_instr Scenarios.Cp.clash_values 0
      = CpModel.val_instr Scenarios.Cp.clash_values 1
    ∧ (CpModel.val_start Scenarios.Cp.clash_values 0 + CpModel.v_needed xi
         ≤ CpModel.val_start Scenarios.Cp.clash_values 1
       ∨ CpModel.val_start Scenarios.Cp.clash_values 1 + CpModel.v_needed xj
         ≤ CpModel.val_start Scenarios.Cp.clash_values 0).
Proof.
  destruct (CpModel.build_model Scenarios.Cp.clash_data Scenarios.Cp.std_params)
    as [m|] eqn:Hm; [|by vm_compute in Hm].
  assert (CpModel.satisfies m Scenarios.Cp.clash_values = true) as Hs
    by (vm_compute in Hm; injection Hm as <-; by vm_compute).
  destruct (CpModel.m_vars m !! 0%nat) as [xi|] eqn:Hi;
    [|vm_compute in Hm; injection Hm as <-; by vm_compute in Hi].
  destruct (CpModel.m_vars m !! 1%nat) as [xj|] eqn:Hj;
    [|vm_compute in Hm; injection Hm as <-; by vm_compute in Hj].
  assert (is_Some (CpModel.v_instrs xi) ∧ is_Some (CpModel.v_instrs xj))
    as [Hii Hij].
  { vm_compute in Hm. injection Hm as <-. vm_compute in Hi, Hj.
    injection Hi as <-. injection Hj as <-. split; by eexists. }
  exists m, xi, xj. do 4 (split; [done|]).
  apply (CpFacts.cp_instructors_never_double_booked Scenarios.Cp.clash_data
           Scenarios.Cp.std_params m Scenarios.Cp.clash_values 8 0%nat 1%nat
           xi xj Hm Hs);
    [reflexivity|lia|done|exact Hi|exact Hj|exact Hii|exact Hij|reflexivity].
Defined.

Lemma cp_projects_of_a_group_share_a_day_witness :
  ∃ m xi xj,
    CpModel.build_model Scenarios.Cp.project_data Scenarios.Cp.long_day_params
      = Some m
    ∧ CpModel.satisfies m Scenarios.Cp.project_values = true
    ∧ CpModel.m_vars m !! 0%nat = Some xi ∧ CpModel.m_vars m !! 1%nat = Some xj
    ∧ CpModel.val_start Scenarios.Cp.project_values 0 = 0
    ∧ CpModel.val_start Scenarios.Cp.project_values 1 = 8
    ∧ CpModel.val_day Scenarios.Cp.project_values 0
      = CpModel.val_day Scenarios.Cp.project_values 1.
Proof.
  destruct (CpModel.build_model Scenarios.Cp.project_data
              Scenarios.Cp.long_day_params) as [m|] eqn:Hm;
    [|by vm_compute in Hm].
  assert (CpModel.satisfies m Scenarios.Cp.project_values = true) as Hs
    by (vm_compute in Hm; injection Hm as <-; by vm_compute).
  destruct (CpModel.m_vars m !! 0%nat) as [xi|] eqn:Hi;
    [|vm_compute in Hm; injection Hm as <-; by vm_compute in Hi].
  destruct (CpModel.m_vars m !! 1%nat) as [xj|] eqn:Hj;
    [|vm_compute in Hm; injection Hm as <-; by vm_compute in Hj].
  assert (CpModel.o_instance (CpModel.v_occ xi)
          = CpModel.project_instance Scenarios.Cp.two_kind_project
              (Scenarios.Cp.kind_of "Lecture" 360 None false) Scenarios.Cp.G1
          ∧ CpModel.o_instance (CpModel.v_occ xj)
            = CpModel.project_instance Scenarios.Cp.two_kind_project
                (Scenarios.Cp.kind_of "Lab" 360 None false) Scenarios.Cp.G1)
    as [Hoi Hoj].
  { vm_compute in Hm. injection Hm as <-. vm_compute in Hi, Hj.
    injection Hi as <-. injection Hj as <-. done. }
  exists m, xi, xj. do 6 (split; [done|]).
  apply (CpFacts.cp_projects_of_a_group_share_a_day m
           Scenarios.Cp.project_values 0%nat 1%nat xi xj "G1" Hs Hi Hj).
  - discriminate.
  - by rewrite Hoi.
  - by rewrite Hoi.
  - by rewrite Hoj.
  - by rewrite Hoj.
Defined.

Lemma precheck_clean_exactly_when_witness :
  ∃ errs,
    CpModel.quick_feasibility_checks Scenarios.Cp.clash_data
      Scenarios.Cp.std_params = Some errs
    ∧ (errs = [] ↔
       ∀ inst, inst ∈ CpModel.instances Scenarios.Cp.clash_data →
         (∃ l, CpModel.length_minutes inst = Some l
               ∧ l mod CpModel.base_slot_minutes Scenarios.Cp.std_params = 0)
         ∧ (CpModel.is_lab inst = true →
            truthy_str (CpModel.lab_type inst) = true)
         ∧ (∃ r, r ∈ CpModel.rooms Scenarios.Cp.clash_data
                 ∧ CpModel.precheck_room_ok inst r = true)
         ∧ (CpModel.i_type inst ≠ "Project" →
            ∃ i, i ∈ CpModel.instructors Scenarios.Cp.clash_data
                 ∧ CpModel.instr_ok inst i = true)).
Proof.
  apply (CpFacts.precheck_clean_exactly_when Scenarios.Cp.clash_data
           Scenarios.Cp.std_params).
  vm_compute. discriminate.
Defined.

Lemma clean_precheck_builds_the_model_witness :
  ∃ m, CpModel.build_model Scenarios.Cp.clash_data Scenarios.Cp.std_params
         = Some m
       ∧ length (CpModel.m_vars m)
         = length (CpModel.occurrences_of
                     (CpModel.instances Scenarios.Cp.clash_data))
       ∧ ∀ x, x ∈ CpModel.m_vars m →
           CpModel.length_minutes (CpModel.o_instance (CpModel.v_occ x))
           = Some (CpModel.v_needed x
                   * CpModel.base_slot_minutes Scenarios.Cp.std_params).
Proof.
  apply (CpFacts.clean_precheck_builds_the_model Scenarios.Cp.clash_data
           Scenarios.Cp.std_params 8).
  - vm_compute. reflexivity.
  - reflexivity.
  - lia.
Defined.

Lemma clean_precheck_instructor_domain_witness :
  CpModel.instr_candidates (CpModel.instructors Scenarios.Cp.clash_data)
    (CpModel.lecture_instance Scenarios.Cp.lecture_and_tut
       (Scenarios.Cp.kind_of "Lecture" 90 None false) Scenarios.Cp.G1)
  = [0%nat]
  ∧ CpModel.instr_domain (CpModel.instructors Scenarios.Cp.clash_data)
      (CpModel.lecture_instance Scenarios.Cp.lecture_and_tut
         (Scenarios.Cp.kind_of "Lecture" 90 None false) Scenarios.Cp.G1)
    = Some (CpModel.instr_candidates
              (CpModel.instructors Scenarios.Cp.clash_data)
              (CpModel.lecture_instance Scenarios.Cp.lecture_and_tut
                 (Scenarios.Cp.kind_of "Lecture" 90 None false)
                 Scenarios.Cp.G1)).
Proof.
  split; [reflexivity|].
  apply (CpFacts.clean_precheck_instructor_domain Scenarios.Cp.clash_data
           Scenarios.Cp.std_params
           (CpModel.lecture_instance Scenarios.Cp.lecture_and_tut
              (Scenarios.Cp.kind_of "Lecture" 90 None false) Scenarios.Cp.G1)).
  - vm_compute. reflexivity.
  - vm_compute. left.
  - discriminate.
  - reflexivity.
Defined.

Lemma cp_entry_decodes_its_start_witness :
  ∃ m x e,
    CpModel.build_model Scenarios.Cp.clash_data Scenarios.Cp.std_params = Some m
    ∧ CpModel.m_vars m !! 1%nat = Some x
    ∧ CpModel.entry_of Scenarios.Cp.clash_data 8 Scenarios.Cp.clash_values
        1%nat x = Some e
    ∧ CpModel.e_day e = "Sunday" ∧ CpModel.e_period e = 2
    ∧ CpModel.e_start_subslot_index e
      = CpModel.val_start Scenarios.Cp.clash_values 1
    ∧ 0 ≤ CpModel.e_subslot e < 2
    ∧ CpModel.length_minutes (CpModel.o_instance (CpModel.v_occ x))
      = Some (CpModel.e_length_subslots e * CpModel.BASE_SLOT_MINUTES).
Proof.
  destruct (CpModel.build_model Scenarios.Cp.clash_data Scenarios.Cp.std_params)
    as [m|] eqn:Hm; [|by vm_compute in Hm].
  destruct (CpModel.m_vars m !! 1%nat) as [x|] eqn:Hx;
    [|vm_compute in Hm; injection Hm as <-; by vm_compute in Hx].
  destruct (CpModel.entry_of Scenarios.Cp.clash_data 8
              Scenarios.Cp.clash_values 1%nat x) as [e|] eqn:He.
  2:{ vm_compute in Hm. injection Hm as <-. vm_compute in Hx.
      injection Hx as <-. by vm_compute in He. }
  assert (CpModel.e_day e = "Sunday" ∧ CpModel.e_period e = 2) as [Hd Hp].
  { vm_compute in Hm. injection Hm as <-. vm_compute in Hx.
    injection Hx as <-. vm_compute in He. by injection He as <-. }
  exists m, x, e. do 5 (split; [done|]).
  pose proof (CpFacts.cp_entry_decodes_its_start Scenarios.Cp.clash_data 8
                Scenarios.Cp.clash_values 1%nat x e He)
    as (Hs & _ & Hsub & _ & Hl).
  split; [exact Hs|]. split; [exact Hsub|exact Hl].
Defined.

Lemma cp_unscheduled_lists_every_occurrence_witness :
  CpModel.build_and_solve
    (fun _ => (CpModel.INFEASIBLE, Scenarios.Cp.clash_values))
    Scenarios.Cp.clash_data Scenarios.Cp.std_params
  = Some (CpModel.Unscheduled CpModel.INFEASIBLE 3
            ["C1_G1_LEC"; "C1_G1_LEC"; "C1_S1_TUT"])
  ∧ ["C1_G1_LEC"; "C1_G1_LEC"; "C1_S1_TUT"]
    = (fun o => CpModel.instance_id (CpModel.o_instance o))
        <$> CpModel.occurrences_of (CpModel.instances Scenarios.Cp.clash_data)
  ∧ 3%nat = length ["C1_G1_LEC"; "C1_G1_LEC"; "C1_S1_TUT"].
Proof.
  assert (CpModel.build_and_solve
            (fun _ => (CpModel.INFEASIBLE, Scenarios.Cp.clash_values))
            Scenarios.Cp.clash_data Scenarios.Cp.std_params
          = Some (CpModel.Unscheduled CpModel.INFEASIBLE 3
                    ["C1_G1_LEC"; "C1_G1_LEC"; "C1_S1_TUT"])) as H
    by (vm_compute; reflexivity).
  split; [exact H|].
  apply (CpFacts.cp_unscheduled_lists_every_occurrence _ _ _ _ _ _) in H
    as (_ & _ & _ & Hids & Hn).
  by split.
Defined.

Lemma cp_entry_respects_the_domains_witness :
  ∃ m x e,
    CpModel.build_model Scenarios.Cp.clash_data Scenarios.Cp.std_params = Some m
    ∧ CpModel.m_vars m !! 2%nat = Some x
    ∧ CpModel.entry_of Scenarios.Cp.clash_data 8 Scenarios.Cp.clash_values
        2%nat x = Some e
    ∧ CpModel.e_type e = "Tut" ∧ CpModel.e_instructor_id e = Some "T1"
    ∧ CpModel.e_room_type e
        ∈ CpModel.valid_room_types_for_session (CpModel.e_type e)
    ∧ ∃ instr,
        CpModel.instructors Scenarios.Cp.clash_data
          !! CpModel.val_instr Scenarios.Cp.clash_values 2 = Some instr
        ∧ CpModel.instr_id instr = "T1"
        ∧ CpModel.e_course_id e ∈ CpModel.qualified_courses instr
        ∧ (CpModel.e_type e = "Lecture" ∧ CpModel.role instr = "Professor"
           ∨ (CpModel.e_type e = "Lab" ∨ CpModel.e_type e = "Tut")
             ∧ CpModel.role instr = "TA").
Proof.
  destruct (CpModel.build_model Scenarios.Cp.clash_data Scenarios.Cp.std_params)
    as [m|] eqn:Hm; [|by vm_compute in Hm].
  assert (CpModel.satisfies m Scenarios.Cp.clash_values = true) as Hs
    by (vm_compute in Hm; injection Hm as <-; by vm_compute).
  destruct (CpModel.m_vars m !! 2%nat) as [x|] eqn:Hx;
    [|vm_compute in Hm; injection Hm as <-; by vm_compute in Hx].
  destruct (CpModel.entry_of Scenarios.Cp.clash_data 8
              Scenarios.Cp.clash_values 2%nat x) as [e|] eqn:He.
  2:{ vm_compute in Hm. injection Hm as <-. vm_compute in Hx.
      injection Hx as <-. by vm_compute in He. }
  assert (CpModel.e_type e = "Tut" ∧ CpModel.e_instructor_id e = Some "T1")
    as [Hty Hi].
  { vm_compute in Hm. injection Hm as <-. vm_compute in Hx.
    injection Hx as <-. vm_compute in He. by injection He as <-. }
  exists m, x, e. do 5 (split; [done|]).
  destruct (CpFacts.cp_entry_respects_the_domains Scenarios.Cp.clash_data
              Scenarios.Cp.std_params m Scenarios.Cp.clash_values 8 2%nat x e)
    as (Hroom & _ & _ & Hinstr); [by vm_compute|exact Hm|exact Hs|exact Hx|exact He|].
  split; [exact Hroom|]. exact (Hinstr "T1" Hi).
Defined.

Lemma generated_instance_origin_witness :
  ∃ course kind,
    course ∈ [Scenarios.Cp.lecture_and_tut] ∧ kind ∈ CpModel.c_kinds course
    ∧ CpModel.course_id
        (CpModel.tut_instance Scenarios.Cp.lecture_and_tut
           (Scenarios.Cp.kind_of "Tut" 45 None false) Scenarios.Cp.S1)
      = CpModel.c_course_id course.
Proof.
  destruct (CpFacts.generated_instance_origin [Scenarios.Cp.lecture_and_tut]
              [Scenarios.Cp.G1] [Scenarios.Cp.S1]
              (CpModel.tut_instance Scenarios.Cp.lecture_and_tut
                 (Scenarios.Cp.kind_of "Tut" 45 None false) Scenarios.Cp.S1))
    as (course & kind & Hc & Hk & Hid & _).
  - vm_compute. right. left.
  - by exists course, kind.
Defined.

Lemma every_cohort_gets_its_instance_witness :
  CpModel.lecture_instance Scenarios.Cp.lecture_and_tut
    (Scenarios.Cp.kind_of "Lecture" 90 None false) Scenarios.Cp.G1
  ∈ CpModel.generate_instances [Scenarios.Cp.lecture_and_tut]
      [Scenarios.Cp.G1] [Scenarios.Cp.S1].
Proof.
  refine (proj1 (CpFacts.every_cohort_gets_its_instance
                   [Scenarios.Cp.lecture_and_tut] [Scenarios.Cp.G1]
                   [Scenarios.Cp.S1] Scenarios.Cp.lecture_and_tut
                   (Scenarios.Cp.kind_of "Lecture" 90 None false)
                   Scenarios.Cp.G1 _ _ _ _ _) _).
  - left.
  - left.
  - reflexivity.
  - left.
  - reflexivity.
  - reflexivity.
Defined.

Lemma cp_schedule_never_double_books_witness :
  ∃ schedule e1 e2,
    CpModel.build_and_solve
      (fun _ => (CpModel.FEASIBLE, Scenarios.Cp.clash_values))
      Scenarios.Cp.clash_data Scenarios.Cp.std_params
    = Some (CpModel.Scheduled CpModel.FEASIBLE 3 schedule)
    ∧ schedule !! 0%nat = Some e1 ∧ schedule !! 1%nat = Some e2
    ∧ CpModel.e_room_id e1 = CpModel.e_room_id e2
    ∧ (CpModel.e_start_subslot_index e1 + CpModel.e_length_subslots e1
         ≤ CpModel.e_start_subslot_index e2
       ∨ CpModel.e_start_subslot_index e2 + CpModel.e_length_subslots e2
         ≤ CpModel.e_start_subslot_index e1).
Proof.
  destruct (CpModel.build_model Scenarios.Cp.clash_data Scenarios.Cp.std_params)
    as [m|] eqn:Hm; [|by vm_compute in Hm].
  assert (CpModel.satisfies m Scenarios.Cp.clash_values = true) as Hs
    by (vm_compute in Hm; injection Hm as <-; by vm_compute).
  eexists _, _, _. split; [vm_compute; reflexivity|].
  split; [reflexivity|]. split; [reflexivity|]. split; [reflexivity|].
  eapply (CpFacts.cp_schedule_never_double_books
            (fun _ => (CpModel.FEASIBLE, Scenarios.Cp.clash_values))
            Scenarios.Cp.clash_data Scenarios.Cp.std_params CpModel.FEASIBLE
            3%nat _ m 0%nat 1%nat).
  - vm_compute. reflexivity.
  - exact Hm.
  - exact Hs.
  - reflexivity.
  - vm_compute. repeat constructor; set_solver.
  - reflexivity.
  - reflexivity.
  - done.
  - left. reflexivity.
Defined.

(** ** The further properties of the backtracking scheduler on worked inputs *)

Lemma failed_search_restores_the_board_witness :
  ∃ sessions st',
    Backtracking._get_all_sessions_to_schedule Scenarios.Bt.unstaffed
      = Some sessions
    ∧ Backtracking.solve_by_course Scenarios.Bt.unstaffed sessions
        Backtracking.initial_state = Backtracking.Returns false st'
    ∧ Backtracking.attempts st' = 40 ∧ Backtracking.backtracks st' = 20
    ∧ Backtracking.timetable st'
      = Backtracking.timetable Backtracking.initial_state
    ∧ Backtracking.instructor_busy st'
      = Backtracking.instructor_busy Backtracking.initial_state
    ∧ Backtracking.room_busy st'
      = Backtracking.room_busy Backtracking.initial_state.
Proof.
  destruct (Backtracking._get_all_sessions_to_schedule Scenarios.Bt.unstaffed)
    as [sessions|] eqn:Hall; [|by vm_compute in Hall].
  destruct (Backtracking.solve_by_course Scenarios.Bt.unstaffed sessions
              Backtracking.initial_state) as [| |[|] st'] eqn:Hsolve.
  1-3: exfalso; vm_compute in Hall; injection Hall as <-;
    vm_compute in Hsolve; discriminate.
  exists sessions, st'. split; [done|]. split; [done|].
  assert (Backtracking.attempts st' = 40 ∧ Backtracking.backtracks st' = 20)
    as [Ha Hb].
  { vm_compute in Hall. injection Hall as <-. vm_compute in Hsolve.
    by injection Hsolve as <-. }
  split; [exact Ha|]. split; [exact Hb|].
  apply (BtFacts.failed_search_restores_the_board 0%nat Scenarios.Bt.unstaffed
           0%nat sessions Backtracking.initial_state st').
  by right.
Defined.

Lemma backtracker_sections_never_clash_witness :
  ∃ n schedule att bt e1 e2,
    Backtracking.schedule_timetable 5 Scenarios.Bt.two_lectures "course"
      = Some (Backtracking.Success n schedule att bt)
    ∧ schedule !! 0%nat = Some e1 ∧ schedule !! 1%nat = Some e2
    ∧ Backtracking.e_section_id e1 = Backtracking.e_section_id e2
    ∧ Backtracking.e_day e1 = Backtracking.e_day e2
    ∧ ((Backtracking.e_course_id e1 = Backtracking.e_course_id e2
        ∧ Backtracking.e_type e1 = Backtracking.e_type e2
        ∧ Backtracking.e_start_period e1 = Backtracking.e_start_period e2
        ∧ Backtracking.e_end_period e1 = Backtracking.e_end_period e2)
       ∨ Backtracking.e_end_period e1 < Backtracking.e_start_period e2
       ∨ Backtracking.e_end_period e2 < Backtracking.e_start_period e1).
Proof.
  eexists _, _, _, _, _, _. split; [vm_compute; reflexivity|].
  split; [reflexivity|]. split; [reflexivity|].
  split; [reflexivity|]. split; [reflexivity|].
  eapply (BtFacts.backtracker_sections_never_clash 5%nat
            Scenarios.Bt.two_lectures "course").
  - vm_compute. reflexivity.
  - left.
  - right. left.
  - reflexivity.
  - reflexivity.
Defined.

Lemma backtracker_instructors_never_clash_witness :
  ∃ n schedule att bt e1 e2,
    Backtracking.schedule_timetable 5 Scenarios.Bt.two_lectures "course"
      = Some (Backtracking.Success n schedule att bt)
    ∧ schedule !! 0%nat = Some e1 ∧ schedule !! 1%nat = Some e2
    ∧ Backtracking.e_instructor_id e1 = Backtracking.e_instructor_id e2
    ∧ Backtracking.e_day e1 = Backtracking.e_day e2
    ∧ ((Backtracking.e_course_id e1 = Backtracking.e_course_id e2
        ∧ Backtracking.e_type e1 = Backtracking.e_type e2
        ∧ Backtracking.e_start_period e1 = Backtracking.e_start_period e2
        ∧ Backtracking.e_end_period e1 = Backtracking.e_end_period e2
        ∧ Backtracking.e_room_id e1 = Backtracking.e_room_id e2)
       ∨ Backtracking.e_end_period e1 < Backtracking.e_start_period e2
       ∨ Backtracking.e_end_period e2 < Backtracking.e_start_period e1).
Proof.
  eexists _, _, _, _, _, _. split; [vm_compute; reflexivity|].
  split; [reflexivity|]. split; [reflexivity|].
  split; [reflexivity|]. split; [reflexivity|].
  eapply (BtFacts.backtracker_instructors_never_clash 5%nat
            Scenarios.Bt.two_lectures "course").
  - vm_compute. reflexivity.
  - left.
  - right. left.
  - reflexivity.
  - reflexivity.
Defined.

Lemma backtracker_rooms_never_clash_witness :
  ∃ n schedule att bt e1 e2,
    Backtracking.schedule_timetable 5 Scenarios.Bt.two_lectures "section"
      = Some (Backtracking.Success n schedule att bt)
    ∧ schedule !! 0%nat = Some e1 ∧ schedule !! 1%nat = Some e2
    ∧ Backtracking.e_room_id e1 = Backtracking.e_room_id e2
    ∧ Backtracking.e_day e1 = Backtracking.e_day e2
    ∧ ((Backtracking.e_course_id e1 = Backtracking.e_course_id e2
        ∧ Backtracking.e_type e1 = Backtracking.e_type e2
        ∧ Backtracking.e_start_period e1 = Backtracking.e_start_period e2
        ∧ Backtracking.e_end_period e1 = Backtracking.e_end_period e2
        ∧ Backtracking.e_instructor_id e1 = Backtracking.e_instructor_id e2)
       ∨ Backtracking.e_end_period e1 < Backtracking.e_start_period e2
       ∨ Backtracking.e_end_period e2 < Backtracking.e_start_period e1).
Proof.
  eexists _, _, _, _, _, _. split; [vm_compute; reflexivity|].
  split; [reflexivity|]. split; [reflexivity|].
  split; [reflexivity|]. split; [reflexivity|].
  eapply (BtFacts.backtracker_rooms_never_clash 5%nat
            Scenarios.Bt.two_lectures "section").
  - vm_compute. reflexivity.
  - left.
  - right. left.
  - reflexivity.
  - discriminate.
  - reflexivity.
Defined.

Lemma backtracker_entries_come_from_the_catalog_witness :
  ∃ n schedule att bt e course kind,
    Backtracking.schedule_timetable 5 Scenarios.Bt.two_lectures "section"
      = Some (Backtracking.Success n schedule att bt)
    ∧ schedule !! 1%nat = Some e
    ∧ course ∈ Backtracking.courses Scenarios.Bt.two_lectures
    ∧ kind ∈ Backtracking.kinds course
    ∧ Backtracking.e_course_id e = Backtracking.course_id course
    ∧ Backtracking.e_type e = Backtracking.k_type kind
    ∧ Backtracking.e_duration_periods e = Backtracking.k_length kind / 45
    ∧ Backtracking.is_project course = false.
Proof.
  destruct (Backtracking.schedule_timetable 5 Scenarios.Bt.two_lectures "section")
    as [[n schedule att bt| |]|] eqn:Hrun; try (by vm_compute in Hrun).
  destruct (schedule !! 1%nat) as [e|] eqn:He;
    [|vm_compute in Hrun; injection Hrun as _ <- _ _; by vm_compute in He].
  destruct (BtFacts.backtracker_entries_come_from_the_catalog 5%nat
              Scenarios.Bt.two_lectures "section" n schedule att bt e Hrun)
    as (course & kind & Hc & Hk & Hid & Hty & Hdur & Hp & _).
  - apply list_elem_of_lookup. by exists 1%nat.
  - exists n, schedule, att, bt, e, course, kind.
    split; [done|]. split; [done|]. split; [done|]. split; [done|].
    split; [done|]. split; [done|]. split; [done|]. by apply Hp.
Defined.

Lemma lab_groups_partition_witness :
  concat (Backtracking.lab_groups 2
            [Scenarios.Bt.S1; Scenarios.Bt.S1; Scenarios.Bt.S1])
  = Backtracking.section_id
      <$> [Scenarios.Bt.S1; Scenarios.Bt.S1; Scenarios.Bt.S1]
  ∧ Backtracking.lab_groups 0 [Scenarios.Bt.S1; Scenarios.Bt.S1]
    = [[]; ["S1"]; ["S1"]].
Proof.
  split.
  - apply (proj1 (BtFacts.lab_groups_partition 2
                    [Scenarios.Bt.S1; Scenarios.Bt.S1; Scenarios.Bt.S1])).
    lia.
  - apply (proj2 (BtFacts.lab_groups_partition 0
                    [Scenarios.Bt.S1; Scenarios.Bt.S1])); [lia|discriminate].
Defined.

Lemma every_placed_section_gets_an_entry_witness :
  ∃ n schedule att bt e,
    Backtracking._extract_solution Scenarios.Bt.one_lecture
      (Backtracking._place_assignment Backtracking.initial_state
         (Scenarios.Bt.lecture_at 0 0 2))
    = Some (Backtracking.Success n schedule att bt)
    ∧ n = length schedule
    ∧ e ∈ schedule ∧ Backtracking.e_section_id e = "S1"
    ∧ Backtracking.e_course_id e = "C1"
    ∧ Backtracking.e_type e = "Lecture"
    ∧ Backtracking.e_start_period e = 1
    ∧ Backtracking.e_day e = "Sunday".
Proof.
  destruct (Backtracking._extract_solution Scenarios.Bt.one_lecture
              (Backtracking._place_assignment Backtracking.initial_state
                 (Scenarios.Bt.lecture_at 0 0 2)))
    as [[n schedule att bt| |]|] eqn:Hex; try (by vm_compute in Hex).
  destruct (BtFacts.every_placed_section_gets_an_entry
              Scenarios.Bt.one_lecture
              (Backtracking._place_assignment Backtracking.initial_state
                 (Scenarios.Bt.lecture_at 0 0 2))
              n schedule att bt "S1" 0 0 (Scenarios.Bt.lecture_at 0 0 2) "S1" Hex)
    as (Hn & e & He & Hs & Hc & Ht & Hp & Hd).
  - vm_compute. left.
  - left.
  - exists n, schedule, att, bt, e. split; [done|]. split; [done|].
    split; [done|]. split; [done|]. split; [done|]. split; [done|].
    split; [done|].
    assert (py_index Backtracking.DAY_NAMES 0 = Some "Sunday") as Hd'
      by reflexivity.
    congruence.
Defined.

Lemma course_strategy_schedules_every_session_witness :
  ∃ n schedule att bt e,
    Backtracking.schedule_timetable 5 Scenarios.Bt.two_lectures "course"
      = Some (Backtracking.Success n schedule att bt)
    ∧ e ∈ schedule ∧ Backtracking.e_section_id e = "S1"
    ∧ Backtracking.e_course_id e = "C2"
    ∧ Backtracking.e_type e = "Lecture".
Proof.
  destruct (Backtracking.schedule_timetable 5 Scenarios.Bt.two_lectures "course")
    as [[n schedule att bt| |]|] eqn:Hrun; try (by vm_compute in Hrun).
  destruct (Backtracking._get_all_sessions_to_schedule Scenarios.Bt.two_lectures)
    as [all|] eqn:Hall; [|by vm_compute in Hall].
  destruct (BtFacts.course_strategy_schedules_every_session 5%nat
              Scenarios.Bt.two_lectures "course" n schedule att bt all
              (Scenarios.Bt.course_of "C2" [Scenarios.Bt.lecture 90])
              (Scenarios.Bt.lecture 90) ["S1"] "S1")
    as (e & He & Hs & Hc & Ht).
  - discriminate.
  - intros c k Hc Hk. simpl in Hc.
    apply elem_of_cons in Hc as [->|Hc];
      [|apply list_elem_of_singleton in Hc as ->];
      apply list_elem_of_singleton in Hk as ->; simpl; lia.
  - exact Hrun.
  - exact Hall.
  - vm_compute in Hall. injection Hall as <-. right. left.
  - left.
  - by exists n, schedule, att, bt, e.
Defined.

Lemma no_sections_edge_witness :
  Backtracking.schedule_timetable 1 Scenarios.Bt.no_sections "section"
  = Some (Backtracking.Success 0 [] 0 0)
  ∧ Backtracking.schedule_timetable 1 Scenarios.Bt.no_sections "course"
    = Some Backtracking.Error.
Proof.
  split.
  - apply (proj1 (BtFacts.no_sections_edge 0%nat Scenarios.Bt.no_sections
                    "section" eq_refl)).
    reflexivity.
  - apply (proj2 (BtFacts.no_sections_edge 1%nat Scenarios.Bt.no_sections
                    "course" eq_refl)); [discriminate|].
    exists (Scenarios.Bt.course_of "C1" [Scenarios.Bt.lecture 90]).
    split; [left|discriminate].
Defined.

Lemma target_sections_are_the_cohort_witness :
  ∃ s g,
    s ∈ Backtracking.all_sections Scenarios.Bt.one_lecture
    ∧ Backtracking.section_id s = "S1"
    ∧ g ∈ Backtracking.groups Scenarios.Bt.one_lecture
    ∧ Backtracking.group_id g = Backtracking.s_group_id s
    ∧ Backtracking.g_year g = 1.
Proof.
  destruct (BtFacts.target_sections_are_the_cohort Scenarios.Bt.one_lecture
              (Scenarios.Bt.course_of "C1" [Scenarios.Bt.lecture 90])
              (Scenarios.Bt.lecture 90) Scenarios.Bt.S1 [["S1"]] ["S1"] "S1")
    as (s & g & Hs & Hid & Hg & Hgid & Hy & _).
  - reflexivity.
  - vm_compute. reflexivity.
  - left.
  - left.
  - by exists s, g.
Defined.

Lemma reported_counters_are_consistent_witness :
  Backtracking.schedule_timetable 5 Scenarios.Bt.unstaffed "course"
  = Some (Backtracking.Failed 40 20)
  ∧ 0 ≤ 20 ≤ 40.
Proof.
  assert (Backtracking.schedule_timetable 5 Scenarios.Bt.unstaffed "course"
          = Some (Backtracking.Failed 40 20)) as H
    by (vm_compute; reflexivity).
  split; [exact H|].
  apply (BtFacts.reported_counters_are_consistent 5%nat Scenarios.Bt.unstaffed
           "course" 40 20).
  right. exact H.
Defined.

Lemma section_without_group_is_an_error_witness :
  Backtracking.schedule_timetable 1 Scenarios.Bt.orphan_section "section"
  = Some Backtracking.Error.
Proof.
  apply (BtFacts.section_without_group_is_an_error 0%nat
           Scenarios.Bt.orphan_section Scenarios.Bt.S1).
  - reflexivity.
  - intros g Hg. by apply elem_of_nil in Hg.
  - discriminate.
Defined.
